(** * Cosinc capture pipeline: a shallow embedding of the TypeScript sources

    The development follows the layout of the repository:
    - [Js]: the fragment of JavaScript strings and errors the services use;
    - [ClipboardCapture], [ActiveWindowCapture], [BrowserTabCapture]:
      the three source adapters (electron/services), over [ChildProcess];
    - [CaptureTypes]: the captured record (src/types/capture.ts);
    - [Trace]: the events whose order matters (hooks, grab, posts, sleeps);
    - [WebhookService]: the delivery service with its retry loop;
    - [Effects]: the state/exception monad in which the stateful code runs,
      together with the file system, the SQLite table and the fault oracles;
    - [DatabaseHelper]: the persistence index (electron/DatabaseHelper.ts);
    - [ContextAggregator]: the orchestrator (captureContext, sendToWebhook,
      loadCapture, deleteCapture, retryWebhook, cleanupOldCaptures);
    - [Session]: sequences of orchestrator operations;
    - [Samples]: the concrete inputs of the examples.

    Definitions come first, the theorems about them afterwards. *)

From Stdlib Require Import String Ascii ZArith NArith Lia DecimalString.
From stdpp Require Import base decidable option list sets gmap sorting.

Local Open Scope Z_scope.

(** ** JavaScript strings

    A JavaScript string is a sequence of UTF-16 code units; [length],
    [substring], [trim], [split] and the regular expressions of the sources
    all work on code units. *)
Module Js.

Definition JsString : Type := list N.

(** ASCII literals of the sources, written [js "..."]. *)
Definition js (s : string) : JsString :=
  List.map N_of_ascii (list_ascii_of_string s).

(** [s.length]. *)
Definition jslength (s : JsString) : Z := Z.of_nat (length s).

(** Truthiness of a string: the empty string is the only falsy one. *)
Definition truthy (s : JsString) : bool :=
  match s with [] => false | _ :: _ => true end.

(** [s || d] on strings. *)
Definition or_else (s d : JsString) : JsString :=
  if truthy s then s else d.

(** [o || d] where [o] may be [null]/[undefined]. *)
Definition opt_or_else (o : option JsString) (d : JsString) : JsString :=
  match o with
  | Some s => or_else s d
  | None => d
  end.

(** [s || undefined]. *)
Definition or_undefined (s : JsString) : option JsString :=
  if truthy s then Some s else None.

(** WhiteSpace and LineTerminator code units of ECMAScript, the characters
    [String.prototype.trim] removes. *)
Definition is_whitespace (c : N) : bool :=
  ((9 <=? c) && (c <=? 13) || (c =? 32) || (c =? 160) || (c =? 5760)
   || (8192 <=? c) && (c <=? 8202) || (c =? 8232) || (c =? 8233)
   || (c =? 8239) || (c =? 8287) || (c =? 12288) || (c =? 65279))%N.

Fixpoint trimStart (s : JsString) : JsString :=
  match s with
  | [] => []
  | c :: s' => if is_whitespace c then trimStart s' else s
  end.

Definition trimEnd (s : JsString) : JsString := rev (trimStart (rev s)).

(** [s.trim()]. *)
Definition trim (s : JsString) : JsString := trimEnd (trimStart s).

(** [s.substring(0, n)] for a non-negative [n]. *)
Definition substring0 (n : Z) (s : JsString) : JsString := take (Z.to_nat n) s.

(** [s.split(sep)] for a separator of one code unit.  [cur] is the piece
    being read; the result always has at least one piece. *)
Fixpoint split_from (sep : N) (cur : JsString) (s : JsString) : list JsString :=
  match s with
  | [] => [cur]
  | c :: s' =>
      if (c =? sep)%N then cur :: split_from sep [] s'
      else split_from sep (cur ++ [c]) s'
  end.

Definition split (sep : N) (s : JsString) : list JsString := split_from sep [] s.

(** Decimal rendering of a number inside a template literal. *)
Definition of_Z (z : Z) : JsString :=
  js (NilZero.string_of_int (Z.to_int z)).

(** A thrown [Error].  [isAxiosError] is [error instanceof AxiosError];
    [responseStatus] is [error.response.status] when a response came back. *)
Record JsError := mkError {
  message : JsString;
  isAxiosError : bool;
  responseStatus : option Z
}.

Definition plainError (msg : string) : JsError :=
  mkError (js msg) false None.

End Js.
Export Js.

(** ** electron/services/ClipboardCapture.ts *)
Module ClipboardCapture.

Inductive ClipboardType := plain | html.

Record ClipboardContent := mkClipboard {
  text : JsString;
  type : ClipboardType
}.

Definition maxLength : Z := 10000.

Definition truncationMarker : JsString := js "... [truncated]".

(** The character class [[\x00-\x08\x0B-\x0C\x0E-\x1F\x7F]]. *)
Definition is_control (c : N) : bool :=
  ((c <=? 8) || (11 <=? c) && (c <=? 12) || (14 <=? c) && (c <=? 31)
   || (c =? 127))%N.

(** [text.replace(/\0/g, '')]. *)
Definition removeNul (s : JsString) : JsString :=
  filter (fun c => c ≠ 0%N) s.

(** [text.replace(/[\x00-\x08\x0B-\x0C\x0E-\x1F\x7F]/g, '')]. *)
Definition removeControl (s : JsString) : JsString :=
  filter (fun c => is_control c = false) s.

(** The text after the two replacements and the trim, before the cap. *)
Definition cleaned (text : JsString) : JsString :=
  trim (removeControl (removeNul text)).

Definition sanitizeText (text : JsString) : option JsString :=
  if negb (truthy text) || (jslength (trim text) =? 0) then None
  else
    let sanitized := removeNul text in
    let sanitized := removeControl sanitized in
    let sanitized := trim sanitized in
    let sanitized :=
      if jslength sanitized >? maxLength
      then substring0 maxLength sanitized ++ truncationMarker
      else sanitized in
    if jslength sanitized >? 0 then Some sanitized else None.

(** A read of the system clipboard: the text, or the exception it raised. *)
Inductive ClipboardRead :=
| ReadOk (content : JsString)
| ReadThrows (e : JsError).

Definition captureClipboard (readHTML readText : ClipboardRead)
  : option ClipboardContent :=
  match readHTML with
  | ReadThrows _ => None
  | ReadOk htmlText =>
      let fromPlain :=
        match readText with
        | ReadThrows _ => None
        | ReadOk plainText =>
            if truthy plainText && (jslength (trim plainText) >? 0) then
              match sanitizeText plainText with
              | Some sanitized => Some (mkClipboard sanitized plain)
              | None => None
              end
            else None
        end in
      if truthy htmlText && (jslength (trim htmlText) >? 0) then
        match sanitizeText htmlText with
        | Some sanitized => Some (mkClipboard sanitized html)
        | None => fromPlain
        end
      else fromPlain
  end.

(** [hasTextContent]: the value of [text && text.trim().length > 0], read as
    a condition. *)
Definition hasTextContent (readText : ClipboardRead) : bool :=
  match readText with
  | ReadOk text => truthy text && (jslength (trim text) >? 0)
  | ReadThrows _ => false
  end.

Definition previewLength : Z := 100.

(** [getPreview]: the first 100 code units of the captured text. *)
Definition getPreview (readHTML readText : ClipboardRead) : option JsString :=
  match captureClipboard readHTML readText with
  | None => None
  | Some content =>
      if jslength (text content) <=? previewLength then Some (text content)
      else Some (substring0 previewLength (text content) ++ js "...")
  end.

End ClipboardCapture.

(** ** Child processes

    [execWithTimeout] races [exec] against a timer: the promise resolves with
    the standard output of the script, or rejects with the process error or
    with [Error('Command timeout')]. *)
Module ChildProcess.

Inductive ExecResult :=
| ExecResolved (stdout : JsString)
| ExecRejected (e : JsError).

Definition commandTimeout : JsError := plainError "Command timeout".

End ChildProcess.
Export ChildProcess.

(** ** electron/services/ActiveWindowCapture.ts *)
Module ActiveWindowCapture.

Record ActiveWindowInfo := mkActiveWindowInfo {
  app : JsString;
  title : JsString;
  bundleId : option JsString
}.

Record AppInfo := mkAppInfo {
  name : JsString;
  appBundleId : option JsString
}.

(** [parts[i]], [undefined] past the end. *)
Definition part (parts : list JsString) (i : nat) : option JsString := parts !! i.

Definition getFrontmostApp (run : ExecResult) : option AppInfo :=
  match run with
  | ExecResolved stdout =>
      let parts := split 124 (trim stdout) in
      Some {| name := opt_or_else (part parts 0) (js "Unknown");
              appBundleId := from_option or_undefined None (part parts 1) |}
  | ExecRejected _ => None
  end.

Definition getWindowTitle (run : ExecResult) : option JsString :=
  match run with
  | ExecResolved stdout => or_undefined (trim stdout)
  | ExecRejected _ => None
  end.

(** Both queries catch their own failures, so the [Promise.all] of the two
    never rejects and the outer [catch] is not reached. *)
Definition captureActiveWindow (frontApp windowTitle : ExecResult)
  : option ActiveWindowInfo :=
  let appInfo := getFrontmostApp frontApp in
  let windowTitle := getWindowTitle windowTitle in
  match appInfo with
  | None => None
  | Some appInfo =>
      Some {| app := name appInfo;
              title := opt_or_else windowTitle (js "Unknown");
              bundleId := appBundleId appInfo |}
  end.

End ActiveWindowCapture.

(** ** electron/services/BrowserTabCapture.ts (class BrowserTabCapture) *)
Module BrowserTabCapture.

Record BrowserTab := mkTab {
  title : JsString;
  url : JsString;
  domain : JsString;
  browser : option JsString
}.

(** The part of a WHATWG [URL] object the adapter reads. *)
Record URL := mkURL { hostname : JsString }.

(** An outcome of [Promise.allSettled]. *)
Inductive Settled (A : Type) :=
| Fulfilled (value : A)
| Rejected (reason : JsError).
Arguments Fulfilled {A} value.
Arguments Rejected {A} reason.

Definition maxTabs : nat := 50.

Section WithURL.

(** [new URL(url)] of the platform: [None] when the constructor throws. *)
Variable parseURL : JsString -> option URL.

(** The url of the tab parses and the domain is the host name of the parse. *)
Definition well_formed_tab (tab : BrowserTab) : Prop :=
  exists urlObj, parseURL (url tab) = Some urlObj /\ domain tab = hostname urlObj.

(** The loop [for (i = 0; i < parts.length - 1; i += 2)] reads the parts two
    by two and stops when fewer than two are left. *)
Fixpoint tabsOfParts (browser : JsString) (parts : list JsString) : list BrowserTab :=
  match parts with
  | url :: title :: rest =>
      (if truthy url && truthy title then
         match parseURL url with
         | Some urlObj =>
             [ {| title := title; url := url; domain := hostname urlObj;
                  browser := Some browser |} ]
         | None => []
         end
       else [])
      ++ tabsOfParts browser rest
  | _ => []
  end.

Definition parseAppleScriptTabOutput (output browser : JsString) : list BrowserTab :=
  if negb (truthy output) || negb (truthy (trim output)) then []
  else
    let parts := List.map trim (split 44 output) in
    tabsOfParts browser parts.

(** The four browser queries differ in the script they run and in the
    browser name; each parses the output of a resolved run and turns a
    rejected run (an error or a timeout) into the empty list. *)
Definition captureChromeTabs (run : ExecResult) : list BrowserTab :=
  match run with
  | ExecResolved stdout => parseAppleScriptTabOutput stdout (js "Chrome")
  | ExecRejected _ => []
  end.

Definition captureSafariTabs (run : ExecResult) : list BrowserTab :=
  match run with
  | ExecResolved stdout => parseAppleScriptTabOutput stdout (js "Safari")
  | ExecRejected _ => []
  end.

Definition captureFirefoxTabs (run : ExecResult) : list BrowserTab :=
  match run with
  | ExecResolved stdout => parseAppleScriptTabOutput stdout (js "Firefox")
  | ExecRejected _ => []
  end.

Definition captureEdgeTabs (run : ExecResult) : list BrowserTab :=
  match run with
  | ExecResolved stdout => parseAppleScriptTabOutput stdout (js "Edge")
  | ExecRejected _ => []
  end.

(** [deduplicateTabs]: [seen] is the [Set] of urls, [unique] the array built
    so far. *)
Fixpoint deduplicateFrom (seen : gset JsString) (unique : list BrowserTab)
    (tabs : list BrowserTab) : list BrowserTab :=
  match tabs with
  | [] => unique
  | tab :: rest =>
      if decide (url tab ∈ seen) then deduplicateFrom seen unique rest
      else deduplicateFrom ({[ url tab ]} ∪ seen) (unique ++ [tab]) rest
  end.

Definition deduplicateTabs (tabs : list BrowserTab) : list BrowserTab :=
  deduplicateFrom ∅ [] tabs.

(** The [results.forEach] of [captureTabs]: the values of the fulfilled,
    non-empty branches appended in order. *)
Fixpoint collectTabs (results : list (Settled (list BrowserTab))) : list BrowserTab :=
  match results with
  | [] => []
  | Fulfilled value :: rest =>
      (if (0 <? length value)%nat then value else []) ++ collectTabs rest
  | Rejected _ :: rest => collectTabs rest
  end.

(** The part of [captureTabs] after the [Promise.allSettled]. *)
Definition aggregateTabs (results : list (Settled (list BrowserTab))) : list BrowserTab :=
  let allTabs := collectTabs results in
  let uniqueTabs := deduplicateTabs allTabs in
  take maxTabs uniqueTabs.

(** The runs of the four scripts, in the order of the [browsers] array. *)
Record BrowserRuns := mkRuns {
  chrome : ExecResult;
  safari : ExecResult;
  firefox : ExecResult;
  edge : ExecResult
}.

(** The [Promise.allSettled] over the [browsers] array: the four queries
    catch their own failures, so every branch is fulfilled. *)
Definition settledBranches (runs : BrowserRuns) : list (Settled (list BrowserTab)) :=
  [ Fulfilled (captureChromeTabs (chrome runs));
    Fulfilled (captureSafariTabs (safari runs));
    Fulfilled (captureFirefoxTabs (firefox runs));
    Fulfilled (captureEdgeTabs (edge runs)) ].

Definition captureTabs (runs : BrowserRuns) : list BrowserTab :=
  aggregateTabs (settledBranches runs).

End WithURL.

End BrowserTabCapture.

(** ** src/types/capture.ts and the record built by the orchestrator *)
Module CaptureTypes.

Record ActiveWindow := mkActiveWindow {
  app : JsString;
  title : JsString;
  bundleId : option JsString;
  screenshot : option JsString
}.

Inductive CaptureMethod := hotkey | manual.

Inductive ProcessingStatus := pending | processing | complete | error.

Record Metadata := mkMetadata {
  os : JsString;
  captureMethod : CaptureMethod;
  processingStatus : ProcessingStatus
}.

Record CapturedContext := mkContext {
  id : JsString;
  timestamp : Z;
  activeWindow : ActiveWindow;
  browserTabs : list BrowserTabCapture.BrowserTab;
  clipboard : option ClipboardCapture.ClipboardContent;
  metadata : Metadata
}.

End CaptureTypes.

(** ** Observable events

    The calls whose order the specification talks about are recorded in a
    log: the window hooks, the screen grab, the timers, the HTTP posts and the
    VACUUM of the database. *)
Module Trace.

Inductive Event :=
| EvHideWindow
| EvShowWindow
| EvSettle (ms : Z)
| EvScreenGrab (filename : JsString)
| EvHttpPost (payloadId : JsString) (attempt : nat)
| EvSleep (ms : Z)
| EvVacuum.

Definition is_post (e : Event) : bool :=
  match e with EvHttpPost _ _ => true | _ => false end.

Definition is_hide (e : Event) : bool :=
  match e with EvHideWindow => true | _ => false end.

Definition is_show (e : Event) : bool :=
  match e with EvShowWindow => true | _ => false end.

Definition is_grab (e : Event) : bool :=
  match e with EvScreenGrab _ => true | _ => false end.

Definition count (p : Event -> bool) (l : list Event) : nat :=
  length (List.filter p l).



End Trace.
Export Trace.

(** ** electron/services/WebhookService.ts *)
Module WebhookService.

Record WebhookPayload := mkPayload {
  id : JsString;
  timestamp : Z;
  activeWindow : CaptureTypes.ActiveWindow;
  browserTabs : list BrowserTabCapture.BrowserTab;
  clipboard : option ClipboardCapture.ClipboardContent
}.

Record WebhookResponse := mkResponse {
  success : bool;
  error : option JsString;
  statusCode : option Z
}.

(** What [axios.post] settles to: a response, or a rejection. *)
Inductive HttpOutcome :=
| HttpResolved (status : Z)
| HttpRejected (e : JsError).

Definition maxRetries : nat := 3.
Definition retryDelayMs : Z := 1000.

(** The test [error instanceof AxiosError && error.response &&
    error.response.status >= 400 && error.response.status < 500]. *)
Definition clientError (e : JsError) : option Z :=
  if isAxiosError e then
    match responseStatus e with
    | Some status =>
        if (400 <=? status) && (status <? 500) then Some status else None
    | None => None
    end
  else None.

(** The failures after which the loop goes on: every rejection that is not
    a client error. *)
Definition retryable (o : HttpOutcome) : bool :=
  match o with
  | HttpResolved _ => false
  | HttpRejected e =>
      match clientError e with
      | Some _ => false
      | None => true
      end
  end.

(** [retryDelayMs * Math.pow(2, attempt - 1)]. *)
Definition backoff (attempt : nat) : Z :=
  retryDelayMs * 2 ^ (Z.of_nat attempt - 1).

(** The loop [for (attempt = 1; attempt <= maxRetries; attempt++)] runs over
    the attempt numbers still to come; [http attempt] is what the post of
    that attempt settles to.  The empty list is the code after the loop. *)
Fixpoint sendAttempts (http : nat -> HttpOutcome) (payload : WebhookPayload)
    (lastError : option JsError) (attempts : list nat)
  : WebhookResponse * list Event :=
  match attempts with
  | [] =>
      ({| success := false;
          error := Some (opt_or_else (message <$> lastError) (js "Unknown error"));
          statusCode := None |}, [])
  | attempt :: rest =>
      match http attempt with
      | HttpResolved status =>
          ({| success := true; error := None; statusCode := Some status |},
           [EvHttpPost (id payload) attempt])
      | HttpRejected e =>
          match clientError e with
          | Some status =>
              ({| success := false;
                  error := Some (js "Client error: " ++ of_Z status);
                  statusCode := Some status |},
               [EvHttpPost (id payload) attempt])
          | None =>
              let wait :=
                if (attempt <? maxRetries)%nat then [EvSleep (backoff attempt)]
                else [] in
              let '(response, events) := sendAttempts http payload (Some e) rest in
              (response, EvHttpPost (id payload) attempt :: wait ++ events)
          end
      end
  end.

Definition send (http : nat -> HttpOutcome) (payload : WebhookPayload)
  : WebhookResponse * list Event :=
  sendAttempts http payload None (seq 1 maxRetries).

End WebhookService.

(** ** State and exceptions

    The stateful code runs in a state monad with exceptions.  The state
    survives a [throw], as in JavaScript; [tryCatch] and [tryFinally] are the
    [try]/[catch] and [try]/[finally] statements. *)
Module Effects.

Inductive Outcome (A : Type) :=
| Ret (a : A)
| Throw (e : JsError).
Arguments Ret {A} a.
Arguments Throw {A} e.

Definition M (S A : Type) : Type := S -> Outcome A * S.

Definition ret {S A} (a : A) : M S A := fun s => (Ret a, s).

Definition throw {S A} (e : JsError) : M S A := fun s => (Throw e, s).

Definition bind {S A B} (m : M S A) (k : A -> M S B) : M S B :=
  fun s =>
    match m s with
    | (Ret a, s') => k a s'
    | (Throw e, s') => (Throw e, s')
    end.

#[global] Instance M_ret {S} : MRet (M S) := fun _ a => ret a.
#[global] Instance M_bind {S} : MBind (M S) := fun _ _ k m => bind m k.

Definition tryCatch {S A} (body : M S A) (handler : JsError -> M S A) : M S A :=
  fun s =>
    match body s with
    | (Ret a, s') => (Ret a, s')
    | (Throw e, s') => handler e s'
    end.

(** The [finally] block runs on both exits; when it throws, its exception
    replaces the outcome of the body. *)
Definition tryFinally {S A} (body : M S A) (finalizer : M S unit) : M S A :=
  fun s =>
    match body s with
    | (o, s') =>
        match finalizer s' with
        | (Ret _, s'') => (o, s'')
        | (Throw e, s'') => (Throw e, s'')
        end
    end.

Definition gets {S A} (f : S -> A) : M S A := fun s => (Ret (f s), s).

Definition modify {S} (f : S -> S) : M S unit := fun s => (Ret tt, f s).

(** A file of the user-data directory: the JSON document of a capture, an
    image (held by its base64 text), or anything else. *)
Inductive FileContent :=
| FJson (capture : CaptureTypes.CapturedContext)
| FImage (base64 : JsString)
| FRaw (content : JsString).

(** A row of the [captures] table (electron/DatabaseHelper.ts). *)
Record CaptureRecord := mkRecord {
  id : JsString;
  timestamp : Z;
  app_name : JsString;
  window_title : JsString;
  tabs_count : Z;
  has_clipboard : Z;
  screenshot_path : JsString;
  json_path : JsString;
  webhook_sent : Z;
  webhook_sent_at : option Z
}.

(** The world the orchestrator acts on.
    - [fs]: the files, by path;
    - [db]: the rows of [captures], in insertion order;
    - [latestCapture]: the private field of [ContextAggregator];
    - [dispatched]: the [sendToWebhook] promises started and not awaited;
    - [log]: the events so far;
    - [clock]: the reading of [Date.now()];
    - [dbFaults], [fsFaults]: what the environment does to the next database
      statements and file-system calls, in the order they are issued:
      [Some e] makes the call throw [e], [None] lets it run; past the end of
      the list no call is disturbed. *)
Record World := mkWorld {
  fs : gmap JsString FileContent;
  db : list CaptureRecord;
  latestCapture : option CaptureTypes.CapturedContext;
  dispatched : list (JsString * CaptureTypes.CapturedContext);
  log : list Event;
  clock : Z;
  dbFaults : list (option JsError);
  fsFaults : list (option JsError)
}.

Definition set_fs (f : gmap JsString FileContent -> gmap JsString FileContent)
    (w : World) : World :=
  mkWorld (f (fs w)) (db w) (latestCapture w) (dispatched w) (log w) (clock w)
          (dbFaults w) (fsFaults w).

Definition set_db (f : list CaptureRecord -> list CaptureRecord) (w : World) : World :=
  mkWorld (fs w) (f (db w)) (latestCapture w) (dispatched w) (log w) (clock w)
          (dbFaults w) (fsFaults w).

Definition set_latestCapture (c : option CaptureTypes.CapturedContext)
    (w : World) : World :=
  mkWorld (fs w) (db w) c (dispatched w) (log w) (clock w)
          (dbFaults w) (fsFaults w).

Definition set_dispatched
    (f : list (JsString * CaptureTypes.CapturedContext)
         -> list (JsString * CaptureTypes.CapturedContext))
    (w : World) : World :=
  mkWorld (fs w) (db w) (latestCapture w) (f (dispatched w)) (log w) (clock w)
          (dbFaults w) (fsFaults w).

Definition set_log (f : list Event -> list Event) (w : World) : World :=
  mkWorld (fs w) (db w) (latestCapture w) (dispatched w) (f (log w)) (clock w)
          (dbFaults w) (fsFaults w).

Definition set_dbFaults (l : list (option JsError)) (w : World) : World :=
  mkWorld (fs w) (db w) (latestCapture w) (dispatched w) (log w) (clock w)
          l (fsFaults w).

Definition set_fsFaults (l : list (option JsError)) (w : World) : World :=
  mkWorld (fs w) (db w) (latestCapture w) (dispatched w) (log w) (clock w)
          (dbFaults w) l.

(** Append events to the log. *)
Definition emit (events : list Event) : M World unit :=
  modify (set_log (fun l => l ++ events)).

(** The head of a fault list and what is left of it. *)
Definition nextFault (faults : list (option JsError))
  : option JsError * list (option JsError) :=
  match faults with
  | [] => (None, [])
  | f :: rest => (f, rest)
  end.

(** Every database statement starts here: the engine may raise. *)
Definition dbCall : M World unit :=
  fun w =>
    match nextFault (dbFaults w) with
    | (Some e, rest) => (Throw e, set_dbFaults rest w)
    | (None, rest) => (Ret tt, set_dbFaults rest w)
    end.

(** Every file-system call starts here. *)
Definition fsCall : M World unit :=
  fun w =>
    match nextFault (fsFaults w) with
    | (Some e, rest) => (Throw e, set_fsFaults rest w)
    | (None, rest) => (Ret tt, set_fsFaults rest w)
    end.

Definition enoent : JsError := plainError "ENOENT: no such file or directory".

(** [fs.promises.writeFile]. *)
Definition writeFile (path : JsString) (content : FileContent) : M World unit :=
  fsCall ;; modify (set_fs (fun files => <[path := content]> files)).

(** [fs.promises.readFile]. *)
Definition readFile (path : JsString) : M World FileContent :=
  fsCall ;;
  files ← gets fs;
  match files !! path with
  | Some content => ret content
  | None => throw enoent
  end.

(** [fs.promises.unlink]. *)
Definition unlink (path : JsString) : M World unit :=
  fsCall ;;
  files ← gets fs;
  match files !! path with
  | Some _ => modify (set_fs (fun files => delete path files))
  | None => throw enoent
  end.

(** [path.join(dir, file)] on the paths the orchestrator builds. *)
Definition pathJoin (dir file : JsString) : JsString := dir ++ js "/" ++ file.

End Effects.
Export Effects.

(** ** electron/DatabaseHelper.ts

    The table [captures] has [id] as its primary key.  A statement that
    breaks the key raises; [ORDER BY timestamp DESC] is taken to keep rows of
    equal timestamp in insertion order (SQL leaves that order open). *)
Module DatabaseHelper.

Record CaptureInsertData := mkInsertData {
  id : JsString;
  timestamp : Z;
  appName : JsString;
  windowTitle : JsString;
  tabsCount : Z;
  hasClipboard : bool;
  screenshotPath : JsString;
  jsonPath : JsString
}.

Definition uniqueViolation : JsError :=
  plainError "UNIQUE constraint failed: captures.id".

Definition has_id (i : JsString) (r : CaptureRecord) : bool :=
  bool_decide (Effects.id r = i).

(** [SELECT * FROM captures WHERE id = ?] on the rows. *)
Definition selectById (i : JsString) (rows : list CaptureRecord) : option CaptureRecord :=
  List.find (has_id i) rows.

(** Place [r] in a list that is ordered by descending timestamp. *)
Fixpoint insertDesc (r : CaptureRecord) (sorted : list CaptureRecord) : list CaptureRecord :=
  match sorted with
  | [] => [r]
  | r' :: rest =>
      if Effects.timestamp r' <=? Effects.timestamp r then r :: r' :: rest
      else r' :: insertDesc r rest
  end.

(** [ORDER BY timestamp DESC]. *)
Definition orderByTimestampDesc (rows : list CaptureRecord) : list CaptureRecord :=
  foldr insertDesc [] rows.

Definition insertCapture (data : CaptureInsertData) : M World unit :=
  dbCall ;;
  rows ← gets db;
  match selectById (id data) rows with
  | Some _ => throw uniqueViolation
  | None =>
      modify (set_db (fun rows =>
        rows ++ [ {| Effects.id := id data;
                     Effects.timestamp := timestamp data;
                     app_name := appName data;
                     window_title := windowTitle data;
                     tabs_count := tabsCount data;
                     has_clipboard := if hasClipboard data then 1 else 0;
                     screenshot_path := screenshotPath data;
                     json_path := jsonPath data;
                     webhook_sent := 0;
                     webhook_sent_at := None |} ]))
  end.

Definition getCaptures (limit : nat) : M World (list CaptureRecord) :=
  dbCall ;;
  rows ← gets db;
  ret (take limit (orderByTimestampDesc rows)).

Definition getCapture (i : JsString) : M World (option CaptureRecord) :=
  dbCall ;;
  rows ← gets db;
  ret (selectById i rows).

(** [UPDATE captures SET webhook_sent = ?, webhook_sent_at = ? WHERE id = ?]
    with the values [sent ? 1 : 0] and [sent ? Date.now() : null]. *)
Definition setWebhookStatus (i : JsString) (sent : bool) (now : Z)
    (r : CaptureRecord) : CaptureRecord :=
  if has_id i r then
    {| Effects.id := Effects.id r;
       Effects.timestamp := Effects.timestamp r;
       app_name := app_name r;
       window_title := window_title r;
       tabs_count := tabs_count r;
       has_clipboard := has_clipboard r;
       screenshot_path := screenshot_path r;
       json_path := json_path r;
       webhook_sent := if sent then 1 else 0;
       webhook_sent_at := if sent then Some now else None |}
  else r.

Definition updateWebhookStatus (i : JsString) (sent : bool) : M World unit :=
  dbCall ;;
  now ← gets clock;
  modify (set_db (List.map (setWebhookStatus i sent now))).

(** [DELETE FROM captures WHERE id = ?]. *)
Definition deleteCapture (i : JsString) : M World unit :=
  dbCall ;;
  modify (set_db (filter (fun r => Effects.id r <> i))).

Definition vacuum : M World unit :=
  dbCall ;; emit [EvVacuum].

(** The order of [ORDER BY timestamp DESC]: [a] may come before [b]. *)
Definition newerFirst (a b : CaptureRecord) : Prop :=
  Effects.timestamp b <= Effects.timestamp a.

(** [deleteOldCaptures]: [DELETE FROM captures WHERE timestamp < ?]; the
    result is [result.changes], the number of rows the statement removed. *)
Definition deleteOldCaptures (daysOld : Z) : M World Z :=
  now ← gets clock;
  let cutoffTime := now - daysOld * 24 * 60 * 60 * 1000 in
  dbCall ;;
  rows ← gets db;
  modify (set_db (filter (fun r => ~ Effects.timestamp r < cutoffTime))) ;;
  ret (Z.of_nat (length (filter (fun r => Effects.timestamp r < cutoffTime) rows))).

(** [getUnsentCaptures]: [WHERE webhook_sent = 0 ORDER BY timestamp DESC]. *)
Definition getUnsentCaptures : M World (list CaptureRecord) :=
  dbCall ;;
  rows ← gets db;
  ret (orderByTimestampDesc (filter (fun r => webhook_sent r = 0) rows)).

Record Stats := mkStats {
  totalCaptures : Z;
  unsentCaptures : Z;
  dbSizeKB : Z
}.

(** [fs.statSync(this.dbPath)]: the size of the database file in bytes, or
    the exception it raised. *)
Inductive StatResult :=
| StatOk (size : Z)
| StatThrows (e : JsError).

(** [Math.round(size / 1024)] for a file size: the quotient is exact and
    [Math.round] rounds halves up. *)
Definition roundKB (size : Z) : Z := (size + 512) / 1024.

(** [getStats]: the two counting statements, then the size of the file. *)
Definition getStats (stat : StatResult) : M World Stats :=
  dbCall ;;
  rows ← gets db;
  let totalResult := Z.of_nat (length rows) in
  dbCall ;;
  rows ← gets db;
  let unsentResult := Z.of_nat (length (filter (fun r => webhook_sent r = 0) rows)) in
  let dbSizeKB :=
    match stat with
    | StatOk size => roundKB size
    | StatThrows _ => 0
    end in
  ret {| totalCaptures := totalResult;
         unsentCaptures := unsentResult;
         dbSizeKB := dbSizeKB |}.

End DatabaseHelper.

(** ** electron/services/BrowserTabCapture.ts (class ContextAggregator) *)
Module ContextAggregator.

Import CaptureTypes.

Record CaptureResult := mkCaptureResult {
  success : bool;
  captureId : option JsString;
  error : option JsString
}.

(** The result type [{ success: boolean; error?: string }] of
    [deleteCapture] and [retryWebhook]. *)
Record OperationResult := mkOperationResult {
  ok : bool;
  failure : option JsString
}.

(** What a window hook supplied by the host does when it is called. *)
Inductive Hook :=
| HookReturns
| HookThrows (e : JsError).

(** What [screenshot({ filename })] does: it writes the image, or rejects. *)
Inductive GrabOutcome :=
| GrabOk (imageBase64 : JsString)
| GrabThrows (e : JsError).

(** What one call of [captureContext] finds in its environment. *)
Record CaptureEnv := mkEnv {
  uuid : JsString;
  frontApp : ExecResult;
  windowTitle : ExecResult;
  browsers : BrowserTabCapture.BrowserRuns;
  readHTML : ClipboardCapture.ClipboardRead;
  readText : ClipboardCapture.ClipboardRead;
  grab : GrabOutcome;
  platform : JsString
}.

Definition capturesDir : JsString := js "captures".
Definition screenshotsDir : JsString := js "capture_screenshots".

Definition jsonPathOf (captureId : JsString) : JsString :=
  pathJoin capturesDir (captureId ++ js ".json").

Definition screenshotPathOf (captureId : JsString) : JsString :=
  pathJoin screenshotsDir (captureId ++ js ".png").

(** [if (hook) hook()]. *)
Definition callHook (ev : Event) (hook : option Hook) : M World unit :=
  match hook with
  | None => ret tt
  | Some behaviour =>
      emit [ev] ;;
      match behaviour with
      | HookReturns => ret tt
      | HookThrows e => throw e
      end
  end.

(** [await screenshot({ filename })] of the screenshot-desktop package. *)
Definition screenshotDesktop (filename : JsString) (outcome : GrabOutcome)
  : M World unit :=
  emit [EvScreenGrab filename] ;;
  match outcome with
  | GrabOk image => modify (set_fs (fun files => <[filename := FImage image]> files))
  | GrabThrows e => throw e
  end.

(** [buffer.toString('base64')]; only image files are read this way. *)
Definition toBase64 (content : FileContent) : JsString :=
  match content with
  | FImage base64 => base64
  | FRaw raw => raw
  | FJson _ => []
  end.

(** The local variables [screenshotBase64] and [screenshotPath], which the
    [try] block assigns and the code after it reads. *)
Record Frame := mkFrame {
  world : World;
  screenshotBase64 : option JsString;
  screenshotPath : JsString
}.

Definition liftW {A} (m : M World A) : M Frame A :=
  fun f =>
    match m (world f) with
    | (o, w) => (o, mkFrame w (screenshotBase64 f) (screenshotPath f))
    end.

Definition assignScreenshotPath (p : JsString) : M Frame unit :=
  modify (fun f => mkFrame (world f) (screenshotBase64 f) p).

Definition assignScreenshotBase64 (b : JsString) : M Frame unit :=
  modify (fun f => mkFrame (world f) (Some b) (screenshotPath f)).

(** Run a block with the two locals at their initial values
    ([undefined] and ['']) and read them afterwards. *)
Definition withLocals (block : M Frame unit) : M World (option JsString * JsString) :=
  fun w =>
    match block (mkFrame w None []) with
    | (Ret _, f) => (Ret (screenshotBase64 f, screenshotPath f), world f)
    | (Throw e, f) => (Throw e, world f)
    end.

(** Step 4 of [captureContext]: the [try]/[catch]/[finally] around the
    screen grab. *)
Definition takeScreenshot (captureId : JsString) (outcome : GrabOutcome)
    (hideWindow showWindow : option Hook) : M Frame unit :=
  tryFinally
    (tryCatch
       (liftW (callHook EvHideWindow hideWindow) ;;
        liftW (emit [EvSettle 100]) ;;
        assignScreenshotPath (screenshotPathOf captureId) ;;
        liftW (screenshotDesktop (screenshotPathOf captureId) outcome) ;;
        screenshotBuffer ← liftW (readFile (screenshotPathOf captureId));
        assignScreenshotBase64 (toBase64 screenshotBuffer))
       (fun _ => ret tt))
    (liftW (callHook EvShowWindow showWindow)).

Definition payloadOf (context : CapturedContext) : WebhookService.WebhookPayload :=
  {| WebhookService.id := id context;
     WebhookService.timestamp := timestamp context;
     WebhookService.activeWindow := activeWindow context;
     WebhookService.browserTabs := browserTabs context;
     WebhookService.clipboard := clipboard context |}.

(** [sendToWebhook]: the delivery, then the status update. *)
Definition sendToWebhook (http : nat -> WebhookService.HttpOutcome)
    (captureId : JsString) (context : CapturedContext) : M World unit :=
  let payload := payloadOf context in
  let '(result, events) := WebhookService.send http payload in
  emit events ;;
  DatabaseHelper.updateWebhookStatus captureId (WebhookService.success result).

Section WithURL.

Variable parseURL : JsString -> option BrowserTabCapture.URL.

(** [captureContext].  The adapters absorb their own failures, so the outer
    [try] is left only by the show-window hook, the blob write or the insert;
    what is thrown there is an [Error], whose message the [catch] returns. *)
Definition captureContext (env : CaptureEnv) (captureMethod : CaptureMethod)
    (hideWindow showWindow : option Hook) : M World CaptureResult :=
  let captureId := uuid env in
  timestamp ← gets clock;
  tryCatch
    (let activeWindow :=
       ActiveWindowCapture.captureActiveWindow (frontApp env) (windowTitle env) in
     let browserTabs := BrowserTabCapture.captureTabs parseURL (browsers env) in
     let clipboardContent :=
       ClipboardCapture.captureClipboard (readHTML env) (readText env) in
     locals ← withLocals (takeScreenshot captureId (grab env) hideWindow showWindow);
     let capturedContext :=
       {| id := captureId;
          timestamp := timestamp;
          activeWindow :=
            {| app := opt_or_else (ActiveWindowCapture.app <$> activeWindow)
                                  (js "Unknown");
               title := opt_or_else (ActiveWindowCapture.title <$> activeWindow)
                                    (js "Unknown");
               bundleId := activeWindow ≫= ActiveWindowCapture.bundleId;
               screenshot := locals.1 |};
          browserTabs := browserTabs;
          clipboard := clipboardContent;
          metadata :=
            {| os := platform env;
               captureMethod := captureMethod;
               processingStatus := pending |} |} in
     modify (set_latestCapture (Some capturedContext)) ;;
     let jsonPath := jsonPathOf captureId in
     writeFile jsonPath (FJson capturedContext) ;;
     DatabaseHelper.insertCapture
       {| DatabaseHelper.id := captureId;
          DatabaseHelper.timestamp := timestamp;
          DatabaseHelper.appName :=
            opt_or_else (ActiveWindowCapture.app <$> activeWindow) (js "Unknown");
          DatabaseHelper.windowTitle :=
            opt_or_else (ActiveWindowCapture.title <$> activeWindow) (js "Unknown");
          DatabaseHelper.tabsCount := Z.of_nat (length browserTabs);
          DatabaseHelper.hasClipboard := bool_decide (clipboardContent ≠ None);
          DatabaseHelper.screenshotPath := locals.2;
          DatabaseHelper.jsonPath := jsonPath |} ;;
     modify (set_dispatched (fun l => l ++ [(captureId, capturedContext)])) ;;
     ret {| success := true; captureId := Some captureId; error := None |})
    (fun e =>
       ret {| success := false; captureId := None; error := Some (message e) |}).

End WithURL.

Definition getLatestCapture : M World (option CapturedContext) :=
  gets latestCapture.

Definition syntaxError : JsError := plainError "Unexpected token in JSON".

(** [loadCapture]: [JSON.parse] succeeds on the document of a capture. *)
Definition loadCapture (captureId : JsString) : M World (option CapturedContext) :=
  tryCatch
    (let jsonPath := jsonPathOf captureId in
     jsonContent ← readFile jsonPath;
     match jsonContent with
     | FJson capture => ret (Some capture)
     | FImage _ | FRaw _ => throw syntaxError
     end)
    (fun _ => ret None).

Definition deleteCapture (captureId : JsString) : M World OperationResult :=
  tryCatch
    (record ← DatabaseHelper.getCapture captureId;
     let jsonPath := jsonPathOf captureId in
     tryCatch (unlink jsonPath) (fun _ => ret tt) ;;
     match record with
     | Some r =>
         if truthy (screenshot_path r)
         then tryCatch (unlink (screenshot_path r)) (fun _ => ret tt)
         else ret tt
     | None => ret tt
     end ;;
     DatabaseHelper.deleteCapture captureId ;;
     ret {| ok := true; failure := None |})
    (fun e => ret {| ok := false; failure := Some (message e) |}).

Definition retryWebhook (http : nat -> WebhookService.HttpOutcome)
    (captureId : JsString) : M World OperationResult :=
  tryCatch
    (capture ← loadCapture captureId;
     match capture with
     | None => ret {| ok := false; failure := Some (js "Capture not found") |}
     | Some capture =>
         sendToWebhook http captureId capture ;;
         ret {| ok := true; failure := None |}
     end)
    (fun e => ret {| ok := false; failure := Some (message e) |}).

(** The body of [for (const capture of allCaptures)]. *)
Fixpoint cleanupLoop (cutoffTime : Z) (captures : list CaptureRecord)
    (deletedCount : Z) : M World Z :=
  match captures with
  | [] => ret deletedCount
  | capture :: rest =>
      if Effects.timestamp capture <? cutoffTime then
        deleteCapture (Effects.id capture) ;;
        cleanupLoop cutoffTime rest (deletedCount + 1)
      else cleanupLoop cutoffTime rest deletedCount
  end.

(** [Date.now() - (daysOld * 24 * 60 * 60 * 1000)], on whole numbers of days
    and milliseconds. *)
Definition cutoffOf (now daysOld : Z) : Z := now - daysOld * 24 * 60 * 60 * 1000.

Definition cleanupOldCaptures (daysOld : Z) : M World Z :=
  now ← gets clock;
  let cutoffTime := cutoffOf now daysOld in
  allCaptures ← DatabaseHelper.getCaptures 1000;
  deletedCount ← cleanupLoop cutoffTime allCaptures 0;
  (if deletedCount >? 0 then DatabaseHelper.vacuum else ret tt) ;;
  ret deletedCount.

End ContextAggregator.

(** ** Sequences of operations on one orchestrator

    A delivery dispatched by [captureContext] completes later, as a
    [SendToWebhook] step of its own; [retryWebhook] awaits its delivery. *)
Module Session.

Import ContextAggregator.

Inductive Operation :=
| CaptureContext (env : CaptureEnv) (captureMethod : CaptureTypes.CaptureMethod)
    (hideWindow showWindow : option Hook)
| SendToWebhook (http : nat -> WebhookService.HttpOutcome) (captureId : JsString)
    (context : CaptureTypes.CapturedContext)
| RetryWebhook (http : nat -> WebhookService.HttpOutcome) (captureId : JsString).

Section WithURL.

Variable parseURL : JsString -> option BrowserTabCapture.URL.

Definition perform (op : Operation) (w : World) : World :=
  match op with
  | CaptureContext env captureMethod hideWindow showWindow =>
      (captureContext parseURL env captureMethod hideWindow showWindow w).2
  | SendToWebhook http captureId context =>
      (sendToWebhook http captureId context w).2
  | RetryWebhook http captureId =>
      (retryWebhook http captureId w).2
  end.

Definition run (ops : list Operation) (w : World) : World :=
  foldl (fun w op => perform op w) w ops.

End WithURL.

(** The flag of the row of [captureId], read as [webhook_sent === 1]. *)
Definition webhookSent (captureId : JsString) (w : World) : option bool :=
  (fun r => webhook_sent r =? 1) <$> DatabaseHelper.selectById captureId (db w).


End Session.

(** ** electron/ipcHandlers.ts: the handlers of the capture channels

    Each handler wraps one operation in a [try]; [capture:list],
    [capture:get] and [capture:get-stats] rethrow, the others turn an
    exception into a failure reply. *)
Module IpcHandlers.

Import ContextAggregator.

Record CaptureListItem := mkListItem {
  id : JsString;
  timestamp : Z;
  appName : JsString;
  windowTitle : JsString;
  tabsCount : Z;
  hasClipboard : bool;
  webhookSent : bool;
  screenshotPath : JsString
}.

Definition toListItem (capture : CaptureRecord) : CaptureListItem :=
  {| id := Effects.id capture;
     timestamp := Effects.timestamp capture;
     appName := app_name capture;
     windowTitle := window_title capture;
     tabsCount := tabs_count capture;
     hasClipboard := has_clipboard capture =? 1;
     webhookSent := webhook_sent capture =? 1;
     screenshotPath := screenshot_path capture |}.

(** [capture:list]. *)
Definition captureList : M World (list CaptureListItem) :=
  tryCatch
    (captures ← DatabaseHelper.getCaptures 100;
     ret (toListItem <$> captures))
    (fun e => throw e).

(** [capture:get]. *)
Definition captureGet (captureId : JsString)
  : M World (option CaptureTypes.CapturedContext) :=
  tryCatch (loadCapture captureId) (fun e => throw e).

(** [capture:delete]. *)
Definition captureDelete (captureId : JsString) : M World OperationResult :=
  tryCatch (deleteCapture captureId)
           (fun e => ret {| ok := false; failure := Some (message e) |}).

(** [capture:retry-webhook]. *)
Definition captureRetryWebhook (http : nat -> WebhookService.HttpOutcome)
    (captureId : JsString) : M World OperationResult :=
  tryCatch (retryWebhook http captureId)
           (fun e => ret {| ok := false; failure := Some (message e) |}).

(** The reply [{ success, deletedCount }] or [{ success, error }]. *)
Record CleanupReply := mkCleanupReply {
  cleaned : bool;
  deletedCount : option Z;
  cleanupError : option JsString
}.

(** [capture:cleanup-old]. *)
Definition captureCleanupOld (daysOld : Z) : M World CleanupReply :=
  tryCatch
    (deletedCount ← cleanupOldCaptures daysOld;
     ret {| cleaned := true; deletedCount := Some deletedCount;
            cleanupError := None |})
    (fun e =>
       ret {| cleaned := false; deletedCount := None;
              cleanupError := Some (message e) |}).

(** [capture:get-stats]. *)
Definition captureGetStats (stat : DatabaseHelper.StatResult)
  : M World DatabaseHelper.Stats :=
  tryCatch (DatabaseHelper.getStats stat) (fun e => throw e).

End IpcHandlers.

(** ** Concrete inputs used in the examples below *)
Module Samples.

Import CaptureTypes ContextAggregator.

Fixpoint stripPrefix (p s : JsString) : option JsString :=
  match p, s with
  | [], _ => Some s
  | c :: p', d :: s' => if (c =? d)%N then stripPrefix p' s' else None
  | _ :: _, [] => None
  end.

Fixpoint upTo (sep : N) (s : JsString) : JsString :=
  match s with
  | [] => []
  | c :: s' => if (c =? sep)%N then [] else c :: upTo sep s'
  end.

(** A small URL parser for the examples: it accepts the strings that start
    with [https://] and have a host, and reads the host up to the next
    slash. *)
Definition httpsURL (s : JsString) : option BrowserTabCapture.URL :=
  match stripPrefix (js "https://") s with
  | Some rest =>
      if truthy (upTo 47 rest) then Some (BrowserTabCapture.mkURL (upTo 47 rest))
      else None
  | None => None
  end.

Definition emptyWorld : World := mkWorld ∅ [] None [] [] 1700000000000 [] [].

Definition sampleContext : CapturedContext :=
  {| id := js "c1";
     timestamp := 1700000000000;
     activeWindow := mkActiveWindow (js "Mail") (js "Inbox") None None;
     browserTabs := [];
     clipboard := None;
     metadata := mkMetadata (js "darwin") hotkey pending |}.

Definition samplePayload : WebhookService.WebhookPayload := payloadOf sampleContext.

(** Every post is answered by the same outcome. *)
Definition always (o : WebhookService.HttpOutcome) : nat -> WebhookService.HttpOutcome :=
  fun _ => o.

Definition serverError : WebhookService.HttpOutcome :=
  WebhookService.HttpRejected
    (mkError (js "Request failed with status code 500") true (Some 500)).

Definition notFound : WebhookService.HttpOutcome :=
  WebhookService.HttpRejected
    (mkError (js "Request failed with status code 404") true (Some 404)).

(** A rejection without a response whose [message] is the empty string. *)
Definition silentFailure : WebhookService.HttpOutcome :=
  WebhookService.HttpRejected (mkError [] true None).

Definition failingRuns : BrowserTabCapture.BrowserRuns :=
  BrowserTabCapture.mkRuns (ExecRejected commandTimeout) (ExecRejected commandTimeout)
    (ExecRejected commandTimeout) (ExecRejected commandTimeout).

(** A capture in which every adapter fails and the screen grab rejects. *)
Definition degradedEnv : CaptureEnv :=
  {| uuid := js "c1";
     frontApp := ExecRejected commandTimeout;
     windowTitle := ExecRejected commandTimeout;
     browsers := failingRuns;
     readHTML := ClipboardCapture.ReadThrows (plainError "clipboard unavailable");
     readText := ClipboardCapture.ReadThrows (plainError "clipboard unavailable");
     grab := GrabThrows (plainError "screen capture failed");
     platform := js "darwin" |}.

Definition degradedContext : CapturedContext :=
  {| id := js "c1";
     timestamp := 1700000000000;
     activeWindow := mkActiveWindow (js "Unknown") (js "Unknown") None None;
     browserTabs := [];
     clipboard := None;
     metadata := mkMetadata (js "darwin") hotkey pending |}.





(** The world after the degraded capture: blob and row of [c1] exist. *)
Definition capturedWorld : World :=
  (captureContext httpsURL degradedEnv hotkey None None emptyWorld).2.

Definition accepted : WebhookService.HttpOutcome := WebhookService.HttpResolved 200.


(** A row of the index with the decimal of [k] as id and [k] as timestamp,
    without screenshot. *)
Definition rowAt (k : Z) : CaptureRecord :=
  {| Effects.id := of_Z k;
     Effects.timestamp := k;
     app_name := js "Mail";
     window_title := js "Inbox";
     tabs_count := 0;
     has_clipboard := 0;
     screenshot_path := [];
     json_path := jsonPathOf (of_Z k);
     webhook_sent := 0;
     webhook_sent_at := None |}.



(** Three rows; with the clock at 3000000000 ms and a retention of 30 days
    the cutoff is 408000000, between the second and the third. *)
Definition smallWorld : World :=
  mkWorld ∅ [rowAt 100; rowAt 500000000; rowAt 200] None [] [] 3000000000 [] [].

End Samples.

(** ** Further concrete inputs *)
Module MoreSamples.

Import ContextAggregator.

(** The data of a row for the id [c2]. *)
Definition insertData : DatabaseHelper.CaptureInsertData :=
  {| DatabaseHelper.id := js "c2";
     DatabaseHelper.timestamp := 1700000000500;
     DatabaseHelper.appName := js "Safari";
     DatabaseHelper.windowTitle := js "Docs";
     DatabaseHelper.tabsCount := 3;
     DatabaseHelper.hasClipboard := true;
     DatabaseHelper.screenshotPath := screenshotPathOf (js "c2");
     DatabaseHelper.jsonPath := jsonPathOf (js "c2") |}.

(** The same data under the id [c1], which [Samples.capturedWorld] holds. *)
Definition clashingData : DatabaseHelper.CaptureInsertData :=
  {| DatabaseHelper.id := js "c1";
     DatabaseHelper.timestamp := 1700000000500;
     DatabaseHelper.appName := js "Safari";
     DatabaseHelper.windowTitle := js "Docs";
     DatabaseHelper.tabsCount := 3;
     DatabaseHelper.hasClipboard := true;
     DatabaseHelper.screenshotPath := screenshotPathOf (js "c1");
     DatabaseHelper.jsonPath := jsonPathOf (js "c1") |}.

(** The result of the degraded capture in the empty world. *)
Definition capturedResult : CaptureResult :=
  {| success := true; captureId := Some (js "c1"); error := None |}.

End MoreSamples.

(** * Properties *)

(** ** Strings *)

Lemma trimStart_nil (s : JsString) :
  trimStart s = [] <-> Forall (fun c => is_whitespace c = true) s.
Proof.
  induction s as [|c s IH]; simpl.
  - split; [constructor | reflexivity].
  - destruct (is_whitespace c) eqn:Hc.
    + rewrite IH. split.
      * intros H. constructor; assumption.
      * intros H. inversion H; assumption.
    + split; [discriminate|].
      intros H. inversion H; congruence.
Qed.

Lemma trimStart_suffix (s : JsString) : trimStart s `suffix_of` s.
Proof.
  induction s as [|c s IH]; simpl.
  - reflexivity.
  - destruct (is_whitespace c).
    + apply suffix_cons_r, IH.
    + reflexivity.
Qed.

Lemma trim_blank (s : JsString) :
  Forall (fun c => is_whitespace c = true) s -> trim s = [].
Proof.
  intros H. unfold trim, trimEnd.
  apply (proj2 (trimStart_nil s)) in H. rewrite H. reflexivity.
Qed.

Lemma trim_nil_blank (s : JsString) :
  trim s = [] -> Forall (fun c => is_whitespace c = true) s.
Proof.
  unfold trim, trimEnd. intros H.
  apply (f_equal (@rev N)) in H. rewrite rev_involutive in H. simpl in H.
  apply trimStart_nil in H.
  apply trimStart_nil.
  destruct (trimStart s) as [|c t] eqn:Hs; [reflexivity|].
  exfalso.
  assert (Hc : is_whitespace c = true).
  { rewrite Forall_forall in H. apply H.
    apply list_elem_of_In, (proj1 (in_rev _ _)). left. reflexivity. }
  clear H. induction s as [|d s IH]; simpl in Hs; [discriminate|].
  destruct (is_whitespace d) eqn:Hd; [auto|].
  congruence.
Qed.

Lemma jslength_nil (s : JsString) : jslength s = 0 <-> s = [].
Proof.
  unfold jslength. destruct s; simpl; split; intros; try reflexivity;
    try discriminate; lia.
Qed.

(** ** ClipboardCapture *)

Lemma cleaned_blank (text : JsString) :
  trim text = [] -> ClipboardCapture.cleaned text = [].
Proof.
  intros H. apply trim_nil_blank in H.
  unfold ClipboardCapture.cleaned, ClipboardCapture.removeControl,
    ClipboardCapture.removeNul.
  apply trim_blank.
  rewrite Forall_forall in *. intros c Hc.
  apply H.
  apply list_elem_of_filter in Hc as [_ Hc].
  apply list_elem_of_filter in Hc as [_ Hc]. exact Hc.
Qed.

(** C7, as amended.  When the text is still longer than the cap of 10000
    code units after the control characters are removed and the text is
    trimmed, [sanitizeText] returns the first 10000 code units of that text
    followed by the truncation marker: the result ends with the marker and
    its length is the cap plus the length of the marker. *)
Theorem sanitizeText_truncates (text : JsString) :
  ClipboardCapture.maxLength < jslength (ClipboardCapture.cleaned text) ->
  exists out,
    ClipboardCapture.sanitizeText text = Some out
    /\ out = substring0 ClipboardCapture.maxLength (ClipboardCapture.cleaned text)
             ++ ClipboardCapture.truncationMarker
    /\ (ClipboardCapture.truncationMarker `suffix_of` out)
    /\ jslength out
       = ClipboardCapture.maxLength + jslength ClipboardCapture.truncationMarker.
Proof.
  intros Hlong.
  assert (Hmax : ClipboardCapture.maxLength = 10000) by reflexivity.
  assert (Htrim : trim text <> []).
  { intros H. apply cleaned_blank in H. rewrite H in Hlong.
    unfold jslength in Hlong. simpl in Hlong. lia. }
  assert (Htext : truthy text = true).
  { destruct text; [|reflexivity]. exfalso. apply Htrim. reflexivity. }
  eexists. split; [|split; [reflexivity|split]].
  - unfold ClipboardCapture.sanitizeText.
    rewrite Htext. simpl negb. simpl orb.
    destruct (jslength (trim text) =? 0) eqn:Hz.
    { apply Z.eqb_eq, jslength_nil in Hz. contradiction. }
    fold (ClipboardCapture.cleaned text).
    destruct (jslength (ClipboardCapture.cleaned text) >? ClipboardCapture.maxLength)
      eqn:Hgt; [|exfalso; rewrite Z.gtb_ltb in Hgt; apply Z.ltb_ge in Hgt; lia].
    destruct (jslength (substring0 ClipboardCapture.maxLength
                (ClipboardCapture.cleaned text)
              ++ ClipboardCapture.truncationMarker) >? 0) eqn:Hpos.
    + reflexivity.
    + exfalso. rewrite Z.gtb_ltb in Hpos. apply Z.ltb_ge in Hpos.
      unfold jslength in Hpos. rewrite length_app in Hpos.
      change (length ClipboardCapture.truncationMarker) with 15%nat in Hpos. lia.
  - apply suffix_app_r. reflexivity.
  - unfold jslength, substring0 in *. rewrite length_app, length_take.
    rewrite Hmax in *. lia.
Qed.

(** The theorem applies to a text of 10001 letters. *)
Lemma sanitizeText_truncates_witness :
  exists out,
    ClipboardCapture.sanitizeText (repeat 97%N (Z.to_nat 10001)) = Some out
    /\ out = substring0 ClipboardCapture.maxLength
               (ClipboardCapture.cleaned (repeat 97%N (Z.to_nat 10001)))
             ++ ClipboardCapture.truncationMarker
    /\ (ClipboardCapture.truncationMarker `suffix_of` out)
    /\ jslength out
       = ClipboardCapture.maxLength + jslength ClipboardCapture.truncationMarker.
Proof.
  apply (sanitizeText_truncates (repeat 97%N (Z.to_nat 10001))).
  vm_compute. reflexivity.
Defined.

(** C7, as stated, fails: a text of 10001 code units, the letter [a] followed
    by 10000 spaces, is longer than the cap, and it is sanitized to the single
    letter, without the marker. *)
Lemma sanitizeText_long_input_not_truncated :
  ClipboardCapture.maxLength < jslength (97%N :: repeat 32%N (Z.to_nat 10000))
  /\ ClipboardCapture.sanitizeText (97%N :: repeat 32%N (Z.to_nat 10000))
     = Some (js "a")
  /\ ~ ClipboardCapture.truncationMarker `suffix_of` js "a".
Proof.
  split; [vm_compute; reflexivity|]. split; [vm_compute; reflexivity|].
  intros [k Hk]. apply (f_equal (@length N)) in Hk.
  rewrite length_app in Hk.
  change (length ClipboardCapture.truncationMarker) with 15%nat in Hk.
  change (length (js "a")) with 1%nat in Hk. lia.
Qed.

(** ** ActiveWindowCapture *)

(** C9, as amended.  The two queries do not degrade alike.  When the
    application query is rejected the adapter returns [null], whatever the
    title query gave.  When the application query resolves the adapter
    returns a result whose application name and bundle identifier do not
    depend on the title query; a rejected title query only turns the title
    into ["Unknown"], and a resolved one gives its trimmed output (or
    ["Unknown"] when that is empty). *)
Theorem captureActiveWindow_degradation :
  (forall e windowTitle,
      ActiveWindowCapture.captureActiveWindow (ExecRejected e) windowTitle = None)
  /\ (forall stdout e,
        exists info,
          ActiveWindowCapture.captureActiveWindow
            (ExecResolved stdout) (ExecRejected e) = Some info
          /\ ActiveWindowCapture.title info = js "Unknown"
          /\ forall titleOut,
               exists info',
                 ActiveWindowCapture.captureActiveWindow
                   (ExecResolved stdout) (ExecResolved titleOut) = Some info'
                 /\ ActiveWindowCapture.app info' = ActiveWindowCapture.app info
                 /\ ActiveWindowCapture.bundleId info'
                    = ActiveWindowCapture.bundleId info
                 /\ ActiveWindowCapture.title info'
                    = or_else (trim titleOut) (js "Unknown")).
Proof.
  split.
  - intros e windowTitle. reflexivity.
  - intros stdout e. eexists. split; [reflexivity|]. split; [reflexivity|].
    intros titleOut. eexists. split; [reflexivity|].
    split; [reflexivity|]. split; [reflexivity|].
    unfold ActiveWindowCapture.getWindowTitle, or_undefined, opt_or_else, or_else.
    simpl. destruct (trim titleOut); reflexivity.
Qed.

(** C9, as stated, fails: the application query times out, the title query
    answers ["Inbox"], and the adapter returns [null] instead of a result
    that carries the title. *)
Lemma captureActiveWindow_drops_title :
  ActiveWindowCapture.getWindowTitle (ExecResolved (js "Inbox")) = Some (js "Inbox")
  /\ ActiveWindowCapture.captureActiveWindow
       (ExecRejected commandTimeout) (ExecResolved (js "Inbox")) = None.
Proof. split; reflexivity. Qed.

(** ** BrowserTabCapture *)

Section Deduplication.

Import BrowserTabCapture.

(** What the loop of [deduplicateTabs] adds to [unique]: a sublist of the
    tabs read, with distinct urls that are not in [seen], each the first of
    the tabs read with its url; every url read is in [seen] or kept. *)
Lemma deduplicateFrom_spec (tabs : list BrowserTab) :
  forall (seen : gset JsString) (unique : list BrowserTab),
  exists kept,
    deduplicateFrom seen unique tabs = unique ++ kept
    /\ (kept `sublist_of` tabs)
    /\ NoDup (url <$> kept)
    /\ (forall t, t ∈ kept ->
          (url t ∉ seen)
          /\ exists pre post,
               tabs = pre ++ t :: post /\ forall x, x ∈ pre -> url x <> url t)
    /\ (forall t, t ∈ tabs -> url t ∈ seen \/ url t ∈ url <$> kept).
Proof.
  induction tabs as [|t0 rest IH]; intros seen unique; simpl.
  - exists []. rewrite app_nil_r.
    split; [reflexivity|]. split; [constructor|]. split; [constructor|].
    split; intros t Ht; inversion Ht.
  - destruct (decide (url t0 ∈ seen)) as [Hin|Hnotin].
    + destruct (IH seen unique) as (kept & Heq & Hsub & Hnd & Hfirst & Hall).
      exists kept. split; [exact Heq|]. split; [apply sublist_cons, Hsub|].
      split; [exact Hnd|]. split.
      * intros t Ht. destruct (Hfirst t Ht) as (Hns & pre & post & Htabs & Hpre).
        split; [exact Hns|]. exists (t0 :: pre), post. split.
        -- simpl. rewrite Htabs. reflexivity.
        -- intros x Hx. apply elem_of_cons in Hx as [->|Hx]; [|auto].
           intros Heq'. apply Hns. rewrite <- Heq'. exact Hin.
      * intros t Ht. apply elem_of_cons in Ht as [->|Ht]; [left; exact Hin|auto].
    + destruct (IH ({[url t0]} ∪ seen) (unique ++ [t0]))
        as (kept & Heq & Hsub & Hnd & Hfirst & Hall).
      exists (t0 :: kept). split; [rewrite Heq, <- app_assoc; reflexivity|].
      split; [apply sublist_skip, Hsub|]. split; [|split].
      * rewrite fmap_cons. constructor; [|exact Hnd].
        intros Hin. apply list_elem_of_fmap in Hin as (t & Hurl & Ht).
        destruct (Hfirst t Ht) as (Hns & _). apply Hns. rewrite <- Hurl.
        apply elem_of_union_l, elem_of_singleton. reflexivity.
      * intros t Ht. apply elem_of_cons in Ht as [->|Ht].
        -- split; [exact Hnotin|]. exists [], rest. split; [reflexivity|].
           intros x Hx. inversion Hx.
        -- destruct (Hfirst t Ht) as (Hns & pre & post & Htabs & Hpre).
           split; [intros Hs; apply Hns, elem_of_union_r, Hs|].
           exists (t0 :: pre), post. split.
           ++ simpl. rewrite Htabs. reflexivity.
           ++ intros x Hx. apply elem_of_cons in Hx as [->|Hx]; [|auto].
              intros Heq'. apply Hns. rewrite Heq'.
              apply elem_of_union_l, elem_of_singleton. reflexivity.
      * intros t Ht. rewrite fmap_cons.
        apply elem_of_cons in Ht as [->|Ht]; [right; left|].
        destruct (Hall t Ht) as [Hs|Hk]; [|right; right; exact Hk].
        apply elem_of_union in Hs as [Hs|Hs]; [|left; exact Hs].
        apply elem_of_singleton in Hs. right. rewrite Hs. left.
Qed.

Lemma collectTabs_fulfilled (values : list (list BrowserTab)) :
  collectTabs (Fulfilled <$> values) = concat values.
Proof.
  induction values as [|v values IH]; [reflexivity|].
  rewrite fmap_cons. simpl. rewrite IH. destruct v; reflexivity.
Qed.

End Deduplication.

(** C6.  The aggregate of the settled per-browser results has pairwise
    distinct urls and at most 50 entries; it is a sublist of the tabs of the
    fulfilled branches taken in browser order (so the order of the surviving
    entries is the order in which the queries emitted them), and each entry
    is the first tab with its url in that order.  It is the first 50 entries
    of the deduplicated list, in which every url read occurs. *)
Theorem aggregateTabs_unique_capped
    (results : list (BrowserTabCapture.Settled (list BrowserTabCapture.BrowserTab))) :
  let allTabs := BrowserTabCapture.collectTabs results in
  let out := BrowserTabCapture.aggregateTabs results in
  NoDup (BrowserTabCapture.url <$> out)
  /\ (length out <= 50)%nat
  /\ (out `sublist_of` allTabs)
  /\ Forall (fun t =>
       exists pre post,
         allTabs = pre ++ t :: post
         /\ Forall (fun x => BrowserTabCapture.url x <> BrowserTabCapture.url t) pre)
       out
  /\ out = take 50 (BrowserTabCapture.deduplicateTabs allTabs)
  /\ Forall (fun t =>
       BrowserTabCapture.url t
       ∈ BrowserTabCapture.url <$> BrowserTabCapture.deduplicateTabs allTabs)
       allTabs
  /\ (forall values,
        BrowserTabCapture.collectTabs (BrowserTabCapture.Fulfilled <$> values)
        = concat values).
Proof.
  intros allTabs out. subst out. unfold BrowserTabCapture.aggregateTabs.
  fold allTabs. unfold BrowserTabCapture.deduplicateTabs.
  destruct (deduplicateFrom_spec allTabs ∅ [])
    as (kept & Heq & Hsub & Hnd & Hfirst & Hall).
  simpl in Heq. rewrite Heq. unfold BrowserTabCapture.maxTabs.
  split; [|split; [|split; [|split; [|split; [|split]]]]].
  - apply (sublist_NoDup _ (BrowserTabCapture.url <$> kept)); [exact Hnd|].
    rewrite fmap_take. apply sublist_take.
  - rewrite length_take. lia.
  - etransitivity; [apply sublist_take|exact Hsub].
  - apply Forall_forall. intros t Ht.
    assert (Hk : t ∈ kept) by (eapply elem_of_sublist; [exact Ht|apply sublist_take]).
    destruct (Hfirst t Hk) as (_ & pre & post & Htabs & Hpre).
    exists pre, post. split; [exact Htabs|].
    apply Forall_forall. exact Hpre.
  - reflexivity.
  - apply Forall_forall. intros t Ht.
    destruct (Hall t Ht) as [Hs|Hk]; [|exact Hk].
    apply not_elem_of_empty in Hs. destruct Hs.
  - apply collectTabs_fulfilled.
Qed.

Section TabValidity.

Import BrowserTabCapture.

Variable parseURL : JsString -> option URL.

Lemma tabsOfParts_well_formed (browser : JsString) (n : nat) :
  forall parts, (length parts <= n)%nat ->
    Forall (well_formed_tab parseURL) (tabsOfParts parseURL browser parts).
Proof.
  induction n as [|n IH]; intros parts Hlen.
  - destruct parts; [constructor|simpl in Hlen; lia].
  - destruct parts as [|u [|t rest]]; try constructor.
    simpl. apply Forall_app. split.
    + destruct (truthy u && truthy t); [|constructor].
      destruct (parseURL u) as [urlObj|] eqn:Hu; [|constructor].
      constructor; [|constructor].
      exists urlObj. simpl. split; [exact Hu|reflexivity].
    + apply IH. simpl in Hlen. lia.
Qed.

Lemma parseAppleScriptTabOutput_well_formed (output browser : JsString) :
  Forall (well_formed_tab parseURL) (parseAppleScriptTabOutput parseURL output browser).
Proof.
  unfold parseAppleScriptTabOutput.
  destruct (negb (truthy output) || negb (truthy (trim output))); [constructor|].
  eapply tabsOfParts_well_formed. reflexivity.
Qed.

Lemma browser_queries_well_formed (run : ExecResult) :
  Forall (well_formed_tab parseURL) (captureChromeTabs parseURL run)
  /\ Forall (well_formed_tab parseURL) (captureSafariTabs parseURL run)
  /\ Forall (well_formed_tab parseURL) (captureFirefoxTabs parseURL run)
  /\ Forall (well_formed_tab parseURL) (captureEdgeTabs parseURL run).
Proof.
  destruct run; simpl; repeat split;
    first [apply parseAppleScriptTabOutput_well_formed|constructor].
Qed.

Lemma collectTabs_Forall (P : BrowserTab -> Prop) results :
  Forall (fun r => match r with Fulfilled v => Forall P v | Rejected _ => True end)
         results ->
  Forall P (collectTabs results).
Proof.
  induction 1 as [|r results Hr _ IH]; simpl; [constructor|].
  destruct r as [v|e]; [|exact IH].
  apply Forall_app. split; [|exact IH].
  destruct (0 <? length v)%nat; [exact Hr|constructor].
Qed.

Lemma aggregateTabs_Forall (P : BrowserTab -> Prop) results :
  Forall P (collectTabs results) -> Forall P (aggregateTabs results).
Proof.
  intros H. unfold aggregateTabs, deduplicateTabs.
  destruct (deduplicateFrom_spec (collectTabs results) ∅ [])
    as (kept & Heq & Hsub & _).
  simpl in Heq. rewrite Heq.
  rewrite Forall_forall in *. intros t Ht. apply H.
  eapply elem_of_sublist; [exact Ht|].
  etransitivity; [apply sublist_take|exact Hsub].
Qed.

Lemma captureTabs_well_formed (runs : BrowserRuns) :
  Forall (well_formed_tab parseURL) (captureTabs parseURL runs).
Proof.
  unfold captureTabs. apply aggregateTabs_Forall, collectTabs_Forall.
  unfold settledBranches.
  repeat constructor.
  - apply (browser_queries_well_formed (chrome runs)).
  - apply (browser_queries_well_formed (safari runs)).
  - apply (browser_queries_well_formed (firefox runs)).
  - apply (browser_queries_well_formed (edge runs)).
Qed.

End TabValidity.

(** C10.  Whatever the URL parser of the platform accepts, every tab
    returned by [captureTabs] has a url that parses and a domain equal to the
    host name of the parse.  A pair of the script output whose url does not
    parse is left out and the remaining pairs are read as before; no error
    reaches the caller, [captureTabs] always returns a list. *)
Theorem captureTabs_urls_parse
    (parseURL : JsString -> option BrowserTabCapture.URL) :
  (forall runs,
      Forall (fun tab =>
                exists urlObj,
                  parseURL (BrowserTabCapture.url tab) = Some urlObj
                  /\ BrowserTabCapture.domain tab = BrowserTabCapture.hostname urlObj)
             (BrowserTabCapture.captureTabs parseURL runs))
  /\ (forall output browser,
        Forall (fun tab =>
                  exists urlObj,
                    parseURL (BrowserTabCapture.url tab) = Some urlObj
                    /\ BrowserTabCapture.domain tab
                       = BrowserTabCapture.hostname urlObj)
               (BrowserTabCapture.parseAppleScriptTabOutput parseURL output browser))
  /\ (forall browser url title rest,
        parseURL url = None ->
        BrowserTabCapture.tabsOfParts parseURL browser (url :: title :: rest)
        = BrowserTabCapture.tabsOfParts parseURL browser rest).
Proof.
  split; [|split].
  - intros runs. apply captureTabs_well_formed.
  - intros output browser. apply parseAppleScriptTabOutput_well_formed.
  - intros browser url title rest Hnone. simpl. rewrite Hnone.
    destruct (truthy url && truthy title); reflexivity.
Qed.

(** The theorem at the sample parser: the first pair has no scheme and is
    left out, the second is kept. *)
Lemma captureTabs_urls_parse_witness :
  Samples.httpsURL (js "example.org") = None
  /\ BrowserTabCapture.tabsOfParts Samples.httpsURL (js "Chrome")
       [js "example.org"; js "Example"; js "https://rocq-prover.org/doc"; js "Rocq"]
     = [ {| BrowserTabCapture.title := js "Rocq";
            BrowserTabCapture.url := js "https://rocq-prover.org/doc";
            BrowserTabCapture.domain := js "rocq-prover.org";
            BrowserTabCapture.browser := Some (js "Chrome") |} ].
Proof.
  split; [reflexivity|].
  rewrite (proj2 (proj2 (captureTabs_urls_parse Samples.httpsURL))
             (js "Chrome") (js "example.org") (js "Example")
             [js "https://rocq-prover.org/doc"; js "Rocq"]);
    reflexivity.
Defined.

(** ** WebhookService *)

Section RetryPolicy.

Import WebhookService.

Variable http : nat -> HttpOutcome.
Variable payload : WebhookPayload.

(** The three iterations of the loop, written out. *)
Lemma send_unfold :
  send http payload
  = match http 1%nat with
    | HttpResolved status =>
        (mkResponse true None (Some status), [EvHttpPost (id payload) 1])
    | HttpRejected e1 =>
        match clientError e1 with
        | Some status =>
            (mkResponse false (Some (js "Client error: " ++ of_Z status)) (Some status),
             [EvHttpPost (id payload) 1])
        | None =>
            match http 2%nat with
            | HttpResolved status =>
                (mkResponse true None (Some status),
                 [EvHttpPost (id payload) 1; EvSleep 1000; EvHttpPost (id payload) 2])
            | HttpRejected e2 =>
                match clientError e2 with
                | Some status =>
                    (mkResponse false (Some (js "Client error: " ++ of_Z status))
                                (Some status),
                     [EvHttpPost (id payload) 1; EvSleep 1000;
                      EvHttpPost (id payload) 2])
                | None =>
                    match http 3%nat with
                    | HttpResolved status =>
                        (mkResponse true None (Some status),
                         [EvHttpPost (id payload) 1; EvSleep 1000;
                          EvHttpPost (id payload) 2; EvSleep 2000;
                          EvHttpPost (id payload) 3])
                    | HttpRejected e3 =>
                        match clientError e3 with
                        | Some status =>
                            (mkResponse false
                               (Some (js "Client error: " ++ of_Z status))
                               (Some status),
                             [EvHttpPost (id payload) 1; EvSleep 1000;
                              EvHttpPost (id payload) 2; EvSleep 2000;
                              EvHttpPost (id payload) 3])
                        | None =>
                            (mkResponse false
                               (Some (or_else (message e3) (js "Unknown error")))
                               None,
                             [EvHttpPost (id payload) 1; EvSleep 1000;
                              EvHttpPost (id payload) 2; EvSleep 2000;
                              EvHttpPost (id payload) 3])
                        end
                    end
                end
            end
        end
    end.
Proof.
  unfold send. change (seq 1 maxRetries) with [1; 2; 3]%nat.
  cbn [sendAttempts].
  destruct (http 1%nat) as [s1|e1]; [reflexivity|].
  destruct (clientError e1); [reflexivity|].
  destruct (http 2%nat) as [s2|e2]; [reflexivity|].
  destruct (clientError e2); [reflexivity|].
  destruct (http 3%nat) as [s3|e3]; [reflexivity|].
  destruct (clientError e3); reflexivity.
Qed.

End RetryPolicy.

(** Case analysis on an attempt number between 1 and 3, with the facts the
    hypothesis [Hprev] gives about earlier attempts. *)
Ltac attempt_cases k :=
  let H := fresh in
  assert (H : (k = 1 \/ k = 2 \/ k = 3)%nat) by lia;
  destruct H as [-> | [-> | ->]].

Ltac use_earlier Hprev :=
  try (pose proof (Hprev 1%nat ltac:(lia)));
  try (pose proof (Hprev 2%nat ltac:(lia)));
  try (pose proof (Hprev 3%nat ltac:(lia)));
  unfold WebhookService.retryable in *.

Ltac settle_outcomes :=
  repeat match goal with
  | H : ?http ?k = _, H' : context [?http ?k] |- _ => rewrite H in H'
  end;
  simplify_eq;
  repeat match goal with
  | H : WebhookService.clientError ?e = _,
    H' : context [WebhookService.clientError ?e] |- _ =>
      rewrite H in H'
  end;
  simplify_eq.

(** C3, as amended.  [send] posts at most three times.  The first client
    error (a response with status 400 to 499) ends the call at once: failure,
    the message ["Client error: <status>"] and the status, and no later post.
    After any other failure of attempt [k < 3] it sleeps [1000 * 2^(k-1)]
    milliseconds and posts again.  After three such failures it returns
    failure with the message of the last error, or ["Unknown error"] when that
    message is empty.  A resolved post ends the call with success. *)
Theorem send_retry_policy
    (http : nat -> WebhookService.HttpOutcome)
    (payload : WebhookService.WebhookPayload) :
  let response := (WebhookService.send http payload).1 in
  let events := (WebhookService.send http payload).2 in
  let post := EvHttpPost (WebhookService.id payload) in
  (count is_post events <= 3)%nat
  /\ (forall k e status, (1 <= k <= 3)%nat ->
        (forall j, (1 <= j < k)%nat -> WebhookService.retryable (http j) = true) ->
        http k = WebhookService.HttpRejected e ->
        WebhookService.clientError e = Some status ->
        response
        = {| WebhookService.success := false;
             WebhookService.error := Some (js "Client error: " ++ of_Z status);
             WebhookService.statusCode := Some status |}
        /\ count is_post events = k
        /\ last events = Some (post k))
  /\ (forall k status, (1 <= k <= 3)%nat ->
        (forall j, (1 <= j < k)%nat -> WebhookService.retryable (http j) = true) ->
        http k = WebhookService.HttpResolved status ->
        response
        = {| WebhookService.success := true;
             WebhookService.error := None;
             WebhookService.statusCode := Some status |}
        /\ count is_post events = k
        /\ last events = Some (post k))
  /\ (forall k, (1 <= k < 3)%nat ->
        (forall j, (1 <= j <= k)%nat -> WebhookService.retryable (http j) = true) ->
        exists before after,
          events
          = before
            ++ [post k; EvSleep (1000 * 2 ^ (Z.of_nat k - 1)); post (S k)]
            ++ after)
  /\ (forall e,
        (forall j, (1 <= j <= 3)%nat -> WebhookService.retryable (http j) = true) ->
        http 3%nat = WebhookService.HttpRejected e ->
        response
        = {| WebhookService.success := false;
             WebhookService.error :=
               Some (or_else (message e) (js "Unknown error"));
             WebhookService.statusCode := None |}
        /\ events = [post 1%nat; EvSleep 1000; post 2%nat; EvSleep 2000; post 3%nat]).
Proof.
  intros response events post. subst response events post.
  rewrite send_unfold.
  destruct (http 1%nat) as [s1|e1] eqn:H1;
    [|destruct (WebhookService.clientError e1) as [c1|] eqn:C1;
      [|destruct (http 2%nat) as [s2|e2] eqn:H2;
        [|destruct (WebhookService.clientError e2) as [c2|] eqn:C2;
          [|destruct (http 3%nat) as [s3|e3] eqn:H3;
            [|destruct (WebhookService.clientError e3) as [c3|] eqn:C3]]]]];
    cbn [fst snd];
    (split; [cbn; lia|]);
    (split; [intros k e status Hk Hprev Hhk Hce; attempt_cases k;
             use_earlier Hprev; settle_outcomes;
             repeat split; reflexivity|]);
    (split; [intros k status Hk Hprev Hhk; attempt_cases k;
             use_earlier Hprev; settle_outcomes;
             repeat split; reflexivity|]);
    (split; [intros k Hk Hprev;
             assert (Hk' : (k = 1 \/ k = 2)%nat) by lia;
             destruct Hk' as [-> | ->]; use_earlier Hprev; settle_outcomes;
             first
               [ exists []; eexists; reflexivity
               | exists [EvHttpPost (WebhookService.id payload) 1; EvSleep 1000];
                 eexists; reflexivity ]|]);
    (intros e Hprev Hhk; use_earlier Hprev; settle_outcomes;
     split; reflexivity).
Qed.

(** The theorem at a run where the first post is answered 404. *)
Lemma send_retry_policy_witness :
  (WebhookService.send (Samples.always Samples.notFound) Samples.samplePayload).1
  = {| WebhookService.success := false;
       WebhookService.error := Some (js "Client error: " ++ of_Z 404);
       WebhookService.statusCode := Some 404 |}
  /\ count is_post
       (WebhookService.send (Samples.always Samples.notFound) Samples.samplePayload).2
     = 1%nat
  /\ last (WebhookService.send (Samples.always Samples.notFound) Samples.samplePayload).2
     = Some (EvHttpPost (js "c1") 1).
Proof.
  apply (proj1 (proj2 (send_retry_policy (Samples.always Samples.notFound)
                         Samples.samplePayload))
           1%nat
           (mkError (js "Request failed with status code 404") true (Some 404))
           404).
  - lia.
  - intros j Hj. lia.
  - reflexivity.
  - reflexivity.
Defined.

(** C3, as stated, fails at the message: three rejections without a response
    whose message is the empty string give the message ["Unknown error"],
    which is not the message of the last error. *)
Lemma send_empty_message_replaced :
  (WebhookService.send (Samples.always Samples.silentFailure) Samples.samplePayload).1
  = {| WebhookService.success := false;
       WebhookService.error := Some (js "Unknown error");
       WebhookService.statusCode := None |}
  /\ Samples.silentFailure = WebhookService.HttpRejected (mkError [] true None)
  /\ Some (message (mkError [] true None)) <> Some (js "Unknown error").
Proof. split; [reflexivity|]. split; [reflexivity|]. discriminate. Qed.

(** Three server errors: three posts, sleeps of one and two seconds, failure
    with the message of the last error. *)
Example send_three_server_errors :
  WebhookService.send (Samples.always Samples.serverError) Samples.samplePayload
  = ({| WebhookService.success := false;
        WebhookService.error := Some (js "Request failed with status code 500");
        WebhookService.statusCode := None |},
     [EvHttpPost (js "c1") 1; EvSleep 1000; EvHttpPost (js "c1") 2; EvSleep 2000;
      EvHttpPost (js "c1") 3]).
Proof. reflexivity. Qed.

(** One 404: one post, no sleep, failure with the status. *)
Example send_not_found :
  WebhookService.send (Samples.always Samples.notFound) Samples.samplePayload
  = ({| WebhookService.success := false;
        WebhookService.error := Some (js "Client error: 404");
        WebhookService.statusCode := Some 404 |},
     [EvHttpPost (js "c1") 1]).
Proof. reflexivity. Qed.

(** ** The monad and the world *)

#[global] Arguments js : simpl never.
#[global] Arguments ContextAggregator.jsonPathOf : simpl never.
#[global] Arguments ContextAggregator.screenshotPathOf : simpl never.

Ltac unfold_monad :=
  unfold mbind, M_bind, bind, mret, M_ret, ret, throw, gets, modify,
    tryCatch, tryFinally, emit in *.

Lemma nextFault_cases (faults : list (option JsError)) :
  (exists rest, nextFault faults = (None, rest))
  \/ (exists e rest, nextFault faults = (Some e, rest)).
Proof.
  destruct faults as [|[e|] rest]; simpl; eauto.
Qed.

Section Screenshot.

Import ContextAggregator.

(** The events of a window hook. *)
Lemma callHook_run (ev : Event) (hook : option Hook) (w : World) :
  callHook ev hook w
  = match hook with
    | None => (Ret tt, w)
    | Some HookReturns => (Ret tt, set_log (fun l => l ++ [ev]) w)
    | Some (HookThrows e) => (Throw e, set_log (fun l => l ++ [ev]) w)
    end.
Proof. destruct hook as [[|e]|]; reflexivity. Qed.

(** Step 4 changes the log and at most the screenshot file; it throws only
    when the show-window hook throws. *)
Lemma takeScreenshot_run (captureId : JsString) (outcome : GrabOutcome)
    (hideWindow showWindow : option Hook) (w : World) :
  exists o w1,
    withLocals (takeScreenshot captureId outcome hideWindow showWindow) w = (o, w1)
    /\ db w1 = db w
    /\ latestCapture w1 = latestCapture w
    /\ dispatched w1 = dispatched w
    /\ dbFaults w1 = dbFaults w
    /\ clock w1 = clock w
    /\ (forall p, p <> screenshotPathOf captureId -> fs w1 !! p = fs w !! p)
    /\ log w1
       = log w
         ++ match hideWindow with Some _ => [EvHideWindow] | None => [] end
         ++ match hideWindow with
            | Some (HookThrows _) => []
            | _ => [EvSettle 100; EvScreenGrab (screenshotPathOf captureId)]
            end
         ++ match showWindow with Some _ => [EvShowWindow] | None => [] end
    /\ match o with
       | Ret _ => showWindow = None \/ showWindow = Some HookReturns
       | Throw e => showWindow = Some (HookThrows e)
       end.
Proof.
  unfold withLocals, takeScreenshot, liftW, screenshotDesktop, readFile,
    assignScreenshotPath, assignScreenshotBase64, fsCall.
  unfold_monad. cbn. rewrite !callHook_run.
  destruct hideWindow as [[|eh]|], showWindow as [[|es]|], outcome as [img|eg];
    cbn;
    try (destruct (nextFault (fsFaults w)) as [[ef|] rest]; cbn;
         try rewrite lookup_insert_eq; cbn);
    do 2 eexists; (split; [reflexivity|]); cbn;
    repeat (split; [first [reflexivity | rewrite <- ?app_assoc; reflexivity
                          | intros p Hp; rewrite ?lookup_insert_ne by congruence;
                            reflexivity]|]);
    auto.
Qed.

End Screenshot.

Section CaptureContext.

Import ContextAggregator.

Variable parseURL : JsString -> option BrowserTabCapture.URL.

(** [captureContext] always returns a result.  On success the blob, the row,
    the latest capture and the dispatched delivery are those of the new
    capture; on failure the table is untouched. *)
Lemma captureContext_run (env : CaptureEnv)
    (captureMethod : CaptureTypes.CaptureMethod)
    (hideWindow showWindow : option Hook) (w : World) :
  exists result w',
    captureContext parseURL env captureMethod hideWindow showWindow w
    = (Ret result, w')
    /\ log w'
       = log w
         ++ match hideWindow with Some _ => [EvHideWindow] | None => [] end
         ++ match hideWindow with
            | Some (HookThrows _) => []
            | _ => [EvSettle 100; EvScreenGrab (screenshotPathOf (uuid env))]
            end
         ++ match showWindow with Some _ => [EvShowWindow] | None => [] end
    /\ ((success result = true
         /\ captureId result = Some (uuid env)
         /\ error result = None
         /\ DatabaseHelper.selectById (uuid env) (db w) = None
         /\ exists context row,
              CaptureTypes.id context = uuid env
              /\ latestCapture w' = Some context
              /\ fs w' !! jsonPathOf (uuid env) = Some (FJson context)
              /\ db w' = db w ++ [row]
              /\ Effects.id row = uuid env
              /\ webhook_sent row = 0
              /\ json_path row = jsonPathOf (uuid env)
              /\ dispatched w' = dispatched w ++ [(uuid env, context)])
        \/ (success result = false
            /\ captureId result = None
            /\ is_Some (error result)
            /\ db w' = db w
            /\ dispatched w' = dispatched w)).
Proof.
  destruct (takeScreenshot_run (uuid env) (grab env) hideWindow showWindow w)
    as (o & w1 & Hrun & Hdb & Hlatest & Hdisp & Hfaults & Hclock & Hfs & Hlog & Ho).
  unfold captureContext. unfold_monad. cbn. rewrite Hrun.
  destruct o as [locals|e]; cbn.
  2:{ do 2 eexists. split; [reflexivity|]. split; [exact Hlog|].
      right. cbn. repeat split; eauto. }
  unfold writeFile, fsCall. unfold_monad. cbn.
  destruct (nextFault (fsFaults w1)) as [[ef|] frest]; cbn.
  { do 2 eexists. split; [reflexivity|]. split; [exact Hlog|].
    right. cbn. repeat split; eauto. }
  unfold DatabaseHelper.insertCapture, dbCall. unfold_monad. cbn.
  destruct (nextFault (dbFaults w1)) as [[ed|] drest]; cbn.
  { do 2 eexists. split; [reflexivity|]. split; [exact Hlog|].
    right. cbn. repeat split; eauto. }
  rewrite Hdb. unfold DatabaseHelper.selectById.
  destruct (find (DatabaseHelper.has_id (uuid env)) (db w)) as [existing|] eqn:Hsel;
    cbn.
  { do 2 eexists. split; [reflexivity|]. split; [exact Hlog|].
    right. cbn. repeat split; eauto. }
  do 2 eexists. split; [reflexivity|]. split; [exact Hlog|].
  left. cbn. repeat split.
  do 2 eexists. split; [|split; [reflexivity|split; [apply lookup_insert_eq|]]].
  { reflexivity. }
  rewrite Hdb, Hdisp. repeat split; reflexivity.
Qed.

End CaptureContext.

(** ** The index *)

Lemma selectById_app (i : JsString) (rows rows' : list CaptureRecord) :
  DatabaseHelper.selectById i (rows ++ rows')
  = match DatabaseHelper.selectById i rows with
    | Some r => Some r
    | None => DatabaseHelper.selectById i rows'
    end.
Proof.
  unfold DatabaseHelper.selectById.
  induction rows as [|r rows IH]; simpl; [reflexivity|].
  destruct (DatabaseHelper.has_id i r); [reflexivity|exact IH].
Qed.

Lemma selectById_id (i : JsString) (rows : list CaptureRecord) (r : CaptureRecord) :
  DatabaseHelper.selectById i rows = Some r -> Effects.id r = i.
Proof.
  unfold DatabaseHelper.selectById. intros H.
  apply find_some in H as [_ H]. unfold DatabaseHelper.has_id in H.
  apply bool_decide_eq_true in H. exact H.
Qed.

Lemma selectById_None (i : JsString) (rows : list CaptureRecord) :
  DatabaseHelper.selectById i rows = None -> i ∉ Effects.id <$> rows.
Proof.
  unfold DatabaseHelper.selectById. intros Hnone Hin.
  apply list_elem_of_fmap in Hin as (r & -> & Hr).
  apply list_elem_of_In in Hr.
  pose proof (find_none _ _ Hnone r Hr) as Hr'.
  unfold DatabaseHelper.has_id in Hr'.
  apply bool_decide_eq_false in Hr'. apply Hr'. reflexivity.
Qed.

(** The primary key: [insertCapture] keeps the ids of the table distinct. *)
Lemma insertCapture_keeps_key (data : DatabaseHelper.CaptureInsertData) (w : World) :
  NoDup (Effects.id <$> db w) ->
  NoDup (Effects.id <$> db (DatabaseHelper.insertCapture data w).2).
Proof.
  intros Hkey. unfold DatabaseHelper.insertCapture, dbCall. unfold_monad.
  destruct (nextFault (dbFaults w)) as [[e|] rest]; cbn; [exact Hkey|].
  unfold DatabaseHelper.selectById.
  destruct (find (DatabaseHelper.has_id (DatabaseHelper.id data)) (db w)) eqn:Hsel;
    cbn; [exact Hkey|].
  rewrite fmap_app. apply NoDup_app. split; [exact Hkey|]. split.
  - intros i Hi Hnew. cbn in Hnew. apply list_elem_of_singleton in Hnew as ->.
    apply selectById_None in Hsel. contradiction.
  - cbn. apply NoDup_singleton.
Qed.

(** ** ContextAggregator.captureContext *)

(** C8.  In a call of [captureContext] that is given both hooks, the events
    of the call are, in this order: the hide-window hook, then the settle
    delay and the screen grab (skipped only when the hide hook itself
    throws), then the show-window hook.  This holds for every environment,
    so also when the grab rejects or a later write fails; each hook is
    called exactly once. *)
Theorem captureContext_hooks_around_grab
    (parseURL : JsString -> option BrowserTabCapture.URL)
    (env : ContextAggregator.CaptureEnv)
    (captureMethod : CaptureTypes.CaptureMethod)
    (hideWindow showWindow : ContextAggregator.Hook) (w : World) :
  let w' :=
    (ContextAggregator.captureContext parseURL env captureMethod
       (Some hideWindow) (Some showWindow) w).2 in
  let grabbed :=
    match hideWindow with
    | ContextAggregator.HookReturns =>
        [EvSettle 100;
         EvScreenGrab (ContextAggregator.screenshotPathOf (ContextAggregator.uuid env))]
    | ContextAggregator.HookThrows _ => []
    end in
  log w' = log w ++ [EvHideWindow] ++ grabbed ++ [EvShowWindow]
  /\ count is_hide ([EvHideWindow] ++ grabbed ++ [EvShowWindow]) = 1%nat
  /\ count is_show ([EvHideWindow] ++ grabbed ++ [EvShowWindow]) = 1%nat
  /\ (count is_grab ([EvHideWindow] ++ grabbed ++ [EvShowWindow]) <= 1)%nat.
Proof.
  intros w' grabbed. subst w' grabbed.
  destruct (captureContext_run parseURL env captureMethod
              (Some hideWindow) (Some showWindow) w)
    as (result & w' & Hrun & Hlog & _).
  rewrite Hrun. cbn [snd]. rewrite Hlog.
  destruct hideWindow; cbn; repeat split; lia.
Qed.




(** All adapters failing is not a capture failure: the record has the
    defaults and the call succeeds. *)
Example captureContext_degraded :
  let run :=
    ContextAggregator.captureContext Samples.httpsURL Samples.degradedEnv
      CaptureTypes.hotkey None None Samples.emptyWorld in
  run.1 = Ret {| ContextAggregator.success := true;
                 ContextAggregator.captureId := Some (js "c1");
                 ContextAggregator.error := None |}
  /\ latestCapture run.2 = Some Samples.degradedContext.
Proof. vm_compute. split; reflexivity. Qed.

(** ** Delivery and retry *)

Section Delivery.

Import ContextAggregator.

Variable http : nat -> WebhookService.HttpOutcome.

(** [sendToWebhook] logs the events of the delivery and then writes its
    outcome to the row, unless the update statement fails. *)
Lemma sendToWebhook_run (captureId : JsString)
    (context : CaptureTypes.CapturedContext) (w : World) :
  let delivery := WebhookService.send http (payloadOf context) in
  let w1 := set_log (fun l => l ++ delivery.2) w in
  sendToWebhook http captureId context w
  = match nextFault (dbFaults w) with
    | (Some e, rest) => (Throw e, set_dbFaults rest w1)
    | (None, rest) =>
        (Ret tt,
         set_db (List.map (DatabaseHelper.setWebhookStatus captureId
                             (WebhookService.success delivery.1) (clock w)))
                (set_dbFaults rest w1))
    end.
Proof.
  cbn zeta. unfold sendToWebhook.
  destruct (WebhookService.send http (payloadOf context)) as [result events].
  unfold DatabaseHelper.updateWebhookStatus, dbCall. unfold_monad. cbn.
  destruct (nextFault (dbFaults w)) as [[e|] rest]; reflexivity.
Qed.

(** [loadCapture] never throws and only consumes a file-system call. *)
Lemma loadCapture_run (captureId : JsString) (w : World) :
  loadCapture captureId w
  = (Ret match (nextFault (fsFaults w)).1 with
         | Some _ => None
         | None =>
             match fs w !! jsonPathOf captureId with
             | Some (FJson capture) => Some capture
             | _ => None
             end
         end,
     set_fsFaults (nextFault (fsFaults w)).2 w).
Proof.
  unfold loadCapture, readFile, fsCall. unfold_monad. cbn.
  destruct (nextFault (fsFaults w)) as [[e|] rest]; cbn; [reflexivity|].
  destruct (fs w !! jsonPathOf captureId) as [[capture|img|raw]|]; reflexivity.
Qed.

Lemma retryWebhook_run (captureId : JsString) (w : World) :
  retryWebhook http captureId w
  = let w0 := set_fsFaults (nextFault (fsFaults w)).2 w in
    match (loadCapture captureId w).1 with
    | Ret (Some capture) =>
        match sendToWebhook http captureId capture w0 with
        | (Ret _, w') => (Ret {| ok := true; failure := None |}, w')
        | (Throw e, w') => (Ret {| ok := false; failure := Some (message e) |}, w')
        end
    | _ => (Ret {| ok := false; failure := Some (js "Capture not found") |}, w0)
    end.
Proof.
  unfold retryWebhook. unfold_monad. rewrite loadCapture_run. cbn.
  destruct (nextFault (fsFaults w)) as [[e|] rest]; cbn; [reflexivity|].
  destruct (fs w !! jsonPathOf captureId) as [[capture|img|raw]|]; try reflexivity.
  destruct (sendToWebhook http captureId capture (set_fsFaults rest w))
    as [[[]|e] w']; reflexivity.
Qed.

End Delivery.

(** C4, as amended.  When the blob of the id does not hold a capture (it is
    absent or does not parse), or reading it fails, [retryWebhook] returns
    [{success: false, error: "Capture not found"}] and leaves the table and
    the log alone.  When the blob loads, [retryWebhook] runs the delivery
    before it returns and writes the outcome of the delivery to the row; it
    then returns [{success: true}] whether the delivery succeeded or not, and
    returns failure only when the status update itself throws. *)
Theorem retryWebhook_outcome
    (http : nat -> WebhookService.HttpOutcome) (captureId : JsString) (w : World) :
  let run := ContextAggregator.retryWebhook http captureId w in
  let notFound :=
    {| ContextAggregator.ok := false;
       ContextAggregator.failure := Some (js "Capture not found") |} in
  ((forall capture,
       fs w !! ContextAggregator.jsonPathOf captureId <> Some (FJson capture)) ->
   run.1 = Ret notFound /\ db run.2 = db w /\ log run.2 = log w)
  /\ (forall e, (nextFault (fsFaults w)).1 = Some e ->
      run.1 = Ret notFound /\ db run.2 = db w /\ log run.2 = log w)
  /\ (forall capture,
        fs w !! ContextAggregator.jsonPathOf captureId = Some (FJson capture) ->
        (nextFault (fsFaults w)).1 = None ->
        let delivery :=
          WebhookService.send http (ContextAggregator.payloadOf capture) in
        log run.2 = log w ++ delivery.2
        /\ match (nextFault (dbFaults w)).1 with
           | None =>
               run.1 = Ret {| ContextAggregator.ok := true;
                              ContextAggregator.failure := None |}
               /\ db run.2
                  = List.map (DatabaseHelper.setWebhookStatus captureId
                                (WebhookService.success delivery.1) (clock w))
                             (db w)
           | Some e =>
               run.1 = Ret {| ContextAggregator.ok := false;
                              ContextAggregator.failure := Some (message e) |}
               /\ db run.2 = db w
           end).
Proof.
  intros run notFound. subst run notFound.
  rewrite retryWebhook_run, loadCapture_run. cbn [fst].
  split; [|split].
  - intros Habsent.
    destruct (nextFault (fsFaults w)) as [[e|] rest]; cbn [fst snd];
      [repeat split|].
    destruct (fs w !! ContextAggregator.jsonPathOf captureId)
      as [[capture|img|raw]|] eqn:Hfile; try (repeat split; fail).
    exfalso. apply (Habsent capture). reflexivity.
  - intros e He. destruct (nextFault (fsFaults w)) as [f rest].
    cbn [fst snd] in *. subst f. repeat split.
  - intros capture Hfile Hfs. destruct (nextFault (fsFaults w)) as [f rest].
    cbn [fst snd] in *. subst f. rewrite Hfile. rewrite sendToWebhook_run.
    cbn [dbFaults set_fsFaults clock].
    destruct (nextFault (dbFaults w)) as [[e|] drest]; cbn; repeat split.
Qed.

(** The theorem at the world left by a capture: the blob of [c1] loads, the
    collector answers 500 three times, and the retry reports success. *)
Lemma retryWebhook_outcome_witness :
  let run :=
    ContextAggregator.retryWebhook (Samples.always Samples.serverError) (js "c1")
      Samples.capturedWorld in
  let delivery :=
    WebhookService.send (Samples.always Samples.serverError)
      (ContextAggregator.payloadOf Samples.degradedContext) in
  log run.2 = log Samples.capturedWorld ++ delivery.2
  /\ match (nextFault (dbFaults Samples.capturedWorld)).1 with
     | None =>
         run.1 = Ret {| ContextAggregator.ok := true;
                        ContextAggregator.failure := None |}
         /\ db run.2
            = List.map (DatabaseHelper.setWebhookStatus (js "c1")
                          (WebhookService.success delivery.1)
                          (clock Samples.capturedWorld))
                       (db Samples.capturedWorld)
     | Some e =>
         run.1 = Ret {| ContextAggregator.ok := false;
                        ContextAggregator.failure := Some (message e) |}
         /\ db run.2 = db Samples.capturedWorld
     end.
Proof.
  apply (proj2 (proj2 (retryWebhook_outcome (Samples.always Samples.serverError)
                         (js "c1") Samples.capturedWorld))
           Samples.degradedContext).
  - vm_compute. reflexivity.
  - reflexivity.
Defined.

(** C4, as stated, fails: the blob of [c1] loads, every post of the retry is
    answered 500, so the delivery fails, and [retryWebhook] returns
    [{success: true}]. *)
Lemma retryWebhook_success_after_failed_delivery :
  fs Samples.capturedWorld !! ContextAggregator.jsonPathOf (js "c1")
  = Some (FJson Samples.degradedContext)
  /\ WebhookService.success
       (WebhookService.send (Samples.always Samples.serverError)
          (ContextAggregator.payloadOf Samples.degradedContext)).1 = false
  /\ (ContextAggregator.retryWebhook (Samples.always Samples.serverError) (js "c1")
        Samples.capturedWorld).1
     = Ret {| ContextAggregator.ok := true; ContextAggregator.failure := None |}.
Proof. vm_compute. repeat split; reflexivity. Qed.

(** A retry on an id without blob. *)
Example retryWebhook_unknown_id :
  let run :=
    ContextAggregator.retryWebhook (Samples.always Samples.accepted) (js "zz")
      Samples.capturedWorld in
  run.1 = Ret {| ContextAggregator.ok := false;
                 ContextAggregator.failure := Some (js "Capture not found") |}
  /\ db run.2 = db Samples.capturedWorld.
Proof. vm_compute. split; reflexivity. Qed.

(** ** The delivery flag *)

Lemma setWebhookStatus_id (j : JsString) (sent : bool) (now : Z) (r : CaptureRecord) :
  Effects.id (DatabaseHelper.setWebhookStatus j sent now r) = Effects.id r.
Proof.
  unfold DatabaseHelper.setWebhookStatus.
  destruct (DatabaseHelper.has_id j r); reflexivity.
Qed.

Lemma selectById_setWebhookStatus (i j : JsString) (sent : bool) (now : Z)
    (rows : list CaptureRecord) :
  DatabaseHelper.selectById i
    (List.map (DatabaseHelper.setWebhookStatus j sent now) rows)
  = DatabaseHelper.setWebhookStatus j sent now <$> DatabaseHelper.selectById i rows.
Proof.
  unfold DatabaseHelper.selectById.
  induction rows as [|r rows IH]; simpl; [reflexivity|].
  unfold DatabaseHelper.has_id at 1. rewrite setWebhookStatus_id.
  fold (DatabaseHelper.has_id i r).
  destruct (DatabaseHelper.has_id i r); [reflexivity|exact IH].
Qed.





Section Flag.

Variable parseURL : JsString -> option BrowserTabCapture.URL.


End Flag.





(** ** Retention cleanup *)

Lemma insertDesc_Permutation (r : CaptureRecord) (sorted : list CaptureRecord) :
  DatabaseHelper.insertDesc r sorted ≡ₚ r :: sorted.
Proof.
  induction sorted as [|r' rest IH]; simpl; [reflexivity|].
  destruct (Effects.timestamp r' <=? Effects.timestamp r); [reflexivity|].
  rewrite IH. apply Permutation_swap.
Qed.

Lemma orderByTimestampDesc_Permutation (rows : list CaptureRecord) :
  DatabaseHelper.orderByTimestampDesc rows ≡ₚ rows.
Proof.
  unfold DatabaseHelper.orderByTimestampDesc.
  induction rows as [|r rows IH]; simpl; [reflexivity|].
  rewrite insertDesc_Permutation, IH. reflexivity.
Qed.

Lemma filter_keeps_all {A} (P : A -> Prop) `{forall x, Decision (P x)} (l : list A) :
  Forall P l -> filter P l = l.
Proof.
  induction 1 as [|x l Hx _ IH]; [reflexivity|].
  rewrite filter_cons_True by exact Hx. rewrite IH. reflexivity.
Qed.

Section Cleanup.

Import ContextAggregator.

Lemma getCapture_run (i : JsString) (w : World) :
  DatabaseHelper.getCapture i w
  = match nextFault (dbFaults w) with
    | (Some e, rest) => (Throw e, set_dbFaults rest w)
    | (None, rest) => (Ret (DatabaseHelper.selectById i (db w)), set_dbFaults rest w)
    end.
Proof.
  unfold DatabaseHelper.getCapture, dbCall. unfold_monad.
  destruct (nextFault (dbFaults w)) as [[e|] rest]; reflexivity.
Qed.

Lemma dbDeleteCapture_run (i : JsString) (w : World) :
  DatabaseHelper.deleteCapture i w
  = match nextFault (dbFaults w) with
    | (Some e, rest) => (Throw e, set_dbFaults rest w)
    | (None, rest) =>
        (Ret tt, set_db (filter (fun r => Effects.id r <> i)) (set_dbFaults rest w))
    end.
Proof.
  unfold DatabaseHelper.deleteCapture, dbCall. unfold_monad.
  destruct (nextFault (dbFaults w)) as [[e|] rest]; reflexivity.
Qed.

(** An [unlink] whose failure is swallowed touches only the files and the
    file-system faults. *)
Lemma quiet_unlink_run (path : JsString) (w : World) :
  exists w',
    tryCatch (unlink path) (fun _ => ret tt) w = (Ret tt, w')
    /\ db w' = db w /\ log w' = log w /\ clock w' = clock w
    /\ dbFaults w' = dbFaults w.
Proof.
  unfold unlink, fsCall. unfold_monad. cbn.
  destruct (nextFault (fsFaults w)) as [[e|] rest]; cbn.
  - eexists. split; [reflexivity|]. auto.
  - destruct (fs w !! path); cbn; eexists; (split; [reflexivity|]); auto.
Qed.

(** [deleteCapture] of the orchestrator always returns; it leaves the log and
    the clock alone and removes from the table nothing but the rows of the
    id.  Without database faults it removes exactly those and succeeds. *)
Lemma deleteCapture_run (captureId : JsString) (w : World) :
  exists result w',
    deleteCapture captureId w = (Ret result, w')
    /\ log w' = log w
    /\ clock w' = clock w
    /\ (db w' = db w \/ db w' = filter (fun r => Effects.id r <> captureId) (db w))
    /\ (dbFaults w = [] ->
        ok result = true
        /\ dbFaults w' = []
        /\ db w' = filter (fun r => Effects.id r <> captureId) (db w)).
Proof.
  unfold deleteCapture. unfold tryCatch at 1.
  unfold mbind, M_bind, bind. rewrite getCapture_run.
  destruct (dbFaults w) as [|[e|] drest] eqn:Hfaults; cbn [nextFault].
  2:{ do 2 eexists. split; [reflexivity|]. cbn.
      split; [reflexivity|split; [reflexivity|split;
        [left; reflexivity|discriminate]]]. }
  all: match goal with
       | |- context [tryCatch (unlink ?p) ?h ?x] =>
           destruct (quiet_unlink_run p x) as (w1 & -> & Hdb1 & Hlog1 & Hclock1 & Hf1)
       end;
    assert (Hsecond : exists w2,
              match DatabaseHelper.selectById captureId (db w) with
              | Some r =>
                  if truthy (screenshot_path r)
                  then tryCatch (unlink (screenshot_path r)) (fun _ => ret tt)
                  else ret tt
              | None => ret tt
              end w1 = (Ret tt, w2)
              /\ db w2 = db w1 /\ log w2 = log w1 /\ clock w2 = clock w1
              /\ dbFaults w2 = dbFaults w1)
      by (destruct (DatabaseHelper.selectById captureId (db w)) as [r|];
          [destruct (truthy (screenshot_path r));
           [apply quiet_unlink_run|]|];
          exists w1; repeat split; reflexivity);
    destruct Hsecond as (w2 & -> & Hdb2 & Hlog2 & Hclock2 & Hf2);
    rewrite dbDeleteCapture_run, Hf2, Hf1; cbn [dbFaults set_dbFaults nextFault].
  - do 2 eexists. split; [reflexivity|]. cbn.
    rewrite Hdb2, Hdb1, Hlog2, Hlog1, Hclock2, Hclock1. cbn.
    split; [reflexivity|split; [reflexivity|split;
      [right; reflexivity|intros _; repeat split]]].
  - destruct (nextFault drest) as [[e|] rest] eqn:Hnext;
      do 2 eexists; (split; [reflexivity|]); cbn;
      rewrite ?Hdb2, ?Hdb1, ?Hlog2, ?Hlog1, ?Hclock2, ?Hclock1; cbn;
      (split; [reflexivity|split; [reflexivity|split;
        [first [left; reflexivity|right; reflexivity]|discriminate]]]).
Qed.

(** The loop of [cleanupOldCaptures] never throws.  It counts the scanned
    rows older than the cutoff, and removes from the table only rows whose id
    is the id of such a row; without database faults it removes all of
    them. *)
Lemma cleanupLoop_run (cutoffTime : Z) (captures : list CaptureRecord) :
  forall (deletedCount : Z) (w : World),
  let stale := filter (fun r => Effects.timestamp r < cutoffTime) captures in
  exists w',
    cleanupLoop cutoffTime captures deletedCount w
    = (Ret (deletedCount + Z.of_nat (length stale)), w')
    /\ log w' = log w
    /\ clock w' = clock w
    /\ (db w' `sublist_of` db w)
    /\ (forall r, r ∈ db w -> r ∈ db w' \/ Effects.id r ∈ Effects.id <$> stale)
    /\ (dbFaults w = [] ->
        dbFaults w' = []
        /\ db w' = filter (fun r => Effects.id r ∉ Effects.id <$> stale) (db w)).
Proof.
  induction captures as [|c rest IH]; intros deletedCount w; cbn zeta.
  - exists w. cbn. rewrite Z.add_0_r.
    split; [reflexivity|split; [reflexivity|split; [reflexivity|split;
      [reflexivity|split]]]].
    + intros r Hr. left. exact Hr.
    + intros Hf. split; [exact Hf|].
      symmetry. apply filter_keeps_all, Forall_forall.
      intros r _ Hin. inversion Hin.
  - cbn [cleanupLoop].
    destruct (Z.ltb_spec (Effects.timestamp c) cutoffTime) as [Hold|Hnew].
    + rewrite filter_cons_True by exact Hold.
      unfold mbind, M_bind, bind.
      destruct (deleteCapture_run (Effects.id c) w)
        as (result & w1 & -> & Hlog1 & Hclock1 & Hdb1 & Hnofault1).
      destruct (IH (deletedCount + 1) w1)
        as (w' & -> & Hlog & Hclock & Hsub & Hmem & Hnofault).
      exists w'. split; [f_equal; f_equal; cbn [length]; lia|].
      split; [congruence|]. split; [congruence|]. split; [|split].
      * etransitivity; [exact Hsub|].
        destruct Hdb1 as [-> | ->]; [reflexivity|apply sublist_filter].
      * intros r Hr. rewrite fmap_cons.
        destruct (decide (Effects.id r = Effects.id c)) as [Heq|Hne];
          [right; rewrite Heq; left|].
        assert (Hr1 : r ∈ db w1).
        { destruct Hdb1 as [-> | ->]; [exact Hr|].
          apply list_elem_of_filter. split; assumption. }
        destruct (Hmem r Hr1) as [Hin|Hin]; [left; exact Hin|right; right; exact Hin].
      * intros Hf. destruct (Hnofault1 Hf) as (_ & Hf1 & Hdbw1).
        destruct (Hnofault Hf1) as (Hf' & Hdbw').
        split; [exact Hf'|]. rewrite Hdbw', Hdbw1, list_filter_filter.
        apply list_filter_iff. intros r. rewrite fmap_cons, not_elem_of_cons.
        tauto.
    + rewrite filter_cons_False by lia.
      destruct (IH deletedCount w) as (w' & Heq & Hrest). exists w'.
      split; [exact Heq|exact Hrest].
Qed.

Lemma getCaptures_run (limit : nat) (w : World) :
  DatabaseHelper.getCaptures limit w
  = match nextFault (dbFaults w) with
    | (Some e, rest) => (Throw e, set_dbFaults rest w)
    | (None, rest) =>
        (Ret (take limit (DatabaseHelper.orderByTimestampDesc (db w))),
         set_dbFaults rest w)
    end.
Proof.
  unfold DatabaseHelper.getCaptures, dbCall. unfold_monad.
  destruct (nextFault (dbFaults w)) as [[e|] rest]; reflexivity.
Qed.

Lemma vacuum_run (w : World) :
  DatabaseHelper.vacuum w
  = match nextFault (dbFaults w) with
    | (Some e, rest) => (Throw e, set_dbFaults rest w)
    | (None, rest) =>
        (Ret tt, set_log (fun l => l ++ [EvVacuum]) (set_dbFaults rest w))
    end.
Proof.
  unfold DatabaseHelper.vacuum, dbCall. unfold_monad.
  destruct (nextFault (dbFaults w)) as [[e|] rest]; reflexivity.
Qed.

(** The whole of [cleanupOldCaptures], in terms of the rows it scans. *)
Lemma cleanupOldCaptures_run (daysOld : Z) (w : World) :
  let cutoffTime := cutoffOf (clock w) daysOld in
  let scanned := take 1000 (DatabaseHelper.orderByTimestampDesc (db w)) in
  let stale := filter (fun r => Effects.timestamp r < cutoffTime) scanned in
  exists o w',
    cleanupOldCaptures daysOld w = (o, w')
    /\ (db w' `sublist_of` db w)
    /\ (forall r, r ∈ db w -> r ∈ db w' \/ Effects.id r ∈ Effects.id <$> stale)
    /\ (forall n, o = Ret n -> n = Z.of_nat (length stale))
    /\ (dbFaults w = [] ->
        o = Ret (Z.of_nat (length stale))
        /\ db w' = filter (fun r => Effects.id r ∉ Effects.id <$> stale) (db w)
        /\ log w' = log w ++ (if (0 <? length stale)%nat then [EvVacuum] else [])).
Proof.
  cbn zeta. unfold cleanupOldCaptures.
  unfold mbind, M_bind, bind, gets. rewrite getCaptures_run.
  destruct (dbFaults w) as [|[e|] drest] eqn:Hfaults; cbn [nextFault].
  2:{ do 2 eexists. split; [reflexivity|]. cbn.
      split; [reflexivity|]. split; [intros r Hr; left; exact Hr|].
      split; [discriminate|discriminate]. }
  all: match goal with
       | |- context [cleanupLoop ?c ?l ?n ?x] =>
           destruct (cleanupLoop_run c l n x)
             as (w1 & -> & Hlog & Hclock & Hsub & Hmem & Hnofault)
       end;
    cbn zeta in *; rewrite Z.add_0_l in *.
  - destruct (Hnofault eq_refl) as (Hf1 & Hdb1).
    destruct (length (filter _ _)) as [|n] eqn:Hlen.
    + cbn. do 2 eexists. split; [reflexivity|]. cbn in *.
      split; [exact Hsub|]. split; [exact Hmem|].
      split; [intros k Hk; injection Hk as <-; reflexivity|].
      intros _. split; [reflexivity|]. split; [exact Hdb1|].
      rewrite Hlog, app_nil_r. reflexivity.
    + replace (Z.of_nat (S n) >? 0) with true
        by (symmetry; rewrite Z.gtb_ltb; apply Z.ltb_lt; lia).
      rewrite vacuum_run, Hf1. cbn.
      do 2 eexists. split; [reflexivity|]. cbn in *.
      split; [exact Hsub|]. split; [exact Hmem|].
      split; [intros k Hk; injection Hk as <-; reflexivity|].
      intros _. split; [reflexivity|]. split; [exact Hdb1|].
      rewrite Hlog. reflexivity.
  - destruct (Z.of_nat (length (filter _ _)) >? 0) eqn:Hpos.
    + rewrite vacuum_run.
      destruct (nextFault (dbFaults w1)) as [[e|] rest];
        do 2 eexists; (split; [reflexivity|]); cbn in *;
        (split; [exact Hsub|]); (split; [exact Hmem|]);
        (split; [intros k Hk; try discriminate; injection Hk as <-; reflexivity
                |discriminate]).
    + do 2 eexists. split; [reflexivity|]. cbn in *.
      split; [exact Hsub|]. split; [exact Hmem|].
      split; [intros k Hk; injection Hk as <-; reflexivity|discriminate].
Qed.

End Cleanup.

Lemma NoDup_fmap_eq {A B} (f : A -> B) (l : list A) (x y : A) :
  NoDup (f <$> l) -> x ∈ l -> y ∈ l -> f x = f y -> x = y.
Proof.
  induction l as [|a l IH]; intros Hnd Hx Hy Hf; [inversion Hx|].
  rewrite fmap_cons in Hnd. apply NoDup_cons in Hnd as [Ha Hnd].
  apply elem_of_cons in Hx as [->|Hx]; apply elem_of_cons in Hy as [->|Hy].
  - reflexivity.
  - exfalso. apply Ha. rewrite Hf. apply list_elem_of_fmap_2, Hy.
  - exfalso. apply Ha. rewrite <- Hf. apply list_elem_of_fmap_2, Hx.
  - apply IH; assumption.
Qed.



(** On the three rows: the two old rows go, the count is 2, the database is
    vacuumed. *)
Example cleanupOldCaptures_small :
  let run := ContextAggregator.cleanupOldCaptures 30 Samples.smallWorld in
  run.1 = Ret 2
  /\ db run.2 = [Samples.rowAt 500000000]
  /\ log run.2 = [EvVacuum].
Proof. vm_compute. repeat split; reflexivity. Qed.



(** * Further properties of the code *)

(** ** DatabaseHelper *)

Lemma dbCall_quiet (w : World) :
  dbFaults w = [] -> dbCall w = (Ret tt, set_dbFaults [] w).
Proof. intros H. unfold dbCall. rewrite H. reflexivity. Qed.

Lemma selectById_filter_other (i j : JsString) (rows : list CaptureRecord) :
  j <> i ->
  DatabaseHelper.selectById j (filter (fun r => Effects.id r <> i) rows)
  = DatabaseHelper.selectById j rows.
Proof.
  intros Hne. unfold DatabaseHelper.selectById.
  induction rows as [|r rows IH]; [reflexivity|].
  destruct (decide (Effects.id r = i)) as [Heq|Hneq].
  - rewrite filter_cons_False by (intros H; apply H; exact Heq).
    simpl. unfold DatabaseHelper.has_id at 2.
    rewrite bool_decide_eq_false_2 by congruence. exact IH.
  - rewrite filter_cons_True by exact Hneq. simpl. rewrite IH. reflexivity.
Qed.

Lemma selectById_filter_same (i : JsString) (rows : list CaptureRecord) :
  DatabaseHelper.selectById i (filter (fun r => Effects.id r <> i) rows) = None.
Proof.
  unfold DatabaseHelper.selectById.
  induction rows as [|r rows IH]; [reflexivity|].
  destruct (decide (Effects.id r = i)) as [Heq|Hneq].
  - rewrite filter_cons_False by (intros H; apply H; exact Heq). exact IH.
  - rewrite filter_cons_True by exact Hneq. simpl.
    unfold DatabaseHelper.has_id at 1.
    rewrite bool_decide_eq_false_2 by exact Hneq. exact IH.
Qed.

(** X1.  Insert, then look up.  When no statement fails and the id is not
    yet in the table, [insertCapture] succeeds and [getCapture] of the id
    then returns the row built from the data, with [webhook_sent = 0] and no
    send time; the table has grown by one row and the lookup of every other
    id is as before. *)
Theorem insertCapture_then_getCapture
    (data : DatabaseHelper.CaptureInsertData) (w : World) :
  dbFaults w = [] ->
  DatabaseHelper.selectById (DatabaseHelper.id data) (db w) = None ->
  exists w1 w2,
    DatabaseHelper.insertCapture data w = (Ret tt, w1)
    /\ DatabaseHelper.getCapture (DatabaseHelper.id data) w1
       = (Ret (Some {| Effects.id := DatabaseHelper.id data;
                       Effects.timestamp := DatabaseHelper.timestamp data;
                       app_name := DatabaseHelper.appName data;
                       window_title := DatabaseHelper.windowTitle data;
                       tabs_count := DatabaseHelper.tabsCount data;
                       has_clipboard :=
                         if DatabaseHelper.hasClipboard data then 1 else 0;
                       screenshot_path := DatabaseHelper.screenshotPath data;
                       json_path := DatabaseHelper.jsonPath data;
                       webhook_sent := 0;
                       webhook_sent_at := None |}), w2)
    /\ length (db w1) = S (length (db w))
    /\ (forall j, j <> DatabaseHelper.id data ->
          DatabaseHelper.selectById j (db w1) = DatabaseHelper.selectById j (db w)).
Proof.
  intros Hf Hfresh.
  unfold DatabaseHelper.insertCapture. unfold mbind, M_bind, bind.
  rewrite (dbCall_quiet w Hf). unfold gets. cbn [db set_dbFaults].
  rewrite Hfresh. unfold modify. do 2 eexists. split; [reflexivity|].
  rewrite getCapture_run. cbn [dbFaults set_db set_dbFaults nextFault db].
  split; [|split].
  - rewrite selectById_app, Hfresh. unfold DatabaseHelper.selectById. simpl.
    unfold DatabaseHelper.has_id. simpl.
    rewrite bool_decide_eq_true_2 by reflexivity. reflexivity.
  - rewrite length_app. simpl. lia.
  - intros j Hj. rewrite selectById_app.
    destruct (DatabaseHelper.selectById j (db w)); [reflexivity|].
    unfold DatabaseHelper.selectById. simpl. unfold DatabaseHelper.has_id. simpl.
    rewrite bool_decide_eq_false_2 by congruence. reflexivity.
Qed.

(** X2.  The primary key.  When a row of the id exists, [insertCapture]
    throws and leaves the table as it was. *)
Theorem insertCapture_duplicate_rejected
    (data : DatabaseHelper.CaptureInsertData) (w : World) (r : CaptureRecord) :
  DatabaseHelper.selectById (DatabaseHelper.id data) (db w) = Some r ->
  exists e w',
    DatabaseHelper.insertCapture data w = (Throw e, w')
    /\ db w' = db w
    /\ ((nextFault (dbFaults w)).1 = None -> e = DatabaseHelper.uniqueViolation).
Proof.
  intros Hsel. unfold DatabaseHelper.insertCapture, dbCall. unfold_monad.
  destruct (nextFault (dbFaults w)) as [[e|] rest]; cbn.
  - do 2 eexists. split; [reflexivity|]. split; [reflexivity|discriminate].
  - fold (DatabaseHelper.selectById (DatabaseHelper.id data) (db w)).
    rewrite Hsel. do 2 eexists. split; [reflexivity|]. split; reflexivity.
Qed.

Lemma insertDesc_sorted (r : CaptureRecord) (sorted : list CaptureRecord) :
  StronglySorted DatabaseHelper.newerFirst sorted ->
  StronglySorted DatabaseHelper.newerFirst (DatabaseHelper.insertDesc r sorted).
Proof.
  induction 1 as [|r' rest Hrest IH Hall]; simpl.
  - repeat constructor.
  - destruct (Z.leb_spec (Effects.timestamp r') (Effects.timestamp r)) as [Hle|Hgt].
    + constructor; [constructor; assumption|].
      constructor; [exact Hle|].
      eapply Forall_impl; [exact Hall|].
      intros x Hx. unfold DatabaseHelper.newerFirst in *. lia.
    + constructor; [exact IH|].
      rewrite insertDesc_Permutation. constructor; [|exact Hall].
      unfold DatabaseHelper.newerFirst. lia.
Qed.

Lemma orderByTimestampDesc_sorted (rows : list CaptureRecord) :
  StronglySorted DatabaseHelper.newerFirst (DatabaseHelper.orderByTimestampDesc rows).
Proof.
  unfold DatabaseHelper.orderByTimestampDesc.
  induction rows as [|r rows IH]; simpl; [constructor|].
  apply insertDesc_sorted, IH.
Qed.




(** X5.  [updateWebhookStatus(id, sent)], when its statement does not fail,
    changes nothing but the flag and the send time of the row of the id: the
    flag becomes [sent], the send time becomes the clock reading when [sent]
    and [null] otherwise (a failed update erases an earlier send time).  Rows
    of other ids are returned as before, and when the id is not in the table
    the table is left as it was, without an error. *)
Theorem updateWebhookStatus_touches_one_row
    (i : JsString) (sent : bool) (w : World) :
  (nextFault (dbFaults w)).1 = None ->
  exists w',
    DatabaseHelper.updateWebhookStatus i sent w = (Ret tt, w')
    /\ length (db w') = length (db w)
    /\ (forall j, j <> i ->
          DatabaseHelper.selectById j (db w') = DatabaseHelper.selectById j (db w))
    /\ (DatabaseHelper.selectById i (db w) = None -> db w' = db w)
    /\ (forall r, DatabaseHelper.selectById i (db w) = Some r ->
          DatabaseHelper.selectById i (db w')
          = Some {| Effects.id := Effects.id r;
                    Effects.timestamp := Effects.timestamp r;
                    app_name := app_name r;
                    window_title := window_title r;
                    tabs_count := tabs_count r;
                    has_clipboard := has_clipboard r;
                    screenshot_path := screenshot_path r;
                    json_path := json_path r;
                    webhook_sent := if sent then 1 else 0;
                    webhook_sent_at := if sent then Some (clock w) else None |}).
Proof.
  intros Hf. unfold DatabaseHelper.updateWebhookStatus, dbCall. unfold_monad.
  destruct (nextFault (dbFaults w)) as [f rest]. cbn in Hf. subst f. cbn.
  eexists. split; [reflexivity|]. cbn [db set_db set_dbFaults clock].
  split; [apply length_map|]. split; [|split].
  - intros j Hj. rewrite selectById_setWebhookStatus.
    destruct (DatabaseHelper.selectById j (db w)) as [r|] eqn:Hsel; [|reflexivity].
    simpl. apply selectById_id in Hsel.
    unfold DatabaseHelper.setWebhookStatus, DatabaseHelper.has_id.
    rewrite bool_decide_eq_false_2 by congruence. reflexivity.
  - intros Hnone. apply selectById_None in Hnone.
    induction (db w) as [|r rows IH]; [reflexivity|].
    rewrite fmap_cons, not_elem_of_cons in Hnone. destruct Hnone as [Hr Hrows].
    simpl. rewrite IH by exact Hrows.
    unfold DatabaseHelper.setWebhookStatus, DatabaseHelper.has_id.
    rewrite bool_decide_eq_false_2 by congruence. reflexivity.
  - intros r Hsel. rewrite selectById_setWebhookStatus, Hsel. simpl.
    apply selectById_id in Hsel.
    unfold DatabaseHelper.setWebhookStatus, DatabaseHelper.has_id.
    rewrite bool_decide_eq_true_2 by exact Hsel. reflexivity.
Qed.

Lemma filter_complement_length {A} (P : A -> Prop) `{forall x, Decision (P x)}
    (l : list A) :
  (length (filter P l) + length (filter (fun x => ~ P x) l))%nat = length l.
Proof.
  rewrite <- length_app. apply Permutation_length, filter_app_complement.
Qed.

(** X6.  [DatabaseHelper.deleteOldCaptures(daysOld)], when its statement does
    not fail, removes exactly the rows whose timestamp is strictly less than
    [now - daysOld * 24h], whatever the size of the table, keeps the order of
    the others, and returns the number of rows removed.  It touches no file:
    the blobs and screenshots of the removed rows stay on disk. *)
Theorem deleteOldCaptures_exact (daysOld : Z) (w : World) :
  let cutoffTime := ContextAggregator.cutoffOf (clock w) daysOld in
  let run := DatabaseHelper.deleteOldCaptures daysOld w in
  fs run.2 = fs w
  /\ match run.1 with
     | Ret n =>
         db run.2 = filter (fun r => ~ Effects.timestamp r < cutoffTime) (db w)
         /\ (forall r, r ∈ db run.2
                       <-> r ∈ db w /\ cutoffTime <= Effects.timestamp r)
         /\ n = Z.of_nat (length (db w)) - Z.of_nat (length (db run.2))
     | Throw e => (nextFault (dbFaults w)).1 = Some e /\ db run.2 = db w
     end.
Proof.
  cbn zeta. unfold DatabaseHelper.deleteOldCaptures, dbCall. unfold_monad.
  unfold ContextAggregator.cutoffOf.
  destruct (nextFault (dbFaults w)) as [[e|] rest]; cbn;
    (split; [reflexivity|]); [split; reflexivity|].
  split; [reflexivity|]. split.
  - intros r. rewrite list_elem_of_filter. split; intros [H1 H2]; split;
      try assumption; lia.
  - pose proof (filter_complement_length
                  (fun r => Effects.timestamp r
                            < clock w - daysOld * 24 * 60 * 60 * 1000) (db w)) as Hlen.
    cbn beta in Hlen. lia.
Qed.

(** X7.  [getStats], when its two statements do not fail, reports the number
    of rows, the number of rows with [webhook_sent = 0] (never more than the
    total, and the number of rows [getUnsentCaptures] lists), and the size of
    the database file rounded to the nearest kilobyte, or 0 when the file
    cannot be read.  It changes neither the table nor the files. *)
Theorem getStats_counts (stat : DatabaseHelper.StatResult) (w : World) :
  dbFaults w = [] ->
  exists stats w',
    DatabaseHelper.getStats stat w = (Ret stats, w')
    /\ db w' = db w /\ fs w' = fs w
    /\ DatabaseHelper.totalCaptures stats = Z.of_nat (length (db w))
    /\ 0 <= DatabaseHelper.unsentCaptures stats <= DatabaseHelper.totalCaptures stats
    /\ (exists unsent w'',
          DatabaseHelper.getUnsentCaptures w' = (Ret unsent, w'')
          /\ DatabaseHelper.unsentCaptures stats = Z.of_nat (length unsent))
    /\ match stat with
       | DatabaseHelper.StatOk size =>
           1024 * DatabaseHelper.dbSizeKB stats - 512 <= size
           < 1024 * DatabaseHelper.dbSizeKB stats + 512
       | DatabaseHelper.StatThrows _ => DatabaseHelper.dbSizeKB stats = 0
       end.
Proof.
  intros Hf. unfold DatabaseHelper.getStats, DatabaseHelper.getUnsentCaptures, dbCall.
  unfold_monad. rewrite Hf. cbn.
  do 2 eexists. split; [reflexivity|]. cbn.
  split; [reflexivity|]. split; [reflexivity|]. split; [reflexivity|].
  split; [|split].
  - pose proof (length_filter (fun r => webhook_sent r = 0) (db w)). lia.
  - do 2 eexists. split; [reflexivity|].
    rewrite (Permutation_length (orderByTimestampDesc_Permutation _)). reflexivity.
  - destruct stat as [size|e]; [|reflexivity].
    unfold DatabaseHelper.roundKB.
    pose proof (Z.div_mod (size + 512) 1024 ltac:(lia)) as Hdm.
    pose proof (Z.mod_pos_bound (size + 512) 1024 ltac:(lia)) as Hb.
    lia.
Qed.


(** ** ContextAggregator: deletion *)

Section Deletion.

Import ContextAggregator.

(** An [unlink] whose failure is swallowed removes at most its file. *)
Lemma quiet_unlink_frame (path : JsString) (w : World) :
  exists w',
    tryCatch (unlink path) (fun _ => ret tt) w = (Ret tt, w')
    /\ db w' = db w /\ log w' = log w /\ clock w' = clock w
    /\ dbFaults w' = dbFaults w
    /\ latestCapture w' = latestCapture w /\ dispatched w' = dispatched w
    /\ fsFaults w' = (nextFault (fsFaults w)).2
    /\ (fs w' = fs w \/ fs w' = delete path (fs w))
    /\ ((nextFault (fsFaults w)).1 = None -> fs w' = delete path (fs w)).
Proof.
  unfold unlink, fsCall. unfold_monad. cbn.
  destruct (nextFault (fsFaults w)) as [[e|] rest]; cbn.
  - eexists. split; [reflexivity|]. cbn. repeat split; auto. discriminate.
  - destruct (fs w !! path) eqn:Hp; cbn; eexists; (split; [reflexivity|]); cbn;
      repeat split; auto.
    intros _. symmetry. apply delete_id. exact Hp.
Qed.

Lemma lookup_after_unlink (path : JsString) (files files' : gmap JsString FileContent) :
  files' = files \/ files' = delete path files ->
  forall p c, files' !! p = Some c -> files !! p = Some c.
Proof.
  intros [-> | ->] p c H; [exact H|].
  apply lookup_delete_Some in H as [_ H]. exact H.
Qed.

(** Everything [deleteCapture] of the orchestrator does. *)
Lemma deleteCapture_effects (captureId : JsString) (w : World) :
  exists result w',
    deleteCapture captureId w = (Ret result, w')
    /\ latestCapture w' = latestCapture w
    /\ dispatched w' = dispatched w
    /\ (forall p c, fs w' !! p = Some c -> fs w !! p = Some c)
    /\ (result = {| ok := true; failure := None |}
        \/ ((exists e, result = {| ok := false; failure := Some (message e) |})
            /\ db w' = db w))
    /\ (dbFaults w = [] ->
        result = {| ok := true; failure := None |}
        /\ (fsFaults w = [] ->
            fsFaults w' = []
            /\ fs w'
               = match DatabaseHelper.selectById captureId (db w) with
                 | Some r =>
                     if truthy (screenshot_path r)
                     then delete (screenshot_path r)
                            (delete (jsonPathOf captureId) (fs w))
                     else delete (jsonPathOf captureId) (fs w)
                 | None => delete (jsonPathOf captureId) (fs w)
                 end)).
Proof.
  unfold deleteCapture. unfold tryCatch at 1.
  unfold mbind, M_bind, bind. rewrite getCapture_run.
  destruct (dbFaults w) as [|[e|] drest] eqn:Hfaults; cbn [nextFault].
  2:{ do 2 eexists. split; [reflexivity|]. cbn.
      split; [reflexivity|]. split; [reflexivity|]. split; [auto|].
      split; [right; split; [eexists; reflexivity|reflexivity]|discriminate]. }
  all: match goal with
       | |- context [tryCatch (unlink ?p) ?h ?x] =>
           destruct (quiet_unlink_frame p x)
             as (w1 & -> & Hdb1 & _ & _ & Hf1 & Hl1 & Hd1 & Hff1 & Hfs1 & Hfsq1)
       end;
    cbn [fs set_dbFaults latestCapture dispatched fsFaults db] in Hdb1, Hl1, Hd1,
      Hff1, Hfs1, Hfsq1;
    assert (Hsecond : exists w2,
              match DatabaseHelper.selectById captureId (db w) with
              | Some r =>
                  if truthy (screenshot_path r)
                  then tryCatch (unlink (screenshot_path r)) (fun _ => ret tt)
                  else ret tt
              | None => ret tt
              end w1 = (Ret tt, w2)
              /\ db w2 = db w1 /\ dbFaults w2 = dbFaults w1
              /\ latestCapture w2 = latestCapture w1
              /\ dispatched w2 = dispatched w1
              /\ (forall p c, fs w2 !! p = Some c -> fs w1 !! p = Some c)
              /\ (fsFaults w1 = [] ->
                  fsFaults w2 = []
                  /\ fs w2
                     = match DatabaseHelper.selectById captureId (db w) with
                       | Some r =>
                           if truthy (screenshot_path r)
                           then delete (screenshot_path r) (fs w1)
                           else fs w1
                       | None => fs w1
                       end))
      by (destruct (DatabaseHelper.selectById captureId (db w)) as [r|];
          [destruct (truthy (screenshot_path r));
           [destruct (quiet_unlink_frame (screenshot_path r) w1)
              as (w2 & Hrun & Hdb2 & _ & _ & Hf2 & Hl2 & Hd2 & Hff2 & Hfs2 & Hfsq2);
            exists w2; split; [exact Hrun|];
            split; [exact Hdb2|]; split; [exact Hf2|]; split; [exact Hl2|];
            split; [exact Hd2|];
            split; [apply (lookup_after_unlink _ _ _ Hfs2)|];
            intros Hq; rewrite Hq in Hff2, Hfsq2; split; [exact Hff2|];
            apply Hfsq2; reflexivity
           |]|];
          exists w1; repeat split; auto);
    destruct Hsecond as (w2 & -> & Hdb2 & Hf2 & Hl2 & Hd2 & Hfs2 & Hfsq2);
    rewrite dbDeleteCapture_run, Hf2, Hf1; cbn [dbFaults set_dbFaults nextFault].
  - do 2 eexists. split; [reflexivity|]. cbn.
    split; [congruence|]. split; [congruence|]. split.
    { intros p c Hp. apply Hfs2 in Hp.
      eapply (lookup_after_unlink _ _ _ Hfs1). exact Hp. }
    split; [left; reflexivity|]. intros _. split; [reflexivity|].
    intros Hq. rewrite Hq in Hff1, Hfsq1. cbn in Hff1, Hfsq1.
    destruct (Hfsq2 Hff1) as [Hff2 Hfsw2]. split; [exact Hff2|].
    rewrite Hfsw2, (Hfsq1 eq_refl).
    destruct (DatabaseHelper.selectById captureId (db w)) as [r|]; [|reflexivity].
    destruct (truthy (screenshot_path r)); reflexivity.
  - destruct (nextFault drest) as [[e|] rest] eqn:Hnext;
      do 2 eexists; (split; [reflexivity|]); cbn;
      (split; [congruence|]); (split; [congruence|]);
      (split; [intros p c Hp; apply Hfs2 in Hp;
               eapply (lookup_after_unlink _ _ _ Hfs1); exact Hp|]);
      (split; [|discriminate]).
    + right. split; [eexists; reflexivity|]. congruence.
    + left. reflexivity.
Qed.

End Deletion.

(** X8.  [deleteCapture] is idempotent.  When no database statement fails,
    whatever the state of the files and whatever file-system calls fail,
    deleting an id twice returns [{success: true}] both times; after the
    first call no row of the id is left, the second call leaves the table as
    it is, and the rows of other ids are never affected. *)
Theorem deleteCapture_idempotent (captureId : JsString) (w : World) :
  dbFaults w = [] ->
  exists w1 w2,
    ContextAggregator.deleteCapture captureId w
    = (Ret {| ContextAggregator.ok := true; ContextAggregator.failure := None |}, w1)
    /\ ContextAggregator.deleteCapture captureId w1
       = (Ret {| ContextAggregator.ok := true; ContextAggregator.failure := None |},
          w2)
    /\ DatabaseHelper.selectById captureId (db w1) = None
    /\ db w2 = db w1
    /\ (forall j, j <> captureId ->
          DatabaseHelper.selectById j (db w1) = DatabaseHelper.selectById j (db w)).
Proof.
  intros Hf.
  destruct (deleteCapture_effects captureId w)
    as (r1 & w1 & Hrun1 & _ & _ & _ & _ & Hq1).
  destruct (Hq1 Hf) as [-> _].
  destruct (deleteCapture_run captureId w)
    as (r1' & w1' & Hrun1' & _ & _ & _ & Hn1).
  rewrite Hrun1 in Hrun1'. injection Hrun1' as <- <-.
  destruct (Hn1 Hf) as (_ & Hf1 & Hdb1).
  destruct (deleteCapture_effects captureId w1)
    as (r2 & w2 & Hrun2 & _ & _ & _ & _ & Hq2).
  destruct (Hq2 Hf1) as [-> _].
  destruct (deleteCapture_run captureId w1)
    as (r2' & w2' & Hrun2' & _ & _ & _ & Hn2).
  rewrite Hrun2 in Hrun2'. injection Hrun2' as <- <-.
  destruct (Hn2 Hf1) as (_ & _ & Hdb2).
  exists w1, w2. split; [exact Hrun1|]. split; [exact Hrun2|].
  split; [rewrite Hdb1; apply selectById_filter_same|]. split.
  - rewrite Hdb2, Hdb1, list_filter_filter. apply list_filter_iff. tauto.
  - intros j Hj. rewrite Hdb1. apply selectById_filter_other. exact Hj.
Qed.

(** X9.  What [deleteCapture] removes from the disk.  It never creates or
    changes a file.  When no database statement and no file-system call
    fails, afterwards the blob of the id is gone, and so is the screenshot
    recorded in the row of the id; when the index has no row for the id the
    blob is removed all the same, but no screenshot is. *)
Theorem deleteCapture_files (captureId : JsString) (w : World) :
  let run := ContextAggregator.deleteCapture captureId w in
  (forall p c, fs run.2 !! p = Some c -> fs w !! p = Some c)
  /\ (dbFaults w = [] -> fsFaults w = [] ->
      fs run.2 !! ContextAggregator.jsonPathOf captureId = None
      /\ match DatabaseHelper.selectById captureId (db w) with
         | Some r =>
             (screenshot_path r <> [] -> fs run.2 !! screenshot_path r = None)
             /\ forall p, p <> ContextAggregator.jsonPathOf captureId ->
                          p <> screenshot_path r -> fs run.2 !! p = fs w !! p
         | None =>
             forall p, p <> ContextAggregator.jsonPathOf captureId ->
                       fs run.2 !! p = fs w !! p
         end).
Proof.
  cbn zeta.
  destruct (deleteCapture_effects captureId w)
    as (r & w' & -> & _ & _ & Hsub & _ & Hq).
  cbn [snd]. split; [exact Hsub|].
  intros Hf Hfs. destruct (Hq Hf) as [_ Hq']. destruct (Hq' Hfs) as [_ ->].
  destruct (DatabaseHelper.selectById captureId (db w)) as [row|].
  - destruct (screenshot_path row) as [|c path] eqn:Hpath; cbn [truthy].
    + split; [apply lookup_delete_eq|]. split; [congruence|].
      intros p Hp _. apply lookup_delete_ne. congruence.
    + split.
      { destruct (decide (c :: path = ContextAggregator.jsonPathOf captureId))
          as [->|Hne]; [apply lookup_delete_eq|].
        rewrite lookup_delete_ne by exact Hne. apply lookup_delete_eq. }
      split; [intros _; apply lookup_delete_eq|].
      intros p Hp Hp'. rewrite !lookup_delete_ne by congruence. reflexivity.
  - split; [apply lookup_delete_eq|].
    intros p Hp. apply lookup_delete_ne. congruence.
Qed.


(** ** ContextAggregator: the captured record *)

Section Record.

Import ContextAggregator.

(** The locals after step 4: the path is empty or the screenshot path of the
    id, and an image is present only when the grab wrote it. *)
Lemma takeScreenshot_locals (captureId : JsString) (outcome : GrabOutcome)
    (hideWindow showWindow : option Hook) (w : World) :
  forall shot path w1,
    withLocals (takeScreenshot captureId outcome hideWindow showWindow) w
    = (Ret (shot, path), w1) ->
    (path = [] \/ path = screenshotPathOf captureId)
    /\ (forall b, shot = Some b ->
          outcome = GrabOk b
          /\ path = screenshotPathOf captureId
          /\ fs w1 !! screenshotPathOf captureId = Some (FImage b))
    /\ (path = [] -> fs w1 = fs w).
Proof.
  unfold withLocals, takeScreenshot, liftW, screenshotDesktop, readFile,
    assignScreenshotPath, assignScreenshotBase64, fsCall.
  unfold_monad. cbn. rewrite !callHook_run.
  intros shot path w1.
  destruct hideWindow as [[|eh]|], showWindow as [[|es]|], outcome as [img|eg];
    cbn;
    try (destruct (nextFault (fsFaults w)) as [[ef|] rest]; cbn;
         try rewrite lookup_insert_eq; cbn);
    intros Heq; try discriminate Heq; injection Heq as <- <- <-;
    (split; [auto|]);
    (split;
     [intros b Hb; try discriminate Hb; injection Hb as <-;
      cbn; rewrite ?lookup_insert_eq; auto
     |intros Hp; first [reflexivity|discriminate Hp]]).
Qed.

Lemma paths_differ (a b : JsString) : jsonPathOf a <> screenshotPathOf b.
Proof.
  intros H. apply (f_equal (fun l : list N => l !! 7%nat)) in H.
  vm_compute in H. discriminate H.
Qed.

Variable parseURL : JsString -> option BrowserTabCapture.URL.

(** The record and the row of a successful capture, field by field. *)
Lemma captureContext_record (env : CaptureEnv)
    (captureMethod : CaptureTypes.CaptureMethod)
    (hideWindow showWindow : option Hook) (w : World) :
  forall result w',
    captureContext parseURL env captureMethod hideWindow showWindow w
    = (Ret result, w') ->
    success result = true ->
    exists shot path,
      let window :=
        ActiveWindowCapture.captureActiveWindow (frontApp env) (windowTitle env) in
      let context :=
        {| CaptureTypes.id := uuid env;
           CaptureTypes.timestamp := clock w;
           CaptureTypes.activeWindow :=
             {| CaptureTypes.app :=
                  opt_or_else (ActiveWindowCapture.app <$> window) (js "Unknown");
                CaptureTypes.title :=
                  opt_or_else (ActiveWindowCapture.title <$> window) (js "Unknown");
                CaptureTypes.bundleId := window ≫= ActiveWindowCapture.bundleId;
                CaptureTypes.screenshot := shot |};
           CaptureTypes.browserTabs :=
             BrowserTabCapture.captureTabs parseURL (browsers env);
           CaptureTypes.clipboard :=
             ClipboardCapture.captureClipboard (readHTML env) (readText env);
           CaptureTypes.metadata :=
             {| CaptureTypes.os := platform env;
                CaptureTypes.captureMethod := captureMethod;
                CaptureTypes.processingStatus := CaptureTypes.pending |} |} in
      latestCapture w' = Some context
      /\ fs w' !! jsonPathOf (uuid env) = Some (FJson context)
      /\ dispatched w' = dispatched w ++ [(uuid env, context)]
      /\ (forall p, p <> jsonPathOf (uuid env) -> p <> screenshotPathOf (uuid env) ->
            fs w' !! p = fs w !! p)
      /\ (path = [] ->
          fs w' !! screenshotPathOf (uuid env) = fs w !! screenshotPathOf (uuid env))
      /\ dbFaults w' = (nextFault (dbFaults w)).2
      /\ (path = [] \/ path = screenshotPathOf (uuid env))
      /\ (forall b, shot = Some b ->
            grab env = GrabOk b /\ path = screenshotPathOf (uuid env))
      /\ db w'
         = db w
           ++ [ {| Effects.id := uuid env;
                   Effects.timestamp := clock w;
                   app_name :=
                     opt_or_else (ActiveWindowCapture.app <$> window) (js "Unknown");
                   window_title :=
                     opt_or_else (ActiveWindowCapture.title <$> window)
                                 (js "Unknown");
                   tabs_count :=
                     Z.of_nat (length (BrowserTabCapture.captureTabs parseURL
                                         (browsers env)));
                   has_clipboard :=
                     if bool_decide
                          (ClipboardCapture.captureClipboard (readHTML env)
                             (readText env) <> None)
                     then 1 else 0;
                   screenshot_path := path;
                   json_path := jsonPathOf (uuid env);
                   webhook_sent := 0;
                   webhook_sent_at := None |} ].
Proof.
  intros result w' Hrun Hs.
  pose proof (takeScreenshot_locals (uuid env) (grab env) hideWindow showWindow w)
    as Hlocals.
  destruct (takeScreenshot_run (uuid env) (grab env) hideWindow showWindow w)
    as (o & w1 & Hshot & Hdb & Hlatest & Hdisp & Hfaults & Hclock & Hframe & _).
  unfold captureContext in Hrun. unfold_monad. cbn in Hrun. rewrite Hshot in Hrun.
  destruct o as [[shot path]|e]; cbn in Hrun;
    [|injection Hrun as <- <-; discriminate Hs].
  destruct (Hlocals shot path w1 Hshot) as (Hpath & Hgrab & Hsame).
  unfold writeFile, fsCall in Hrun. unfold_monad. cbn in Hrun.
  destruct (nextFault (fsFaults w1)) as [[ef|] frest]; cbn in Hrun;
    [injection Hrun as <- <-; discriminate Hs|].
  unfold DatabaseHelper.insertCapture, dbCall in Hrun. unfold_monad. cbn in Hrun.
  rewrite Hfaults in Hrun.
  destruct (nextFault (dbFaults w)) as [[ed|] drest]; cbn in Hrun;
    [injection Hrun as <- <-; discriminate Hs|].
  destruct (find _ (db w1)) as [existing|]; cbn in Hrun;
    injection Hrun as <- <-; [discriminate Hs|].
  exists shot, path. cbn. rewrite Hdb, Hdisp.
  split; [reflexivity|]. split; [apply lookup_insert_eq|].
  split; [reflexivity|]. split.
  { intros p Hp Hp'. rewrite lookup_insert_ne by congruence. apply Hframe, Hp'. }
  split.
  { intros Hnil. rewrite lookup_insert_ne by apply paths_differ.
    rewrite (Hsame Hnil). reflexivity. }
  split; [reflexivity|]. split; [exact Hpath|].
  split; [|reflexivity].
  intros b Hb. destruct (Hgrab b Hb) as (Hg & Hp & _). auto.
Qed.

End Record.


(** ** The adapters *)

Lemma trimStart_elem (s : JsString) (c : N) : c ∈ trimStart s -> c ∈ s.
Proof.
  intros H. destruct (trimStart_suffix s) as [k Hk]. rewrite Hk.
  apply elem_of_app. right. exact H.
Qed.

Lemma trim_elem (s : JsString) (c : N) : c ∈ trim s -> c ∈ s.
Proof.
  unfold trim, trimEnd. intros H.
  apply trimStart_elem.
  apply list_elem_of_In, in_rev, list_elem_of_In, trimStart_elem in H.
  apply list_elem_of_In, in_rev, list_elem_of_In in H. exact H.
Qed.

Lemma cleaned_no_control (text : JsString) :
  Forall (fun c => ClipboardCapture.is_control c = false)
         (ClipboardCapture.cleaned text).
Proof.
  apply Forall_forall. intros c Hc. unfold ClipboardCapture.cleaned in Hc.
  apply trim_elem in Hc. unfold ClipboardCapture.removeControl in Hc.
  apply list_elem_of_filter in Hc as [Hc _]. exact Hc.
Qed.

Lemma marker_no_control :
  Forall (fun c => ClipboardCapture.is_control c = false)
         ClipboardCapture.truncationMarker.
Proof. refine (bool_decide_unpack _ _). vm_compute. exact I. Qed.

Lemma jslength_nonneg (s : JsString) : 0 <= jslength s.
Proof. unfold jslength. lia. Qed.

(** What [sanitizeText] returns, in every case. *)
Lemma sanitizeText_cases (text : JsString) :
  match ClipboardCapture.sanitizeText text with
  | Some out =>
      out <> []
      /\ Forall (fun c => ClipboardCapture.is_control c = false) out
      /\ jslength out
         <= ClipboardCapture.maxLength + jslength ClipboardCapture.truncationMarker
      /\ (jslength (ClipboardCapture.cleaned text) <= ClipboardCapture.maxLength ->
          out = ClipboardCapture.cleaned text)
  | None => ClipboardCapture.cleaned text = []
  end.
Proof.
  assert (Hmax : ClipboardCapture.maxLength = 10000) by reflexivity.
  assert (Hmark : jslength ClipboardCapture.truncationMarker = 15) by reflexivity.
  unfold ClipboardCapture.sanitizeText.
  destruct (negb (truthy text) || (jslength (trim text) =? 0)) eqn:Hguard.
  { apply orb_true_iff in Hguard as [Hg|Hg].
    - destruct text; [reflexivity|discriminate].
    - apply Z.eqb_eq, jslength_nil in Hg. apply cleaned_blank, Hg. }
  fold (ClipboardCapture.cleaned text).
  destruct (jslength (ClipboardCapture.cleaned text) >? ClipboardCapture.maxLength)
    eqn:Hlong.
  - rewrite Z.gtb_ltb in Hlong. apply Z.ltb_lt in Hlong.
    assert (Hlen : jslength (substring0 ClipboardCapture.maxLength
                               (ClipboardCapture.cleaned text)
                             ++ ClipboardCapture.truncationMarker) = 10015).
    { unfold jslength, substring0 in *. rewrite length_app, length_take.
      change (length ClipboardCapture.truncationMarker) with 15%nat.
      rewrite Hmax in *. lia. }
    rewrite Hlen. cbn. split; [|split; [|split]].
    + intros Hnil. rewrite Hnil in Hlen. discriminate Hlen.
    + apply Forall_app. split; [|exact marker_no_control].
      unfold substring0. apply Forall_take, cleaned_no_control.
    + lia.
    + lia.
  - rewrite Z.gtb_ltb in Hlong. apply Z.ltb_ge in Hlong.
    destruct (jslength (ClipboardCapture.cleaned text) >? 0) eqn:Hpos.
    + rewrite Z.gtb_ltb in Hpos. apply Z.ltb_lt in Hpos.
      split; [|split; [|split]].
      * intros Hnil. rewrite Hnil in Hpos. discriminate Hpos.
      * apply cleaned_no_control.
      * lia.
      * reflexivity.
    + rewrite Z.gtb_ltb in Hpos. apply Z.ltb_ge in Hpos.
      apply jslength_nil. pose proof (jslength_nonneg (ClipboardCapture.cleaned text)).
      lia.
Qed.

(** X10.  The result of [sanitizeText] is never the empty string: it is
    [null] exactly when nothing is left of the text after the control
    characters are removed and the text is trimmed.  A returned string holds
    no control character of the class removed, has at most 10015 code units,
    and is that cleaned text itself when it fits the cap. *)
Theorem sanitizeText_output (text : JsString) :
  (ClipboardCapture.sanitizeText text = None
   <-> ClipboardCapture.cleaned text = [])
  /\ match ClipboardCapture.sanitizeText text with
     | Some out =>
         out <> []
         /\ Forall (fun c => ClipboardCapture.is_control c = false) out
         /\ jslength out
            <= ClipboardCapture.maxLength + jslength ClipboardCapture.truncationMarker
         /\ (jslength (ClipboardCapture.cleaned text) <= ClipboardCapture.maxLength ->
             out = ClipboardCapture.cleaned text)
     | None => True
     end.
Proof.
  pose proof (sanitizeText_cases text) as H.
  destruct (ClipboardCapture.sanitizeText text) as [out|] eqn:Hs.
  - split; [|exact H]. split; [discriminate|].
    intros Hnil. exfalso. destruct H as (Hne & _ & _ & Hfit).
    apply Hne. rewrite Hfit; [exact Hnil|].
    rewrite Hnil. unfold ClipboardCapture.maxLength, jslength. simpl length. lia.
  - split; [|exact I]. split; [intros _; exact H|reflexivity].
Qed.

Lemma sanitizeText_guard (text : JsString) :
  truthy text && (jslength (trim text) >? 0) = false ->
  ClipboardCapture.sanitizeText text = None.
Proof.
  intros H. unfold ClipboardCapture.sanitizeText.
  destruct (truthy text); [|reflexivity]. simpl in *.
  rewrite Z.gtb_ltb in H. apply Z.ltb_ge in H.
  pose proof (jslength_nonneg (trim text)).
  replace (jslength (trim text) =? 0) with true
    by (symmetry; apply Z.eqb_eq; lia).
  reflexivity.
Qed.

(** The guards of [captureClipboard] repeat the guard of [sanitizeText]. *)
Lemma captureClipboard_cases (readHTML readText : ClipboardCapture.ClipboardRead) :
  ClipboardCapture.captureClipboard readHTML readText
  = match readHTML with
    | ClipboardCapture.ReadThrows _ => None
    | ClipboardCapture.ReadOk htmlText =>
        match ClipboardCapture.sanitizeText htmlText with
        | Some sanitized =>
            Some (ClipboardCapture.mkClipboard sanitized ClipboardCapture.html)
        | None =>
            match readText with
            | ClipboardCapture.ReadThrows _ => None
            | ClipboardCapture.ReadOk plainText =>
                match ClipboardCapture.sanitizeText plainText with
                | Some sanitized =>
                    Some (ClipboardCapture.mkClipboard sanitized
                            ClipboardCapture.plain)
                | None => None
                end
            end
        end
    end.
Proof.
  unfold ClipboardCapture.captureClipboard.
  destruct readHTML as [h|e]; [|reflexivity].
  assert (Hplain :
    match readText with
    | ClipboardCapture.ReadOk plainText =>
        if truthy plainText && (jslength (trim plainText) >? 0)
        then match ClipboardCapture.sanitizeText plainText with
             | Some sanitized =>
                 Some (ClipboardCapture.mkClipboard sanitized ClipboardCapture.plain)
             | None => None
             end
        else None
    | ClipboardCapture.ReadThrows _ => None
    end
    = match readText with
      | ClipboardCapture.ReadThrows _ => None
      | ClipboardCapture.ReadOk plainText =>
          match ClipboardCapture.sanitizeText plainText with
          | Some sanitized =>
              Some (ClipboardCapture.mkClipboard sanitized ClipboardCapture.plain)
          | None => None
          end
      end).
  { destruct readText as [p|e]; [|reflexivity].
    destruct (truthy p && (jslength (trim p) >? 0)) eqn:Hg; [reflexivity|].
    rewrite (sanitizeText_guard p Hg). reflexivity. }
  rewrite Hplain.
  destruct (truthy h && (jslength (trim h) >? 0)) eqn:Hg; [reflexivity|].
  rewrite (sanitizeText_guard h Hg). reflexivity.
Qed.

Lemma captureClipboard_text (readHTML readText : ClipboardCapture.ClipboardRead) :
  match ClipboardCapture.captureClipboard readHTML readText with
  | Some content =>
      ClipboardCapture.text content <> []
      /\ Forall (fun c => ClipboardCapture.is_control c = false)
                (ClipboardCapture.text content)
      /\ jslength (ClipboardCapture.text content) <= 10015
  | None => True
  end.
Proof.
  rewrite captureClipboard_cases.
  destruct readHTML as [h|e]; [|exact I].
  pose proof (sanitizeText_cases h) as Hh.
  destruct (ClipboardCapture.sanitizeText h) as [t|].
  { cbn. destruct Hh as (Hne & Hctl & Hlen & _). auto. }
  destruct readText as [p|e]; [|exact I].
  pose proof (sanitizeText_cases p) as Hp.
  destruct (ClipboardCapture.sanitizeText p) as [t|]; [|exact I].
  cbn. destruct Hp as (Hne & Hctl & Hlen & _). auto.
Qed.

(** X11.  [captureClipboard] is the sanitized HTML content when that is not
    empty, else the sanitized plain text when that is not empty, else [null];
    a read that throws gives [null].  The text it returns is never empty,
    holds no control character of the class removed and has at most 10015
    code units. *)
Theorem captureClipboard_prefers_html
    (readHTML readText : ClipboardCapture.ClipboardRead) :
  ClipboardCapture.captureClipboard readHTML readText
  = match readHTML with
    | ClipboardCapture.ReadThrows _ => None
    | ClipboardCapture.ReadOk htmlText =>
        match ClipboardCapture.sanitizeText htmlText with
        | Some sanitized =>
            Some (ClipboardCapture.mkClipboard sanitized ClipboardCapture.html)
        | None =>
            match readText with
            | ClipboardCapture.ReadThrows _ => None
            | ClipboardCapture.ReadOk plainText =>
                match ClipboardCapture.sanitizeText plainText with
                | Some sanitized =>
                    Some (ClipboardCapture.mkClipboard sanitized
                            ClipboardCapture.plain)
                | None => None
                end
            end
        end
    end
  /\ match ClipboardCapture.captureClipboard readHTML readText with
     | Some content =>
         ClipboardCapture.text content <> []
         /\ Forall (fun c => ClipboardCapture.is_control c = false)
                   (ClipboardCapture.text content)
         /\ jslength (ClipboardCapture.text content) <= 10015
     | None => True
     end.
Proof.
  split; [apply captureClipboard_cases|apply captureClipboard_text].
Qed.

(** X12.  [getPreview] is [null] exactly when the clipboard capture is;
    otherwise it is not empty, has at most 103 code units, is the captured
    text when that has at most 100, and is its first 100 code units followed
    by ["..."] when it has more. *)
Theorem getPreview_bounded (readHTML readText : ClipboardCapture.ClipboardRead) :
  match ClipboardCapture.captureClipboard readHTML readText with
  | None => ClipboardCapture.getPreview readHTML readText = None
  | Some content =>
      exists preview,
        ClipboardCapture.getPreview readHTML readText = Some preview
        /\ preview <> []
        /\ jslength preview <= 103
        /\ (jslength (ClipboardCapture.text content) <= 100 ->
            preview = ClipboardCapture.text content)
        /\ (100 < jslength (ClipboardCapture.text content) ->
            preview = take 100 (ClipboardCapture.text content) ++ js "..."
            /\ jslength preview = 103)
  end.
Proof.
  pose proof (captureClipboard_text readHTML readText) as Hc.
  unfold ClipboardCapture.getPreview.
  destruct (ClipboardCapture.captureClipboard readHTML readText) as [content|];
    [|reflexivity].
  destruct Hc as [Hne _]. unfold ClipboardCapture.previewLength.
  destruct (Z.leb_spec (jslength (ClipboardCapture.text content)) 100) as [Hle|Hgt].
  - eexists. split; [reflexivity|]. split; [exact Hne|]. split; [lia|].
    split; [reflexivity|lia].
  - assert (Hlen : jslength (substring0 100 (ClipboardCapture.text content)
                             ++ js "...") = 103).
    { unfold jslength, substring0 in *. rewrite length_app, length_take.
      change (length (js "...")) with 3%nat. lia. }
    eexists. split; [reflexivity|]. split; [|split; [lia|split; [lia|]]].
    + intros Hnil. rewrite Hnil in Hlen. discriminate Hlen.
    + intros _. split; [reflexivity|exact Hlen].
Qed.


Section TabShape.

Import BrowserTabCapture.

Variable parseURL : JsString -> option URL.

Lemma tabsOfParts_shape (browser : JsString) (n : nat) :
  forall parts, (length parts <= n)%nat ->
    Forall (fun tab => url tab <> [] /\ title tab <> []
                       /\ BrowserTabCapture.browser tab = Some browser
                       /\ url tab ∈ parts /\ title tab ∈ parts)
           (tabsOfParts parseURL browser parts)
    /\ (2 * length (tabsOfParts parseURL browser parts) <= length parts)%nat.
Proof.
  induction n as [|n IH]; intros parts Hlen.
  - destruct parts; [split; [constructor|simpl; lia]|simpl in Hlen; lia].
  - destruct parts as [|u [|t rest]]; try (split; [constructor|simpl; lia]).
    destruct (IH rest ltac:(simpl in Hlen; lia)) as [Hall Hcount].
    simpl. split.
    + apply Forall_app. split.
      * destruct u as [|c u]; [constructor|]. destruct t as [|d t]; [constructor|].
        cbn [truthy andb].
        destruct (parseURL (c :: u)) as [urlObj|]; [|constructor].
        constructor; [|constructor]. cbn.
        repeat split; try discriminate;
          [apply elem_of_cons; left; reflexivity
          |apply elem_of_cons; right; apply elem_of_cons; left; reflexivity].
      * eapply Forall_impl; [exact Hall|].
        cbn beta. intros tab (H1 & H2 & H3 & H4 & H5).
        repeat split; try assumption;
          apply elem_of_cons; right; apply elem_of_cons; right; assumption.
    + rewrite length_app.
      assert (length (if truthy u && truthy t
                      then match parseURL u with
                           | Some urlObj =>
                               [ {| title := t; url := u; domain := hostname urlObj;
                                    BrowserTabCapture.browser := Some browser |} ]
                           | None => []
                           end
                      else []) <= 1)%nat.
      { destruct (truthy u && truthy t); [|simpl; lia].
        destruct (parseURL u); simpl; lia. }
      lia.
Qed.

End TabShape.

Lemma split_from_length (sep : N) (s cur : JsString) :
  length (split_from sep cur s)
  = S (length (filter (fun c => c = sep) s)).
Proof.
  unfold JsString in *.
  revert cur. induction s as [|c s IH]; intros cur; [reflexivity|].
  cbn [split_from].
  destruct (N.eqb_spec c sep) as [Heq|Hne].
  - rewrite filter_cons_True by exact Heq. cbn [length]. rewrite IH. reflexivity.
  - rewrite filter_cons_False by exact Hne. apply IH.
Qed.

(** X13.  Every tab [parseAppleScriptTabOutput] returns has a non-empty url
    and a non-empty title, both among the trimmed comma-separated parts of
    the output, and carries the name of the browser; an output with [k]
    commas gives at most [(k + 1) / 2] tabs, and an empty or blank output
    gives none. *)
Theorem parseAppleScriptTabOutput_shape
    (parseURL : JsString -> option BrowserTabCapture.URL)
    (output browser : JsString) :
  let tabs := BrowserTabCapture.parseAppleScriptTabOutput parseURL output browser in
  Forall (fun tab =>
            BrowserTabCapture.url tab <> []
            /\ BrowserTabCapture.title tab <> []
            /\ BrowserTabCapture.browser tab = Some browser
            /\ BrowserTabCapture.url tab ∈ trim <$> split 44 output
            /\ BrowserTabCapture.title tab ∈ trim <$> split 44 output)
         tabs
  /\ (2 * length tabs <= S (length (filter (fun c => c = 44%N) output)))%nat
  /\ (trim output = [] -> tabs = []).
Proof.
  cbn zeta. unfold BrowserTabCapture.parseAppleScriptTabOutput.
  destruct (negb (truthy output) || negb (truthy (trim output))) eqn:Hguard.
  { split; [constructor|]. split; [simpl; lia|reflexivity]. }
  destruct (tabsOfParts_shape parseURL browser
              (length (List.map trim (split 44 output)))
              (List.map trim (split 44 output)) ltac:(lia)) as [Hall Hcount].
  split; [exact Hall|]. split.
  - rewrite length_map in Hcount. unfold split in Hcount.
    rewrite split_from_length in Hcount. exact Hcount.
  - intros Hblank. rewrite Hblank in Hguard.
    rewrite orb_true_r in Hguard. discriminate.
Qed.

Lemma or_else_nonempty (s d : JsString) : d <> [] -> or_else s d <> [].
Proof. unfold or_else. destruct s; simpl; [auto|discriminate]. Qed.

Lemma opt_or_else_nonempty (o : option JsString) (d : JsString) :
  d <> [] -> opt_or_else o d <> [].
Proof. destruct o; simpl; [apply or_else_nonempty|auto]. Qed.

Lemma unknown_nonempty : js "Unknown" <> [].
Proof. discriminate. Qed.

Lemma or_undefined_nonempty (s : JsString) : or_undefined s <> Some [].
Proof. destruct s; simpl; discriminate. Qed.

(** X14.  A result of [captureActiveWindow] never has an empty field: the
    application name and the window title are non-empty strings (["Unknown"]
    stands in for an empty one), and the bundle identifier is absent rather
    than empty.  The title query alone never decides whether there is a
    result. *)
Theorem captureActiveWindow_fields (frontApp windowTitle : ExecResult) :
  match ActiveWindowCapture.captureActiveWindow frontApp windowTitle with
  | Some info =>
      ActiveWindowCapture.app info <> []
      /\ ActiveWindowCapture.title info <> []
      /\ ActiveWindowCapture.bundleId info <> Some []
      /\ exists stdout, frontApp = ExecResolved stdout
  | None => exists e, frontApp = ExecRejected e
  end.
Proof.
  destruct frontApp as [stdout|e]; [|eexists; reflexivity].
  cbn. split; [apply opt_or_else_nonempty, unknown_nonempty|].
  split; [apply opt_or_else_nonempty, unknown_nonempty|].
  split; [|eexists; reflexivity].
  unfold ActiveWindowCapture.part.
  destruct (split 124 (trim stdout) !! 1%nat) as [b|]; simpl;
    [apply or_undefined_nonempty|discriminate].
Qed.


(** ** WebhookService: the shape of a response *)







(** X17.  The index row of a successful capture summarises the record: same
    id and timestamp, the application name and window title of the record,
    the number of its tabs, [has_clipboard] 1 exactly when the record has a
    clipboard, the path of the blob, and the screenshot path whenever the
    record holds a screenshot.  The row is appended to the table, unsent. *)
Theorem captureContext_row_summarises_record
    (parseURL : JsString -> option BrowserTabCapture.URL)
    (env : ContextAggregator.CaptureEnv)
    (captureMethod : CaptureTypes.CaptureMethod)
    (hideWindow showWindow : option ContextAggregator.Hook)
    (w w' : World) (result : ContextAggregator.CaptureResult) :
  ContextAggregator.captureContext parseURL env captureMethod
    hideWindow showWindow w = (Ret result, w') ->
  ContextAggregator.success result = true ->
  exists context row,
    latestCapture w' = Some context
    /\ db w' = db w ++ [row]
    /\ Effects.id row = CaptureTypes.id context
    /\ Effects.timestamp row = CaptureTypes.timestamp context
    /\ app_name row = CaptureTypes.app (CaptureTypes.activeWindow context)
    /\ window_title row = CaptureTypes.title (CaptureTypes.activeWindow context)
    /\ tabs_count row = Z.of_nat (length (CaptureTypes.browserTabs context))
    /\ (has_clipboard row = 1 <-> CaptureTypes.clipboard context <> None)
    /\ (has_clipboard row = 0 <-> CaptureTypes.clipboard context = None)
    /\ fs w' !! json_path row = Some (FJson context)
    /\ (CaptureTypes.screenshot (CaptureTypes.activeWindow context) <> None ->
        screenshot_path row
        = ContextAggregator.screenshotPathOf (ContextAggregator.uuid env))
    /\ webhook_sent row = 0
    /\ webhook_sent_at row = None.
Proof.
  intros Hrun Hs.
  destruct (captureContext_record parseURL env captureMethod hideWindow showWindow
              w result w' Hrun Hs)
    as (shot & path & Hlatest & Hblob & _ & _ & _ & _ & _ & Hgrab & Hdb).
  cbn zeta in *. do 2 eexists. split; [exact Hlatest|]. split; [exact Hdb|]. cbn.
  split; [reflexivity|]. split; [reflexivity|]. split; [reflexivity|].
  split; [reflexivity|]. split; [reflexivity|].
  split; [|split; [|split; [exact Hblob|split; [|split; reflexivity]]]].
  - destruct (ClipboardCapture.captureClipboard _ _); cbn.
    + rewrite ?bool_decide_eq_true_2 by discriminate.
      split; [discriminate|reflexivity].
    + rewrite ?bool_decide_eq_false_2 by (intros H; apply H; reflexivity).
      split; [discriminate|intros H; exfalso; apply H; reflexivity].
  - destruct (ClipboardCapture.captureClipboard _ _); cbn.
    + rewrite ?bool_decide_eq_true_2 by discriminate. split; discriminate.
    + rewrite ?bool_decide_eq_false_2 by (intros H; apply H; reflexivity).
      split; reflexivity.
  - intros Hshot. destruct shot as [b|]; [|exfalso; apply Hshot; reflexivity].
    apply (Hgrab b eq_refl).
Qed.



Lemma filter_no_id (i : JsString) (rows : list CaptureRecord) :
  DatabaseHelper.selectById i rows = None ->
  filter (fun r => Effects.id r <> i) rows = rows.
Proof.
  intros Hnone. apply selectById_None in Hnone.
  apply filter_keeps_all, Forall_forall. intros r Hr Heq.
  apply Hnone. rewrite <- Heq. apply list_elem_of_fmap_2, Hr.
Qed.

(** X19.  Capture, then delete.  When the id is fresh (no row, no blob and no
    screenshot file of the id exist), a successful capture followed by
    [deleteCapture] of the returned id, with no failing call, puts the table
    and the files back as they were before the capture.  The latest-capture
    slot still holds the deleted record. *)
Theorem captureContext_then_deleteCapture
    (parseURL : JsString -> option BrowserTabCapture.URL)
    (env : ContextAggregator.CaptureEnv)
    (captureMethod : CaptureTypes.CaptureMethod)
    (hideWindow showWindow : option ContextAggregator.Hook)
    (w w' : World) (result : ContextAggregator.CaptureResult) :
  ContextAggregator.captureContext parseURL env captureMethod
    hideWindow showWindow w = (Ret result, w') ->
  ContextAggregator.success result = true ->
  fs w !! ContextAggregator.jsonPathOf (ContextAggregator.uuid env) = None ->
  fs w !! ContextAggregator.screenshotPathOf (ContextAggregator.uuid env) = None ->
  dbFaults w' = [] ->
  fsFaults w' = [] ->
  exists w'',
    ContextAggregator.deleteCapture (ContextAggregator.uuid env) w'
    = (Ret {| ContextAggregator.ok := true; ContextAggregator.failure := None |},
       w'')
    /\ db w'' = db w
    /\ fs w'' = fs w
    /\ latestCapture w'' = latestCapture w'
    /\ is_Some (latestCapture w'').
Proof.
  intros Hrun Hs Hblob0 Hshot0 Hdbf Hfsf.
  destruct (captureContext_record parseURL env captureMethod hideWindow showWindow
              w result w' Hrun Hs)
    as (shot & path & Hlatest & Hblob & _ & Hframe & Hsame & _ & Hpath & _ & Hdb).
  cbn zeta in *.
  destruct (captureContext_run parseURL env captureMethod hideWindow showWindow w)
    as (result' & w1 & Hrun' & _ & [Hok|Hfail]);
    rewrite Hrun in Hrun'; injection Hrun' as <- <-;
    [|destruct Hfail as (Hs' & _); congruence].
  destruct Hok as (_ & _ & _ & Hfresh & _).
  destruct (deleteCapture_run (ContextAggregator.uuid env) w')
    as (r1 & w'' & Hdel & _ & _ & _ & Hn).
  destruct (deleteCapture_effects (ContextAggregator.uuid env) w')
    as (r1' & w2 & Hdel' & Hl & _ & _ & _ & Hq).
  rewrite Hdel in Hdel'. injection Hdel' as <- <-.
  destruct (Hn Hdbf) as (_ & _ & Hdb'').
  destruct (Hq Hdbf) as [-> Hfs]. destruct (Hfs Hfsf) as [_ Hfs''].
  exists w''. split; [exact Hdel|]. split; [|split; [|split]].
  - rewrite Hdb'', Hdb, filter_app, (filter_no_id _ _ Hfresh).
    rewrite filter_cons_False by (intros H; apply H; reflexivity).
    rewrite filter_nil. apply app_nil_r.
  - rewrite Hfs'', Hdb, selectById_app, Hfresh.
    unfold DatabaseHelper.selectById. cbn [find].
    unfold DatabaseHelper.has_id at 1. cbn [Effects.id].
    rewrite bool_decide_eq_true_2 by reflexivity. cbn [screenshot_path].
    destruct Hpath as [-> | ->].
    + cbn [truthy]. apply map_eq. intros p.
      destruct (decide (p = ContextAggregator.jsonPathOf
                               (ContextAggregator.uuid env))) as [->|Hjp].
      { rewrite Hblob0. apply lookup_delete_eq. }
      rewrite lookup_delete_ne by congruence.
      destruct (decide (p = ContextAggregator.screenshotPathOf
                               (ContextAggregator.uuid env))) as [->|Hsp].
      * apply (Hsame eq_refl).
      * apply Hframe; assumption.
    + replace (truthy (ContextAggregator.screenshotPathOf
                         (ContextAggregator.uuid env))) with true by reflexivity.
      apply map_eq. intros p.
      destruct (decide (p = ContextAggregator.screenshotPathOf
                               (ContextAggregator.uuid env))) as [->|Hsp].
      { rewrite Hshot0. apply lookup_delete_eq. }
      rewrite lookup_delete_ne by congruence.
      destruct (decide (p = ContextAggregator.jsonPathOf
                               (ContextAggregator.uuid env))) as [->|Hjp].
      * rewrite Hblob0. apply lookup_delete_eq.
      * rewrite lookup_delete_ne by congruence. apply Hframe; assumption.
  - exact Hl.
  - rewrite Hl, Hlatest. eexists. reflexivity.
Qed.


Section Latest.

Import ContextAggregator.

Lemma cleanupLoop_latest (cutoffTime : Z) (captures : list CaptureRecord) :
  forall (deletedCount : Z) (w : World),
    latestCapture (cleanupLoop cutoffTime captures deletedCount w).2
    = latestCapture w.
Proof.
  induction captures as [|c rest IH]; intros deletedCount w; [reflexivity|].
  cbn [cleanupLoop].
  destruct (Effects.timestamp c <? cutoffTime); [|apply IH].
  unfold mbind, M_bind, bind.
  destruct (deleteCapture_effects (Effects.id c) w) as (r & w1 & -> & Hl & _).
  rewrite IH. exact Hl.
Qed.

Lemma cleanupOldCaptures_latest (daysOld : Z) (w : World) :
  latestCapture (cleanupOldCaptures daysOld w).2 = latestCapture w.
Proof.
  unfold cleanupOldCaptures. unfold mbind, M_bind, bind, gets.
  rewrite getCaptures_run.
  destruct (nextFault (dbFaults w)) as [[e|] rest]; [reflexivity|].
  match goal with
  | |- context [cleanupLoop ?c ?l ?n ?x] =>
      pose proof (cleanupLoop_latest c l n x) as Hloop;
      destruct (cleanupLoop_run c l n x) as (w1 & Hrun & _)
  end.
  rewrite Hrun in *. cbn [snd] in Hloop.
  destruct (_ >? 0); [|exact Hloop].
  rewrite vacuum_run.
  destruct (nextFault (dbFaults w1)) as [[e|] rest']; exact Hloop.
Qed.

End Latest.

(** X20.  Only [captureContext] writes the latest-capture slot.
    [getLatestCapture] reads it without changing anything, and
    [deleteCapture], [retryWebhook], [sendToWebhook], [loadCapture] and
    [cleanupOldCaptures] leave it as it is: after the latest capture has been
    deleted, [getLatestCapture] still returns it. *)
Theorem latestCapture_only_set_by_capture
    (http : nat -> WebhookService.HttpOutcome) (captureId : JsString)
    (context : CaptureTypes.CapturedContext) (daysOld : Z) (w : World) :
  ContextAggregator.getLatestCapture w = (Ret (latestCapture w), w)
  /\ latestCapture (ContextAggregator.deleteCapture captureId w).2 = latestCapture w
  /\ latestCapture (ContextAggregator.retryWebhook http captureId w).2
     = latestCapture w
  /\ latestCapture (ContextAggregator.sendToWebhook http captureId context w).2
     = latestCapture w
  /\ latestCapture (ContextAggregator.loadCapture captureId w).2 = latestCapture w
  /\ latestCapture (ContextAggregator.cleanupOldCaptures daysOld w).2
     = latestCapture w.
Proof.
  split; [reflexivity|]. split; [|split; [|split; [|split]]].
  - destruct (deleteCapture_effects captureId w) as (r & w1 & -> & Hl & _).
    exact Hl.
  - rewrite retryWebhook_run, loadCapture_run. cbn [fst].
    destruct (nextFault (fsFaults w)) as [[e|] rest]; cbn [fst snd];
      [reflexivity|].
    destruct (fs w !! ContextAggregator.jsonPathOf captureId)
      as [[capture|img|raw]|]; try reflexivity.
    rewrite sendToWebhook_run.
    destruct (nextFault (dbFaults _)) as [[e|] drest]; reflexivity.
  - rewrite sendToWebhook_run.
    destruct (nextFault (dbFaults w)) as [[e|] drest]; reflexivity.
  - rewrite loadCapture_run. reflexivity.
  - apply cleanupOldCaptures_latest.
Qed.

Lemma setWebhookStatus_flag (i : JsString) (sent : bool) (now : Z) (r : CaptureRecord) :
  Effects.id r = i ->
  webhook_sent (DatabaseHelper.setWebhookStatus i sent now r)
  = if sent then 1 else 0.
Proof.
  intros H. unfold DatabaseHelper.setWebhookStatus, DatabaseHelper.has_id.
  rewrite bool_decide_eq_true_2 by exact H. reflexivity.
Qed.

Lemma setWebhookStatus_other (i : JsString) (sent : bool) (now : Z) (r : CaptureRecord) :
  Effects.id r <> i -> DatabaseHelper.setWebhookStatus i sent now r = r.
Proof.
  intros H. unfold DatabaseHelper.setWebhookStatus, DatabaseHelper.has_id.
  rewrite bool_decide_eq_false_2 by exact H. reflexivity.
Qed.

(** X21.  The index as an outbox.  When no database statement fails, after
    [sendToWebhook] for an id: if the delivery succeeded, [getUnsentCaptures]
    lists no row of the id; if it failed, it lists every row of the id; and
    the rows of other ids are listed exactly as they would have been
    before. *)
Theorem sendToWebhook_outbox
    (http : nat -> WebhookService.HttpOutcome) (captureId : JsString)
    (context : CaptureTypes.CapturedContext) (w : World) :
  dbFaults w = [] ->
  let delivered :=
    WebhookService.success
      (WebhookService.send http (ContextAggregator.payloadOf context)).1 in
  exists w1 unsent w2,
    ContextAggregator.sendToWebhook http captureId context w = (Ret tt, w1)
    /\ DatabaseHelper.getUnsentCaptures w1 = (Ret unsent, w2)
    /\ (delivered = true -> forall r, r ∈ unsent -> Effects.id r <> captureId)
    /\ (delivered = false ->
        forall r, r ∈ db w1 -> Effects.id r = captureId -> r ∈ unsent)
    /\ (forall r, Effects.id r <> captureId ->
          (r ∈ unsent <-> r ∈ db w /\ webhook_sent r = 0)).
Proof.
  intros Hf. cbn zeta. rewrite sendToWebhook_run, Hf. cbn [nextFault].
  set (sent := WebhookService.success _).
  do 3 eexists. split; [reflexivity|].
  unfold DatabaseHelper.getUnsentCaptures, dbCall. unfold_monad.
  cbn [dbFaults set_db set_dbFaults set_log nextFault db].
  split; [reflexivity|].
  assert (Hmem : forall r,
            r ∈ DatabaseHelper.orderByTimestampDesc
                  (filter (fun r => webhook_sent r = 0)
                     (List.map (DatabaseHelper.setWebhookStatus captureId sent
                                  (clock w)) (db w)))
            <-> (exists x, r = DatabaseHelper.setWebhookStatus captureId sent
                                 (clock w) x /\ x ∈ db w)
                /\ webhook_sent r = 0).
  { intros r. rewrite orderByTimestampDesc_Permutation, list_elem_of_filter.
    change (List.map ?f ?l) with (f <$> l). rewrite list_elem_of_fmap. tauto. }
  split; [|split].
  - intros Hsent r Hr Hid. apply Hmem in Hr as [(x & -> & Hx) Hflag].
    rewrite setWebhookStatus_id in Hid.
    rewrite (setWebhookStatus_flag _ _ _ _ Hid), Hsent in Hflag. discriminate.
  - intros Hsent r Hr Hid. apply Hmem.
    change (List.map ?f ?l) with (f <$> l) in Hr.
    apply list_elem_of_fmap in Hr as (x & -> & Hx).
    split; [eauto|]. rewrite setWebhookStatus_id in Hid.
    rewrite (setWebhookStatus_flag _ _ _ _ Hid), Hsent. reflexivity.
  - intros r Hid. rewrite Hmem. split.
    + intros [(x & -> & Hx) Hflag]. rewrite setWebhookStatus_id in Hid.
      rewrite (setWebhookStatus_other _ _ _ _ Hid) in *. auto.
    + intros [Hr Hflag]. split; [|exact Hflag].
      exists r. split; [|exact Hr].
      symmetry. apply setWebhookStatus_other, Hid.
Qed.

Lemma filter_agree {A} (P Q : A -> Prop) `{forall x, Decision (P x)}
    `{forall x, Decision (Q x)} (l : list A) :
  (forall x, x ∈ l -> (P x <-> Q x)) -> filter P l = filter Q l.
Proof.
  induction l as [|a l IH]; intros Hpq; [reflexivity|].
  assert (Ha : P a <-> Q a) by (apply Hpq; left).
  assert (Hl : filter P l = filter Q l).
  { apply IH. intros x Hx. apply Hpq. right. exact Hx. }
  destruct (decide (P a)) as [Hp|Hp].
  - rewrite !filter_cons_True by tauto. rewrite Hl. reflexivity.
  - rewrite !filter_cons_False by tauto. exact Hl.
Qed.

(** X22.  The two retention routes agree on the index.  When the table has
    at most 1000 rows with distinct ids and no database statement fails,
    [cleanupOldCaptures(daysOld)] of the orchestrator and
    [deleteOldCaptures(daysOld)] of the database helper return the same count
    and leave the same table.  (Only the first also removes files.) *)
Theorem cleanupOldCaptures_agrees_with_deleteOldCaptures (daysOld : Z) (w : World) :
  dbFaults w = [] ->
  NoDup (Effects.id <$> db w) ->
  (length (db w) <= 1000)%nat ->
  (ContextAggregator.cleanupOldCaptures daysOld w).1
  = (DatabaseHelper.deleteOldCaptures daysOld w).1
  /\ db (ContextAggregator.cleanupOldCaptures daysOld w).2
     = db (DatabaseHelper.deleteOldCaptures daysOld w).2
  /\ fs (DatabaseHelper.deleteOldCaptures daysOld w).2 = fs w.
Proof.
  intros Hf Hkey Hsmall.
  destruct (cleanupOldCaptures_run daysOld w)
    as (o & w' & Hrun & _ & _ & _ & Hnofault).
  destruct (Hnofault Hf) as (-> & Hdb & _). rewrite Hrun. cbn [fst snd].
  unfold DatabaseHelper.deleteOldCaptures, dbCall. unfold_monad. rewrite Hf.
  cbn [nextFault fst snd db set_db set_dbFaults fs clock].
  fold (ContextAggregator.cutoffOf (clock w) daysOld).
  set (cutoffTime := ContextAggregator.cutoffOf (clock w) daysOld) in *.
  assert (Hscan : take 1000 (DatabaseHelper.orderByTimestampDesc (db w))
                  ≡ₚ db w).
  { rewrite take_ge; [apply orderByTimestampDesc_Permutation|].
    rewrite (Permutation_length (orderByTimestampDesc_Permutation (db w))).
    exact Hsmall. }
  assert (Hstale : forall r,
            r ∈ filter (fun r => Effects.timestamp r < cutoffTime)
                  (take 1000 (DatabaseHelper.orderByTimestampDesc (db w)))
            <-> r ∈ db w /\ Effects.timestamp r < cutoffTime).
  { intros r. rewrite list_elem_of_filter, Hscan. tauto. }
  split; [|split; [|reflexivity]].
  - do 2 f_equal. apply Permutation_length. rewrite Hscan. reflexivity.
  - rewrite Hdb. apply filter_agree. intros x Hx. split.
    + intros Hnot Hold. apply Hnot, list_elem_of_fmap_2, Hstale. auto.
    + intros Hnew Hin. apply list_elem_of_fmap in Hin as (s & Heq & Hs).
      apply Hstale in Hs as [Hs Hold].
      rewrite (NoDup_fmap_eq Effects.id (db w) x s Hkey Hx Hs Heq) in Hnew.
      contradiction.
Qed.


(** ** The IPC handlers *)

Lemma StronglySorted_toListItem (rows : list CaptureRecord) :
  StronglySorted DatabaseHelper.newerFirst rows ->
  StronglySorted
    (fun a b => IpcHandlers.timestamp b <= IpcHandlers.timestamp a)
    (IpcHandlers.toListItem <$> rows).
Proof.
  induction 1 as [|r rows Hrows IH Hall]; [constructor|].
  rewrite fmap_cons. constructor; [exact IH|].
  apply Forall_fmap. eapply Forall_impl; [exact Hall|].
  intros x Hx. exact Hx.
Qed.

(** X23.  [capture:list] returns at most 100 items, newest first, one for
    each row [getCaptures(100)] returns and in the same order; an item has
    [webhookSent] (and [hasClipboard]) true exactly when the column of its
    row is 1.  A failing statement is rethrown to the caller. *)
Theorem captureList_items (w : World) :
  match (IpcHandlers.captureList w).1 with
  | Ret items =>
      (length items <= 100)%nat
      /\ StronglySorted
           (fun a b => IpcHandlers.timestamp b <= IpcHandlers.timestamp a) items
      /\ exists rows,
           (DatabaseHelper.getCaptures 100 w).1 = Ret rows
           /\ items = IpcHandlers.toListItem <$> rows
           /\ Forall2 (fun item r =>
                         IpcHandlers.id item = Effects.id r
                         /\ r ∈ db w
                         /\ (IpcHandlers.webhookSent item = true
                             <-> webhook_sent r = 1)
                         /\ (IpcHandlers.hasClipboard item = true
                             <-> has_clipboard r = 1))
                      items rows
  | Throw e => (DatabaseHelper.getCaptures 100 w).1 = Throw e
  end.
Proof.
  unfold IpcHandlers.captureList. unfold_monad. rewrite getCaptures_run.
  destruct (nextFault (dbFaults w)) as [[e|] rest]; cbn [fst snd]; [reflexivity|].
  set (rows := take 100 (DatabaseHelper.orderByTimestampDesc (db w))).
  assert (Hsorted : StronglySorted DatabaseHelper.newerFirst rows).
  { pose proof (orderByTimestampDesc_sorted (db w)) as Hs.
    rewrite <- (take_drop 100) in Hs. eapply StronglySorted_app_1_l. exact Hs. }
  split; [|split].
  - rewrite length_fmap. unfold rows. rewrite length_take. lia.
  - apply StronglySorted_toListItem, Hsorted.
  - exists rows. split; [reflexivity|]. split; [reflexivity|].
    apply Forall2_fmap_l, Forall_Forall2_diag, Forall_forall.
    intros r Hr. cbn. split; [reflexivity|]. split.
    + rewrite <- (orderByTimestampDesc_Permutation (db w)).
      eapply elem_of_sublist; [exact Hr|apply sublist_take].
    + split; apply Z.eqb_eq.
Qed.

(** X24.  The handlers [capture:delete], [capture:retry-webhook] and
    [capture:get] never throw and reply exactly what the orchestrator
    returns: their [catch] blocks are not reached.  [capture:get-stats]
    passes on the statistics or the exception of the database helper
    unchanged.  [capture:cleanup-old] never throws: it replies success with
    the count, or, when a database statement failed, failure with the message
    of the error. *)
Theorem capture_handlers_replies
    (http : nat -> WebhookService.HttpOutcome) (captureId : JsString)
    (daysOld : Z) (w : World) :
  (exists r w',
      IpcHandlers.captureDelete captureId w = (Ret r, w')
      /\ ContextAggregator.deleteCapture captureId w = (Ret r, w'))
  /\ (exists r w',
        IpcHandlers.captureRetryWebhook http captureId w = (Ret r, w')
        /\ ContextAggregator.retryWebhook http captureId w = (Ret r, w'))
  /\ (exists r w',
        IpcHandlers.captureGet captureId w = (Ret r, w')
        /\ ContextAggregator.loadCapture captureId w = (Ret r, w'))
  /\ (forall stat,
        IpcHandlers.captureGetStats stat w = DatabaseHelper.getStats stat w)
  /\ (exists reply w',
        IpcHandlers.captureCleanupOld daysOld w = (Ret reply, w')
        /\ w' = (ContextAggregator.cleanupOldCaptures daysOld w).2
        /\ match (ContextAggregator.cleanupOldCaptures daysOld w).1 with
           | Ret n =>
               reply = {| IpcHandlers.cleaned := true;
                          IpcHandlers.deletedCount := Some n;
                          IpcHandlers.cleanupError := None |}
           | Throw e =>
               reply = {| IpcHandlers.cleaned := false;
                          IpcHandlers.deletedCount := None;
                          IpcHandlers.cleanupError := Some (message e) |}
               /\ dbFaults w <> []
           end).
Proof.
  split; [|split; [|split; [|split]]].
  - destruct (deleteCapture_effects captureId w) as (r & w' & Hrun & _).
    exists r, w'. unfold IpcHandlers.captureDelete, tryCatch.
    rewrite Hrun. split; reflexivity.
  - assert (Hretry : exists r w',
              ContextAggregator.retryWebhook http captureId w = (Ret r, w')).
    { rewrite retryWebhook_run, loadCapture_run. cbn [fst].
      destruct (nextFault (fsFaults w)) as [[e|] rest]; cbn [fst snd];
        [eauto|].
      destruct (fs w !! ContextAggregator.jsonPathOf captureId)
        as [[capture|img|raw]|]; eauto.
      destruct (ContextAggregator.sendToWebhook http captureId capture _)
        as [[[]|e] w']; eauto. }
    destruct Hretry as (r & w' & Hrun). exists r, w'.
    unfold IpcHandlers.captureRetryWebhook, tryCatch. rewrite Hrun.
    split; reflexivity.
  - do 2 eexists. unfold IpcHandlers.captureGet, tryCatch.
    rewrite loadCapture_run. split; reflexivity.
  - intros stat. unfold IpcHandlers.captureGetStats, tryCatch, throw.
    destruct (DatabaseHelper.getStats stat w) as [[stats|e] w']; reflexivity.
  - unfold IpcHandlers.captureCleanupOld. unfold_monad.
    destruct (cleanupOldCaptures_run daysOld w)
      as (o & w' & Hrun & _ & _ & _ & Hnofault).
    rewrite Hrun. destruct o as [n|e]; cbn [fst snd].
    + do 2 eexists. split; [reflexivity|]. split; reflexivity.
    + do 2 eexists. split; [reflexivity|]. split; [reflexivity|].
      split; [reflexivity|]. intros Hf.
      destruct (Hnofault Hf) as (Ho & _). discriminate Ho.
Qed.

(** X25.  [hasTextContent] and [captureClipboard]: whenever the capture
    returns plain text, [hasTextContent] is true for the same clipboard.  In
    the other direction, when [hasTextContent] is true and the capture is
    [null], either reading the HTML content threw, or the plain text is not
    empty but nothing of it is left after sanitizing. *)
Theorem hasTextContent_covers_plain_capture
    (readHTML readText : ClipboardCapture.ClipboardRead) :
  (forall content,
      ClipboardCapture.captureClipboard readHTML readText = Some content ->
      ClipboardCapture.type content = ClipboardCapture.plain ->
      ClipboardCapture.hasTextContent readText = true)
  /\ (ClipboardCapture.hasTextContent readText = true ->
      ClipboardCapture.captureClipboard readHTML readText = None ->
      (exists e, readHTML = ClipboardCapture.ReadThrows e)
      \/ exists plainText,
           readText = ClipboardCapture.ReadOk plainText
           /\ plainText <> []
           /\ ClipboardCapture.cleaned plainText = []).
Proof.
  rewrite captureClipboard_cases. split.
  - intros content Hc Hplain.
    destruct readHTML as [h|e]; [|discriminate Hc].
    destruct (ClipboardCapture.sanitizeText h) as [t|];
      [injection Hc as <-; discriminate Hplain|].
    destruct readText as [p|e]; [|discriminate Hc].
    unfold ClipboardCapture.hasTextContent.
    destruct (truthy p && (jslength (trim p) >? 0)) eqn:Hg; [reflexivity|].
    rewrite (sanitizeText_guard p Hg) in Hc. discriminate Hc.
  - intros Hhas Hnone.
    destruct readHTML as [h|e]; [|left; eexists; reflexivity].
    right. destruct readText as [p|e]; [|discriminate Hhas].
    exists p. split; [reflexivity|].
    unfold ClipboardCapture.hasTextContent in Hhas.
    apply andb_true_iff in Hhas as [Htruthy _].
    split; [destruct p; [discriminate Htruthy|discriminate]|].
    destruct (ClipboardCapture.sanitizeText h) as [t|]; [discriminate Hnone|].
    pose proof (sanitizeText_cases p) as Hp.
    destruct (ClipboardCapture.sanitizeText p) as [t|]; [discriminate Hnone|].
    exact Hp.
Qed.


(** ** The theorems above at concrete inputs *)

Lemma insertCapture_then_getCapture_witness :
  exists w1 w2,
    DatabaseHelper.insertCapture MoreSamples.insertData Samples.capturedWorld
    = (Ret tt, w1)
    /\ DatabaseHelper.getCapture (js "c2") w1
       = (Ret (Some {| Effects.id := js "c2";
                       Effects.timestamp := 1700000000500;
                       app_name := js "Safari";
                       window_title := js "Docs";
                       tabs_count := 3;
                       has_clipboard := 1;
                       screenshot_path := ContextAggregator.screenshotPathOf (js "c2");
                       json_path := ContextAggregator.jsonPathOf (js "c2");
                       webhook_sent := 0;
                       webhook_sent_at := None |}), w2)
    /\ length (db w1) = S (length (db Samples.capturedWorld))
    /\ (forall j, j <> js "c2" ->
          DatabaseHelper.selectById j (db w1)
          = DatabaseHelper.selectById j (db Samples.capturedWorld)).
Proof.
  apply (insertCapture_then_getCapture MoreSamples.insertData Samples.capturedWorld).
  - vm_compute. reflexivity.
  - vm_compute. reflexivity.
Defined.

Lemma insertCapture_duplicate_rejected_witness :
  exists e w',
    DatabaseHelper.insertCapture MoreSamples.clashingData Samples.capturedWorld
    = (Throw e, w')
    /\ db w' = db Samples.capturedWorld
    /\ ((nextFault (dbFaults Samples.capturedWorld)).1 = None ->
        e = DatabaseHelper.uniqueViolation).
Proof.
  eapply (insertCapture_duplicate_rejected MoreSamples.clashingData
            Samples.capturedWorld).
  vm_compute. reflexivity.
Defined.

Lemma updateWebhookStatus_touches_one_row_witness :
  exists w',
    DatabaseHelper.updateWebhookStatus (js "c1") true Samples.capturedWorld
    = (Ret tt, w')
    /\ length (db w') = length (db Samples.capturedWorld).
Proof.
  destruct (updateWebhookStatus_touches_one_row (js "c1") true Samples.capturedWorld)
    as (w' & Hrun & Hlen & _).
  - vm_compute. reflexivity.
  - exists w'. split; assumption.
Defined.

Lemma getStats_counts_witness :
  exists stats w',
    DatabaseHelper.getStats (DatabaseHelper.StatOk 40960) Samples.smallWorld
    = (Ret stats, w')
    /\ DatabaseHelper.totalCaptures stats
       = Z.of_nat (length (db Samples.smallWorld)).
Proof.
  destruct (getStats_counts (DatabaseHelper.StatOk 40960) Samples.smallWorld)
    as (stats & w' & Hrun & _ & _ & Htotal & _).
  - reflexivity.
  - exists stats, w'. split; assumption.
Defined.

Lemma deleteCapture_idempotent_witness :
  exists w1 w2,
    ContextAggregator.deleteCapture (js "c1") Samples.capturedWorld
    = (Ret {| ContextAggregator.ok := true; ContextAggregator.failure := None |}, w1)
    /\ ContextAggregator.deleteCapture (js "c1") w1
       = (Ret {| ContextAggregator.ok := true; ContextAggregator.failure := None |},
          w2)
    /\ DatabaseHelper.selectById (js "c1") (db w1) = None
    /\ db w2 = db w1
    /\ (forall j, j <> js "c1" ->
          DatabaseHelper.selectById j (db w1)
          = DatabaseHelper.selectById j (db Samples.capturedWorld)).
Proof.
  apply (deleteCapture_idempotent (js "c1") Samples.capturedWorld).
  vm_compute. reflexivity.
Defined.

Lemma deleteCapture_files_witness :
  fs (ContextAggregator.deleteCapture (js "c1") Samples.capturedWorld).2
    !! ContextAggregator.jsonPathOf (js "c1") = None.
Proof.
  refine (proj1 (proj2 (deleteCapture_files (js "c1") Samples.capturedWorld) _ _));
    vm_compute; reflexivity.
Defined.


Lemma captureContext_row_summarises_record_witness :
  exists context row,
    latestCapture Samples.capturedWorld = Some context
    /\ db Samples.capturedWorld = db Samples.emptyWorld ++ [row]
    /\ Effects.id row = CaptureTypes.id context
    /\ tabs_count row = Z.of_nat (length (CaptureTypes.browserTabs context)).
Proof.
  destruct (captureContext_row_summarises_record Samples.httpsURL Samples.degradedEnv
              CaptureTypes.hotkey None None Samples.emptyWorld Samples.capturedWorld
              MoreSamples.capturedResult)
    as (context & row & Hlatest & Hdb & Hid & _ & _ & _ & Htabs & _).
  - vm_compute. reflexivity.
  - reflexivity.
  - exists context, row. auto.
Defined.


Lemma captureContext_then_deleteCapture_witness :
  exists w'',
    ContextAggregator.deleteCapture (js "c1") Samples.capturedWorld
    = (Ret {| ContextAggregator.ok := true; ContextAggregator.failure := None |},
       w'')
    /\ db w'' = db Samples.emptyWorld
    /\ fs w'' = fs Samples.emptyWorld
    /\ latestCapture w'' = latestCapture Samples.capturedWorld
    /\ is_Some (latestCapture w'').
Proof.
  apply (captureContext_then_deleteCapture Samples.httpsURL Samples.degradedEnv
           CaptureTypes.hotkey None None Samples.emptyWorld Samples.capturedWorld
           MoreSamples.capturedResult).
  - vm_compute. reflexivity.
  - reflexivity.
  - vm_compute. reflexivity.
  - vm_compute. reflexivity.
  - vm_compute. reflexivity.
  - vm_compute. reflexivity.
Defined.

Lemma sendToWebhook_outbox_witness :
  exists w1 unsent w2,
    ContextAggregator.sendToWebhook (Samples.always Samples.accepted) (js "c1")
      Samples.degradedContext Samples.capturedWorld = (Ret tt, w1)
    /\ DatabaseHelper.getUnsentCaptures w1 = (Ret unsent, w2)
    /\ (forall r, r ∈ unsent -> Effects.id r <> js "c1").
Proof.
  destruct (sendToWebhook_outbox (Samples.always Samples.accepted) (js "c1")
              Samples.degradedContext Samples.capturedWorld)
    as (w1 & unsent & w2 & Hrun & Hunsent & Hsent & _).
  - vm_compute. reflexivity.
  - exists w1, unsent, w2. split; [exact Hrun|]. split; [exact Hunsent|].
    apply Hsent. reflexivity.
Defined.

Lemma cleanupOldCaptures_agrees_with_deleteOldCaptures_witness :
  (ContextAggregator.cleanupOldCaptures 30 Samples.smallWorld).1
  = (DatabaseHelper.deleteOldCaptures 30 Samples.smallWorld).1
  /\ db (ContextAggregator.cleanupOldCaptures 30 Samples.smallWorld).2
     = db (DatabaseHelper.deleteOldCaptures 30 Samples.smallWorld).2
  /\ fs (DatabaseHelper.deleteOldCaptures 30 Samples.smallWorld).2
     = fs Samples.smallWorld.
Proof.
  apply (cleanupOldCaptures_agrees_with_deleteOldCaptures 30 Samples.smallWorld).
  - reflexivity.
  - refine (bool_decide_unpack _ _). vm_compute. exact I.
  - vm_compute. lia.
Defined.

Lemma hasTextContent_covers_plain_capture_witness :
  ClipboardCapture.hasTextContent (ClipboardCapture.ReadOk (js "note")) = true.
Proof.
  apply (proj1 (hasTextContent_covers_plain_capture
                  (ClipboardCapture.ReadOk []) (ClipboardCapture.ReadOk (js "note")))
           (ClipboardCapture.mkClipboard (js "note") ClipboardCapture.plain)).
  - vm_compute. reflexivity.
  - reflexivity.
Defined.
